(** * HappyLaunderer: order lifecycle, payment reconciliation, saved
      addresses and the polling coordinator

    A shallow embedding of the backend ([orderController.js],
    [paymentController.js], [authController.js], [pricingController.js],
    the authentication and error middleware, the routes behind
    [requireDriver] and the SQL schema they run against) and of the iOS
    app's models, [OrderManager] (its polling registry and its published
    lists of orders) and "Add Address" form, followed by the properties
    proved about them.

    Conventions of the embedding.
    - A handler [async function h(req, res, next)] becomes a computation
      in the monad [M]: it threads the [world] (the database and the log
      of calls made to Clerk and Stripe), may [throw], and may leave early
      with [return res.status(..).json(..)].  Running it yields an
      [outcome]: the response sent, or the error handed to [next].
    - Every [db.query] is one function on the tables, named after the
      statement it stands for; the statement's text is quoted above it.
      There are no transactions in the source, so the writes made before
      an exception stay.
    - The textual formats decided by third parties (UUID syntax, ISO-8601
      dates, numeric strings, the instants a [TIMESTAMP] holds) are fields
      of the class [TextFormats]; the answers of Clerk and Stripe are
      fields of the records [external] and [Auth.clerk]; the order in
      which PostgreSQL returns rows it is free to arrange is a field of
      the class [Planner].
    - A JS string is a [string] with one character for each of its UTF-16
      code units; the texts of the model are those whose code units are
      all below 256.  The character U+0000 is ["000"%char].
    - A value that a handler binds to a column goes through the checks
      PostgreSQL makes on it: no text holds U+0000, a [VARCHAR(n)] keeps
      [n] characters, an [INTEGER] has 32 bits, a [jsonb] holds no escaped
      U+0000, a [TIMESTAMP] has its range.  The identifier
      [req.user.clerkId] and the content of a webhook event whose
      signature verified are Clerk's and Stripe's own and are taken as
      they are. *)

From Stdlib Require Import ZArith QArith Qround List String Ascii Lia Bool.
From stdpp Require Import base gmap strings list sorting.
Import ListNotations.
Open Scope string_scope.
Set Warnings "-register-all".

(* ================================================================== *)
(** ** JavaScript values *)
(* ================================================================== *)

Module JS.

(** A JS number.  A finite double is represented by the rational it
    denotes; the three non-finite doubles are kept apart. *)
Inductive number : Type :=
| finite (q : Q)
| NaN
| Infinity
| NegInfinity.

(** The values that reach the handlers: what [JSON.parse] produces, plus
    the [Date] that Joi's date conversion yields.  [undefined] is the
    absence of a property and is modelled by [option]. *)
Inductive value : Type :=
| VNull
| VBool (b : bool)
| VNumber (n : number)
| VString (s : string)
| VDate (t : Z)
| VArray (items : list value)
| VObject (props : list (string * value)).

(** Property access [o.k]: [None] is [undefined]. *)
Fixpoint assoc {A : Type} (k : string) (props : list (string * A)) : option A :=
  match props with
  | [] => None
  | (k', v) :: rest => if String.eqb k k' then Some v else assoc k rest
  end.

Definition get (k : string) (o : value) : option value :=
  match o with
  | VObject props => assoc k props
  | _ => None
  end.

(** [Number.isFinite(v)]: true only for a value of type number that is
    neither NaN nor an infinity; no coercion is applied. *)
Definition Number_isFinite (v : option value) : bool :=
  match v with
  | Some (VNumber (finite _)) => true
  | _ => false
  end.

(** Truthiness, as used by [if (req.body.orderId)] and [!customerId]. *)
Definition is_zero (q : Q) : bool := Z.eqb (Qnum q) 0.

Definition truthy (v : option value) : bool :=
  match v with
  | None => false
  | Some VNull => false
  | Some (VBool b) => b
  | Some (VNumber (finite q)) => negb (is_zero q)
  | Some (VNumber NaN) => false
  | Some (VNumber _) => true
  | Some (VString s) => negb (String.eqb s "")
  | Some _ => true
  end.

(** [Array.prototype.includes] on strings. *)
Definition includes (xs : list string) (x : string) : bool :=
  existsb (String.eqb x) xs.

(** [parseInt(s, 10)]: leading white space is skipped, an optional sign
    is read, then the longest run of decimal digits; [None] is NaN.  The
    result is kept as the exact integer read (JS rounds it to a double
    beyond 2^53).  White space is what [StrWhiteSpaceChar] lists; of it
    the tab, the four line controls U+000A to U+000D, the space and the
    no-break space U+00A0 are below 256. *)
Definition is_space (c : ascii) : bool :=
  let n := nat_of_ascii c in
  (n =? 32)%nat || ((9 <=? n)%nat && (n <=? 13)%nat) || (n =? 160)%nat.

Definition digit_of (c : ascii) : option Z :=
  let n := nat_of_ascii c in
  if ((48 <=? n)%nat && (n <=? 57)%nat)%bool then Some (Z.of_nat (n - 48)) else None.

Fixpoint skip_spaces (s : string) : string :=
  match s with
  | String c rest => if is_space c then skip_spaces rest else s
  | EmptyString => s
  end.

Fixpoint read_digits (acc : option Z) (s : string) : option Z :=
  match s with
  | String c rest =>
      match digit_of c with
      | Some d =>
          read_digits (Some (10 * match acc with Some a => a | None => 0 end + d)%Z) rest
      | None => acc
      end
  | EmptyString => acc
  end.

Definition parseInt10 (s : string) : option Z :=
  match skip_spaces s with
  | String "-" rest => option_map Z.opp (read_digits None rest)
  | String "+" rest => read_digits None rest
  | t => read_digits None t
  end.

(** [Math.round(x)]: the integer nearest to [x], halves going up. *)
Definition Math_round (q : Q) : Z := Qfloor (q + (1 # 2)).

End JS.

Export JS.

(** Row identifiers.  The columns are [UUID]s filled by
    [gen_random_uuid()]; a UUID is a 128-bit number and is kept as one. *)
Definition uuid : Type := N.
Bind Scope N_scope with uuid.

(** Instants ([TIMESTAMP] columns, [Date] objects), as a number of
    milliseconds. *)
Definition timestamp : Type := Z.
Bind Scope Z_scope with timestamp.

(** The textual formats fixed outside the repository: how a UUID is
    written (PostgreSQL's input syntax, also what Joi's [.uuid()]
    accepts), which strings Joi converts to numbers, which strings it
    reads as JSON objects, which values [Joi.date().iso()] accepts and
    the instant each denotes, and which instants PostgreSQL reads as a
    [TIMESTAMP] from the text node-postgres writes for a [Date] (the type
    starts in 4713 BC, a [Date] 270000 years earlier). *)
Class TextFormats : Type := {
  uuid_of_text : string -> option uuid;
  number_of_text : string -> option Q;
  object_of_text : string -> option (list (string * value));
  date_of_iso : value -> option timestamp;
  reads_as_timestamp : timestamp -> bool
}.

(* ================================================================== *)
(** ** The part of Joi the schemas use *)
(* ================================================================== *)

Module Joi.

Record string_rules : Type := {
  allow_empty : bool;               (* .allow('') *)
  max_length : option nat;          (* .max(n) *)
  only : option (list string);      (* .valid(a, b, ...) *)
  guid : bool                       (* .uuid() *)
}.

Record number_rules : Type := {
  whole : bool;                     (* .integer() *)
  minimum : option Q                (* .min(n) *)
}.

(** [.required()], [.default(d)], or neither. *)
Inductive presence : Type :=
| optional
| required
| default (d : value).

Inductive schema : Type :=
| string_schema (r : string_rules)
| number_schema (r : number_rules)
| date_iso_schema
| object_schema (keys : list (string * (presence * schema))).

Definition string : schema :=
  string_schema {| allow_empty := false; max_length := None; only := None; guid := false |}.

Definition number : schema :=
  number_schema {| whole := false; minimum := None |}.

Definition date_iso : schema := date_iso_schema.

Definition object (keys : list (String.string * (presence * schema))) : schema :=
  object_schema keys.

Definition allow_empty_string (s : schema) : schema :=
  match s with
  | string_schema r =>
      string_schema {| allow_empty := true; max_length := max_length r;
                       only := only r; guid := guid r |}
  | _ => s
  end.

Definition max (n : nat) (s : schema) : schema :=
  match s with
  | string_schema r =>
      string_schema {| allow_empty := allow_empty r; max_length := Some n;
                       only := only r; guid := guid r |}
  | _ => s
  end.

Definition valid (xs : list String.string) (s : schema) : schema :=
  match s with
  | string_schema r =>
      string_schema {| allow_empty := allow_empty r; max_length := max_length r;
                       only := Some xs; guid := guid r |}
  | _ => s
  end.

Definition uuid (s : schema) : schema :=
  match s with
  | string_schema r =>
      string_schema {| allow_empty := allow_empty r; max_length := max_length r;
                       only := only r; guid := true |}
  | _ => s
  end.

Definition integer (s : schema) : schema :=
  match s with
  | number_schema r => number_schema {| whole := true; minimum := minimum r |}
  | _ => s
  end.

Definition min (q : Q) (s : schema) : schema :=
  match s with
  | number_schema r => number_schema {| whole := whole r; minimum := Some q |}
  | _ => s
  end.

(** The outcome of [schema.validate(input)]: [{ error }] or [{ value }]. *)
Definition result : Type := String.string + value.

Definition is_integer (q : Q) : bool := Z.eqb (Qnum q mod Z.pos (Qden q)) 0.

(** [Number.MAX_SAFE_INTEGER]; Joi refuses numbers beyond it. *)
Definition MAX_SAFE_INTEGER : Z := 9007199254740991.

Definition is_safe (q : Q) : bool :=
  Qle_bool (inject_Z (- MAX_SAFE_INTEGER)) q && Qle_bool q (inject_Z MAX_SAFE_INTEGER).

Definition check_string (r : string_rules) (s : String.string) : bool :=
  match only r with
  | Some xs => includes xs s
  | None =>
      (allow_empty r || negb (String.eqb s ""))
      && match max_length r with Some n => (String.length s <=? n)%nat | None => true end
  end.

Definition check_number (r : number_rules) (q : Q) : bool :=
  is_safe q
  && (negb (whole r) || is_integer q)
  && match minimum r with Some m => Qle_bool m q | None => true end.

Section Validate.
Context {formats : TextFormats}.

Definition validate_string (r : string_rules) (v : value) : result :=
  match v with
  | VString s =>
      if check_string r s then
        if guid r then
          match uuid_of_text s with
          | Some _ => inr v
          | None => inl "must be a valid GUID"
          end
        else inr v
      else inl "is not an allowed string"
  | _ => inl "must be a string"
  end.

Definition validate_number (r : number_rules) (v : value) : result :=
  let checked (q : Q) : result :=
    if check_number r q then inr (VNumber (finite q)) else inl "is not an allowed number" in
  match v with
  | VNumber (finite q) => checked q
  | VString s =>
      match number_of_text s with
      | Some q => checked q
      | None => inl "must be a number"
      end
  | _ => inl "must be a number"
  end.

Definition validate_date_iso (v : value) : result :=
  match date_of_iso v with
  | Some t => inr (VDate t)
  | None => inl "must be in ISO 8601 date format"
  end.

(** [schema.validate(v)].  For an object schema every declared key is
    looked at in turn (missing and required: error; missing with a
    default: the default; present: validated by the key's schema); then
    the first property of the input that no key declares is an error,
    whose message names it.  The value returned holds the declared keys
    only.  A string that reads as a JSON object is validated as that
    object. *)
Fixpoint validate (s : schema) (v : value) : result :=
  match s with
  | string_schema r => validate_string r v
  | number_schema r => validate_number r v
  | date_iso_schema => validate_date_iso v
  | object_schema keys =>
      let validate_props (props : list (String.string * value)) : result :=
        match
          (fix each (ks : list (String.string * (presence * schema)))
               : String.string + list (String.string * value) :=
             match ks with
             | [] => inr []
             | (k, (p, s')) :: ks' =>
                 match assoc k props with
                 | Some x =>
                     match validate s' x with
                     | inl e => inl (k ++ " " ++ e)
                     | inr x' =>
                         match each ks' with
                         | inl e => inl e
                         | inr rest => inr ((k, x') :: rest)
                         end
                     end
                 | None =>
                     match p with
                     | required => inl (k ++ " is required")
                     | optional => each ks'
                     | default d =>
                         match each ks' with
                         | inl e => inl e
                         | inr rest => inr ((k, d) :: rest)
                         end
                     end
                 end
             end) keys
        with
        | inl e => inl e
        | inr o =>
            match List.find (fun p => negb (existsb (String.eqb (fst p)) (map fst keys)))
                            props with
            | Some unknown => inl (fst unknown ++ " is not allowed")
            | None => inr (VObject o)
            end
        end in
      match v with
      | VObject props => validate_props props
      | VString text =>
          match object_of_text text with
          | Some props => validate_props props
          | None => inl "must be of type object"
          end
      | _ => inl "must be of type object"
      end
  end.

End Validate.

End Joi.

(* ================================================================== *)
(** ** The relational store ([001_initial_schema.sql]) *)
(* ================================================================== *)

Module Db.

(** [CREATE TYPE order_status AS ENUM (...)] *)
Inductive order_status : Type :=
| pending
| picked_up
| in_laundry
| ready
| out_for_delivery
| completed
| cancelled.

(** [CREATE TYPE service_type AS ENUM (...)] *)
Inductive service_type : Type :=
| standard
| express
| premium.

(** [CREATE TYPE payment_status AS ENUM ('pending', 'completed',
    'failed', 'refunded')] *)
Inductive payment_status : Type :=
| payment_pending
| payment_completed
| payment_failed
| payment_refunded.

Definition order_status_text (s : order_status) : string :=
  match s with
  | pending => "pending"
  | picked_up => "picked_up"
  | in_laundry => "in_laundry"
  | ready => "ready"
  | out_for_delivery => "out_for_delivery"
  | completed => "completed"
  | cancelled => "cancelled"
  end.

Definition all_order_statuses : list order_status :=
  [pending; picked_up; in_laundry; ready; out_for_delivery; completed; cancelled].

Definition all_service_types : list service_type := [standard; express; premium].

Definition service_type_text (s : service_type) : string :=
  match s with
  | standard => "standard"
  | express => "express"
  | premium => "premium"
  end.

(** Input conversion of an enum column: the label, or nothing. *)
Definition order_status_of_text (s : string) : option order_status :=
  List.find (fun x => String.eqb (order_status_text x) s) all_order_statuses.

Definition service_type_of_text (s : string) : option service_type :=
  List.find (fun x => String.eqb (service_type_text x) s) all_service_types.

(** [CREATE TABLE users]. [saved_addresses JSONB DEFAULT '[]'] has no
    [NOT NULL], hence the [option]. *)
Record user_row : Type := {
  user_id : uuid;
  clerk_id : string;
  name : option string;
  phone : option string;
  default_address : option value;
  saved_addresses : option value;
  user_created_at : timestamp;
  user_updated_at : timestamp
}.

(** [CREATE TABLE orders].  No statement of the repository writes a null
    [status] or [service_type], so these two columns carry the enum. *)
Record order_row : Type := {
  order_id : uuid;
  order_user_id : uuid;
  pickup_address : value;
  delivery_address : value;
  scheduled_time : timestamp;
  status : order_status;
  order_service_type : service_type;
  item_count : Z;
  price : Q;
  driver_id : option uuid;
  driver_location : option value;
  notes : option string;
  order_created_at : timestamp;
  order_updated_at : timestamp
}.

(** [CREATE TABLE payments] *)
Record payment_row : Type := {
  payment_id : uuid;
  payment_order_id : uuid;
  payment_user_id : uuid;
  stripe_payment_id : option string;
  stripe_payment_intent_id : option string;
  amount : Q;
  payment_state : payment_status;
  payment_method_id : option string;
  error_message : option string;
  payment_created_at : timestamp;
  payment_updated_at : timestamp
}.

(** [CREATE TABLE order_status_history] *)
Record history_row : Type := {
  history_id : uuid;
  history_order_id : uuid;
  old_status : option order_status;
  new_status : order_status;
  changed_by : option uuid;
  history_notes : option string;
  history_created_at : timestamp
}.

(** The four tables, rows in insertion order, and the state of
    [gen_random_uuid()]: the next identifier it hands out. *)
Record database : Type := {
  users : list user_row;
  orders : list order_row;
  payments : list payment_row;
  order_status_history : list history_row;
  next_uuid : uuid
}.

Definition empty_database : database :=
  {| users := []; orders := []; payments := []; order_status_history := [];
     next_uuid := 0%N |}.

(** What [pg] throws: an error carrying an SQLSTATE [code]. *)
Record db_error : Type := { sqlstate : string; db_message : string }.

Definition unique_violation : db_error :=
  {| sqlstate := "23505"; db_message := "duplicate key value violates unique constraint" |}.
Definition foreign_key_violation : db_error :=
  {| sqlstate := "23503"; db_message := "insert or update violates foreign key constraint" |}.
Definition not_null_violation : db_error :=
  {| sqlstate := "23502"; db_message := "null value violates not-null constraint" |}.
Definition invalid_text_representation : db_error :=
  {| sqlstate := "22P02"; db_message := "invalid input syntax" |}.
Definition invalid_parameter_value : db_error :=
  {| sqlstate := "22023"; db_message := "cannot extract elements from a non-array" |}.
Definition character_not_in_repertoire : db_error :=
  {| sqlstate := "22021"; db_message := "invalid byte sequence for encoding UTF8: 0x00" |}.
Definition untranslatable_character : db_error :=
  {| sqlstate := "22P05"; db_message := "unsupported Unicode escape sequence" |}.
Definition string_data_right_truncation : db_error :=
  {| sqlstate := "22001"; db_message := "value too long for type character varying" |}.
Definition numeric_value_out_of_range : db_error :=
  {| sqlstate := "22003"; db_message := "value is out of range for type integer" |}.
Definition datetime_field_overflow : db_error :=
  {| sqlstate := "22008"; db_message := "timestamp out of range" |}.

(** The text holds the character U+0000, which no PostgreSQL text may
    hold. *)
Fixpoint has_nul (s : string) : bool :=
  match s with
  | EmptyString => false
  | String c rest => (nat_of_ascii c =? 0)%nat || has_nul rest
  end.

(** A string or a property name inside the value holds U+0000:
    [JSON.stringify] writes it as an escape, which [jsonb] refuses. *)
Fixpoint holds_nul (v : value) : bool :=
  match v with
  | VString s => has_nul s
  | VArray items => existsb holds_nul items
  | VObject props =>
      existsb (fun p : string * value => has_nul (fst p) || holds_nul (snd p)) props
  | _ => false
  end.

(** The text is made of spaces only. *)
Fixpoint all_spaces (s : string) : bool :=
  match s with
  | EmptyString => true
  | String c rest => (nat_of_ascii c =? 32)%nat && all_spaces rest
  end.

(** A statement: it fails with a [db_error] and leaves the tables as they
    were, or it returns its rows and the tables after it.  The constraints
    of the schema are checked (keys, references, [NOT NULL], enum labels,
    UUID syntax), and so is what the types of the columns refuse in a
    value bound to them. *)
Definition statement (A : Type) : Type := database -> db_error + (A * database).

End Db.

Export Db.

(* ================================================================== *)
(** ** The statements the controllers send *)
(* ================================================================== *)

Module Sql.

Section Statements.
Context {formats : TextFormats}.

(** A parameter bound to a [UUID] column or compared with one: the
    identifier read from the text, or the error the statement fails with.
    The statements below take such parameters already read. *)
Definition as_uuid (s : string) : db_error + uuid :=
  match uuid_of_text s with
  | Some u => inr u
  | None => inl invalid_text_representation
  end.

Definition as_uuid_value (v : option value) : db_error + uuid :=
  match v with
  | Some (VString s) => as_uuid s
  | _ => inl invalid_text_representation
  end.

(** A number bound to an [INTEGER] column, which has 32 bits. *)
Definition as_integer (v : option value) : db_error + option Z :=
  match v with
  | None | Some VNull => inr None
  | Some (VNumber (finite q)) =>
      if Joi.is_integer q then
        let z := (Qnum q / Z.pos (Qden q))%Z in
        if ((-2147483648 <=? z) && (z <=? 2147483647))%Z then inr (Some z)
        else inl numeric_value_out_of_range
      else inl invalid_text_representation
  | Some _ => inl invalid_text_representation
  end.

(** A [Date] bound to a [TIMESTAMP] column. *)
Definition as_timestamp (v : option value) : db_error + option timestamp :=
  match v with
  | None | Some VNull => inr None
  | Some (VDate t) =>
      if reads_as_timestamp t then inr (Some t) else inl datetime_field_overflow
  | Some _ => inl invalid_text_representation
  end.

(** A string sent as a parameter: PostgreSQL checks its encoding when it
    reads the parameter, before the statement runs. *)
Definition text_parameter (s : option string) : db_error + option string :=
  match s with
  | Some x => if has_nul x then inl character_not_in_repertoire else inr s
  | None => inr None
  end.

(** A string bound to a [TEXT] or [VARCHAR] column. *)
Definition as_text (v : option value) : db_error + option string :=
  match v with
  | None | Some VNull => inr None
  | Some (VString s) => text_parameter (Some s)
  | Some _ => inl invalid_text_representation
  end.

(** What a [VARCHAR(n)] column keeps of a text assigned to it: the text
    when it has at most [n] characters, its first [n] characters when the
    others are all spaces; otherwise the statement fails. *)
Definition varchar (n : nat) (s : option string) : db_error + option string :=
  match s with
  | Some x =>
      if (String.length x <=? n)%nat then inr s
      else if all_spaces (substring n (String.length x - n) x)
           then inr (Some (substring 0 n x))
           else inl string_data_right_truncation
  | None => inr None
  end.

(** The text [JSON.stringify] made of a value, bound to a [JSONB] column
    or cast to [jsonb]; the column holds the value again. *)
Definition as_jsonb (v : option value) : db_error + option value :=
  match v with
  | Some x => if holds_nul x then inl untranslatable_character else inr v
  | None => inr None
  end.

Definition as_order_status (v : option value) : db_error + option order_status :=
  match v with
  | None | Some VNull => inr None
  | Some (VString s) =>
      match order_status_of_text s with
      | Some x => inr (Some x)
      | None => inl invalid_text_representation
      end
  | Some _ => inl invalid_text_representation
  end.

Definition as_service_type (v : option value) : db_error + option service_type :=
  match v with
  | None | Some VNull => inr None
  | Some (VString s) =>
      match service_type_of_text s with
      | Some x => inr (Some x)
      | None => inl invalid_text_representation
      end
  | Some _ => inl invalid_text_representation
  end.

Definition payment_status_of_text (s : string) : option payment_status :=
  if String.eqb s "pending" then Some payment_pending
  else if String.eqb s "completed" then Some payment_completed
  else if String.eqb s "failed" then Some payment_failed
  else if String.eqb s "refunded" then Some payment_refunded
  else None.

Definition as_payment_status (s : string) : db_error + payment_status :=
  match payment_status_of_text s with
  | Some x => inr x
  | None => inl invalid_text_representation
  end.

Definition payment_status_eqb (a b : payment_status) : bool :=
  match a, b with
  | payment_pending, payment_pending
  | payment_completed, payment_completed
  | payment_failed, payment_failed
  | payment_refunded, payment_refunded => true
  | _, _ => false
  end.

(** Sequencing inside one statement: stop at the first conversion error. *)
Definition and_then {A B : Type} (x : db_error + A) (k : A -> db_error + B)
  : db_error + B :=
  match x with
  | inl e => inl e
  | inr a => k a
  end.

Definition has_user (u : uuid) (db : database) : bool :=
  existsb (fun r => N.eqb (user_id r) u) (users db).

Definition has_order (o : uuid) (db : database) : bool :=
  existsb (fun r => N.eqb (order_id r) o) (orders db).

(** *** users *)

(** [SELECT id FROM users WHERE clerk_id = $1] *)
Definition select_user_id_by_clerk_id (clerkId : string) : statement (list uuid) :=
  fun db =>
    inr (map user_id (List.filter (fun r => String.eqb (clerk_id r) clerkId) (users db)),
         db).

(** [INSERT INTO users (clerk_id, name, phone, default_address)
     VALUES ($1, $2, $3, $4) RETURNING *]:
    [id] and [saved_addresses] take their defaults, [name] is a
    [VARCHAR(255)] and [phone] a [VARCHAR(50)], and [clerk_id] is
    [UNIQUE]. *)
Definition insert_user (clerkId : string) (name phone : option value)
    (defaultAddress : option value) (now : timestamp) : statement (list user_row) :=
  fun db =>
    and_then (as_text name) (fun name' =>
    and_then (as_text phone) (fun phone' =>
    and_then (as_jsonb defaultAddress) (fun defaultAddress' =>
    and_then (varchar 255 name') (fun name'' =>
    and_then (varchar 50 phone') (fun phone'' =>
    if existsb (fun r => String.eqb (clerk_id r) clerkId) (users db)
    then inl unique_violation
    else
      let row := {| user_id := next_uuid db; clerk_id := clerkId;
                    name := name''; phone := phone'';
                    default_address := defaultAddress';
                    saved_addresses := Some (VArray []);
                    user_created_at := now; user_updated_at := now |} in
      inr ([row],
           {| users := users db ++ [row]; orders := orders db;
              payments := payments db;
              order_status_history := order_status_history db;
              next_uuid := N.succ (next_uuid db) |})))))).

(** An [UPDATE users ... WHERE clerk_id = $n RETURNING *]: [change] is
    the [SET] clause, which may fail; the [BEFORE UPDATE] trigger stamps
    [updated_at].  The rows returned are the rows changed. *)
Fixpoint update_rows {A : Type} (hit : A -> bool) (change : A -> db_error + A)
    (rows : list A) : db_error + (list A * list A) :=
  match rows with
  | [] => inr ([], [])
  | r :: rest =>
      and_then (if hit r then change r else inr r) (fun r' =>
      and_then (update_rows hit change rest) (fun '(changed, rest') =>
      inr (if hit r then r' :: changed else changed, r' :: rest')))
  end.

Definition touch_user (now : timestamp) (r : user_row) : user_row :=
  {| user_id := user_id r; clerk_id := clerk_id r; name := name r; phone := phone r;
     default_address := default_address r; saved_addresses := saved_addresses r;
     user_created_at := user_created_at r; user_updated_at := now |}.

Definition set_saved_addresses (a : option value) (r : user_row) : user_row :=
  {| user_id := user_id r; clerk_id := clerk_id r; name := name r; phone := phone r;
     default_address := default_address r; saved_addresses := a;
     user_created_at := user_created_at r; user_updated_at := user_updated_at r |}.

Definition update_users (clerkId : string) (change : user_row -> db_error + user_row)
    (now : timestamp) : statement (list user_row) :=
  fun db =>
    and_then
      (update_rows (fun r => String.eqb (clerk_id r) clerkId)
                   (fun r => and_then (change r) (fun r' => inr (touch_user now r')))
                   (users db))
      (fun '(changed, users') =>
         inr (changed,
              {| users := users'; orders := orders db; payments := payments db;
                 order_status_history := order_status_history db;
                 next_uuid := next_uuid db |})).

(** [UPDATE users
     SET name = COALESCE($1, name), phone = COALESCE($2, phone),
         default_address = COALESCE($3, default_address)
     WHERE clerk_id = $4 RETURNING *]:
    the parameters are read, and the two texts cut to their columns,
    before any row is looked at. *)
Definition update_user_profile (name phone : option value)
    (defaultAddress : option value) (clerkId : string) (now : timestamp)
  : statement (list user_row) :=
  fun db =>
    and_then (as_text name) (fun name' =>
    and_then (as_text phone) (fun phone' =>
    and_then (as_jsonb defaultAddress) (fun defaultAddress' =>
    and_then (varchar 255 name') (fun name'' =>
    and_then (varchar 50 phone') (fun phone'' =>
    update_users clerkId
      (fun r =>
         inr {| user_id := user_id r; clerk_id := clerk_id r;
                Db.name := match name'' with Some x => Some x | None => Db.name r end;
                Db.phone := match phone'' with Some x => Some x | None => Db.phone r end;
                default_address :=
                  match defaultAddress' with
                  | Some x => Some x
                  | None => default_address r
                  end;
                saved_addresses := saved_addresses r;
                user_created_at := user_created_at r;
                user_updated_at := user_updated_at r |})
      now db))))).

(** [jsonb_build_array(x)] *)
Definition jsonb_build_array (x : value) : value := VArray [x].

(** [a || b] on [jsonb]: two arrays are concatenated, two objects are
    merged (the right one wins), and otherwise a side that is not an
    array counts as the array holding it.  A null side gives null. *)
Definition jsonb_concat (a b : option value) : option value :=
  match a, b with
  | Some (VArray xs), Some (VArray ys) => Some (VArray (xs ++ ys))
  | Some (VObject xs), Some (VObject ys) =>
      Some (VObject
              (List.filter (fun p => negb (existsb (String.eqb (fst p)) (map fst ys))) xs
               ++ ys))
  | Some (VArray xs), Some y => Some (VArray (xs ++ [y]))
  | Some x, Some (VArray ys) => Some (VArray (x :: ys))
  | Some x, Some y => Some (VArray [x; y])
  | _, _ => None
  end.

(** [UPDATE users
     SET saved_addresses = saved_addresses || jsonb_build_array($1::jsonb)
     WHERE clerk_id = $2 RETURNING *]:
    the address is read as [jsonb] before any row is looked at. *)
Definition append_saved_address (address : value) (clerkId : string)
    (now : timestamp) : statement (list user_row) :=
  fun db =>
    and_then (as_jsonb (Some address)) (fun _ =>
    update_users clerkId
      (fun r => inr (set_saved_addresses
                       (jsonb_concat (saved_addresses r) (Some (jsonb_build_array address)))
                       r))
      now db).

(** [jsonb_array_elements(j) WITH ORDINALITY arr(elem, idx)]: the
    elements with their 1-based positions; no row for a null; an error
    for a value that is not an array. *)
Definition jsonb_array_elements (j : option value) : db_error + list (value * Z) :=
  match j with
  | None => inr []
  | Some (VArray xs) => inr (combine xs (map Z.of_nat (seq 1 (length xs))))
  | Some _ => inl invalid_parameter_value
  end.

(** [jsonb_agg(elem)]: null when there is no row. *)
Definition jsonb_agg (elems : list value) : option value :=
  match elems with
  | [] => None
  | _ => Some (VArray elems)
  end.

(** [COALESCE(a, b)] *)
Definition COALESCE {A : Type} (a : option A) (b : A) : A :=
  match a with
  | Some x => x
  | None => b
  end.

(** [UPDATE users
     SET saved_addresses = COALESCE(
       (SELECT jsonb_agg(elem)
        FROM jsonb_array_elements(saved_addresses) WITH ORDINALITY arr(elem, idx)
        WHERE idx - 1 != $1),
       '[]'::jsonb)
     WHERE clerk_id = $2 RETURNING *] *)
Definition remove_saved_address (index : Z) (clerkId : string)
    (now : timestamp) : statement (list user_row) :=
  update_users clerkId
    (fun r =>
       and_then (jsonb_array_elements (saved_addresses r)) (fun arr =>
       inr (set_saved_addresses
              (Some (COALESCE
                       (jsonb_agg
                          (map fst
                             (List.filter (fun p => negb (snd p - 1 =? index)%Z) arr)))
                       (VArray [])))
              r)))
    now.

(** *** orders and their history *)

Definition with_orders (db : database) (rows : list order_row) : database :=
  {| users := users db; orders := rows; payments := payments db;
     order_status_history := order_status_history db; next_uuid := next_uuid db |}.

Definition with_payments (db : database) (rows : list payment_row) : database :=
  {| users := users db; orders := orders db; payments := rows;
     order_status_history := order_status_history db; next_uuid := next_uuid db |}.

(** [INSERT INTO orders (user_id, pickup_address, delivery_address,
       scheduled_time, service_type, item_count, price, notes)
     VALUES ($1, ..., $8) RETURNING *]:
    [id] is generated, [status] defaults to ['pending'];
    [pickup_address], [delivery_address], [scheduled_time] and [price] are
    [NOT NULL]; [service_type] and [item_count] have defaults, but a
    column named in the statement takes the value given;
    [user_id] references [users].  The parameters are read in their
    order. *)
Definition insert_order (userId : uuid) (pickupAddress deliveryAddress : option value)
    (scheduledTime serviceType itemCount : option value) (price : option Q)
    (notes : option value) (now : timestamp) : statement (list order_row) :=
  fun db =>
    and_then (as_jsonb pickupAddress) (fun pickupAddress' =>
    and_then (as_jsonb deliveryAddress) (fun deliveryAddress' =>
    and_then (as_timestamp scheduledTime) (fun scheduledTime' =>
    and_then (as_service_type serviceType) (fun serviceType' =>
    and_then (as_integer itemCount) (fun itemCount' =>
    and_then (as_text notes) (fun notes' =>
    match pickupAddress', deliveryAddress', scheduledTime', serviceType', itemCount', price
    with
    | Some pickup, Some delivery, Some time, Some tier, Some count, Some price' =>
        if has_user userId db then
          let row := {| order_id := next_uuid db; order_user_id := userId;
                        pickup_address := pickup; delivery_address := delivery;
                        scheduled_time := time; status := pending;
                        order_service_type := tier; item_count := count;
                        price := price'; driver_id := None; driver_location := None;
                        notes := notes';
                        order_created_at := now; order_updated_at := now |} in
          inr ([row],
               {| users := users db; orders := orders db ++ [row];
                  payments := payments db;
                  order_status_history := order_status_history db;
                  next_uuid := N.succ (next_uuid db) |})
        else inl foreign_key_violation
    | _, _, _, _, _, _ => inl not_null_violation
    end)))))).

(** [INSERT INTO order_status_history (order_id, old_status, new_status,
       changed_by, notes) VALUES (...)], the columns left out being null.
    [order_id] references [orders] and [new_status] is [NOT NULL]. *)
Definition insert_history (orderId : db_error + uuid) (oldStatus : option order_status)
    (newStatus : option value) (changedBy : option uuid) (notes : option value)
    (now : timestamp) : statement unit :=
  fun db =>
    and_then orderId (fun orderId' =>
    and_then (as_order_status newStatus) (fun newStatus' =>
    and_then (as_text notes) (fun notes' =>
    match newStatus' with
    | Some new =>
        if has_order orderId' db then
          let row := {| history_id := next_uuid db; history_order_id := orderId';
                        old_status := oldStatus; new_status := new;
                        changed_by := changedBy; history_notes := notes';
                        history_created_at := now |} in
          inr (tt,
               {| users := users db; orders := orders db; payments := payments db;
                  order_status_history := order_status_history db ++ [row];
                  next_uuid := N.succ (next_uuid db) |})
        else inl foreign_key_violation
    | None => inl not_null_violation
    end))).

(** [SELECT * FROM orders WHERE id = $1] *)
Definition select_order_by_id (id : db_error + uuid) : statement (list order_row) :=
  fun db =>
    and_then id (fun id' =>
    inr (List.filter (fun r => N.eqb (order_id r) id') (orders db), db)).

(** [SELECT * FROM orders WHERE id = $1 AND user_id = $2] *)
Definition select_order_by_id_and_user (id : db_error + uuid) (userId : uuid)
  : statement (list order_row) :=
  fun db =>
    and_then id (fun id' =>
    inr (List.filter (fun r => N.eqb (order_id r) id' && N.eqb (order_user_id r) userId)
                     (orders db),
         db)).

Definition set_status (s : order_status) (now : timestamp) (r : order_row) : order_row :=
  {| order_id := order_id r; order_user_id := order_user_id r;
     pickup_address := pickup_address r; delivery_address := delivery_address r;
     scheduled_time := scheduled_time r; status := s;
     order_service_type := order_service_type r; item_count := item_count r;
     price := price r; driver_id := driver_id r; driver_location := driver_location r;
     notes := notes r;
     order_created_at := order_created_at r; order_updated_at := now |}.

Definition set_driver_location (l : value) (now : timestamp) (r : order_row) : order_row :=
  {| order_id := order_id r; order_user_id := order_user_id r;
     pickup_address := pickup_address r; delivery_address := delivery_address r;
     scheduled_time := scheduled_time r; status := status r;
     order_service_type := order_service_type r; item_count := item_count r;
     price := price r; driver_id := driver_id r; driver_location := Some l;
     notes := notes r;
     order_created_at := order_created_at r; order_updated_at := now |}.

(** [UPDATE orders SET status = $1 WHERE id = $2 RETURNING *] *)
Definition update_order_status (newStatus : option value) (id : db_error + uuid)
    (now : timestamp) : statement (list order_row) :=
  fun db =>
    and_then (as_order_status newStatus) (fun newStatus' =>
    and_then id (fun id' =>
    match newStatus' with
    | Some s =>
        and_then (update_rows (fun r => N.eqb (order_id r) id')
                              (fun r => inr (set_status s now r)) (orders db))
          (fun '(changed, orders') => inr (changed, with_orders db orders'))
    | None =>
        (* [status] is nullable in the schema; [order_row] has no null
           status and no caller passes one *)
        inl not_null_violation
    end)).

(** [UPDATE orders SET driver_location = $1 WHERE id = $2 RETURNING *] *)
Definition update_order_driver_location (location : value) (id : db_error + uuid)
    (now : timestamp) : statement (list order_row) :=
  fun db =>
    and_then id (fun id' =>
    and_then (update_rows (fun r => N.eqb (order_id r) id')
                          (fun r => inr (set_driver_location location now r)) (orders db))
      (fun '(changed, orders') => inr (changed, with_orders db orders'))).

(** *** payments *)

(** [SELECT * FROM payments WHERE order_id = $1 AND status = $2] *)
Definition select_payments_by_order_and_status (orderId : db_error + uuid)
    (state : string) : statement (list payment_row) :=
  fun db =>
    and_then orderId (fun orderId' =>
    and_then (as_payment_status state) (fun state' =>
    inr (List.filter (fun r => N.eqb (payment_order_id r) orderId'
                               && payment_status_eqb (payment_state r) state')
                     (payments db),
         db))).

Definition same_text (a : option string) (b : string) : bool :=
  match a with
  | Some x => String.eqb x b
  | None => false
  end.

(** [INSERT INTO payments (order_id, user_id, stripe_payment_id,
       stripe_payment_intent_id, amount, status, payment_method_id)
     VALUES ($1, ..., $7) RETURNING *], and the same statement with
    [error_message] in place of the three identifiers:
    the parameters are read in their order; the three identifiers are
    [VARCHAR(255)]; [stripe_payment_id] is [UNIQUE] (nulls apart);
    [order_id] and [user_id] are references. *)
Definition insert_payment (orderId : db_error + uuid) (userId : uuid)
    (stripePaymentId : option string) (stripePaymentIntentId : option string)
    (amount : Q) (state : string) (paymentMethodId : option string)
    (errorMessage : option string) (now : timestamp) : statement (list payment_row) :=
  fun db =>
    and_then orderId (fun orderId' =>
    and_then (text_parameter stripePaymentId) (fun charge =>
    and_then (text_parameter stripePaymentIntentId) (fun intent =>
    and_then (as_payment_status state) (fun state' =>
    and_then (text_parameter paymentMethodId) (fun method =>
    and_then (text_parameter errorMessage) (fun message =>
    and_then (varchar 255 charge) (fun charge' =>
    and_then (varchar 255 intent) (fun intent' =>
    and_then (varchar 255 method) (fun method' =>
    if match charge' with
       | Some c => existsb (fun r => same_text (stripe_payment_id r) c) (payments db)
       | None => false
       end
    then inl unique_violation
    else if has_order orderId' db && has_user userId db then
      let row := {| payment_id := next_uuid db; payment_order_id := orderId';
                    payment_user_id := userId; stripe_payment_id := charge';
                    stripe_payment_intent_id := intent';
                    amount := amount; payment_state := state';
                    payment_method_id := method';
                    error_message := message;
                    payment_created_at := now; payment_updated_at := now |} in
      inr ([row],
           {| users := users db; orders := orders db;
              payments := payments db ++ [row];
              order_status_history := order_status_history db;
              next_uuid := N.succ (next_uuid db) |})
    else inl foreign_key_violation))))))))).

Definition settle (state : payment_status) (message : option string) (now : timestamp)
    (r : payment_row) : payment_row :=
  {| payment_id := payment_id r; payment_order_id := payment_order_id r;
     payment_user_id := payment_user_id r; stripe_payment_id := stripe_payment_id r;
     stripe_payment_intent_id := stripe_payment_intent_id r;
     amount := amount r; payment_state := state;
     payment_method_id := payment_method_id r;
     error_message := message;
     payment_created_at := payment_created_at r; payment_updated_at := now |}.

(** [UPDATE payments SET status = $1 WHERE stripe_payment_intent_id = $2] *)
Definition update_payment_status (state : string) (intentId : string) (now : timestamp)
  : statement unit :=
  fun db =>
    and_then (as_payment_status state) (fun state' =>
    and_then (update_rows (fun r => same_text (stripe_payment_intent_id r) intentId)
                          (fun r => inr (settle state' (error_message r) now r))
                          (payments db))
      (fun '(_, payments') => inr (tt, with_payments db payments'))).

(** [UPDATE payments SET status = $1, error_message = $2
     WHERE stripe_payment_intent_id = $3] *)
Definition update_payment_status_and_error (state : string) (message : option string)
    (intentId : string) (now : timestamp) : statement unit :=
  fun db =>
    and_then (as_payment_status state) (fun state' =>
    and_then (update_rows (fun r => same_text (stripe_payment_intent_id r) intentId)
                          (fun r => inr (settle state' message now r))
                          (payments db))
      (fun '(_, payments') => inr (tt, with_payments db payments'))).

End Statements.

End Sql.

Export Sql.

(* ================================================================== *)
(** ** Requests, responses and the handler monad *)
(* ================================================================== *)

Module Http.

(** A thrown JS error, with the properties the error middleware reads. *)
Record error : Type := {
  isJoi : bool;
  code : option string;
  type : option string;
  statusCode : option nat;
  message : string
}.

Definition joi_error (msg : string) : error :=
  {| isJoi := true; code := None; type := None; statusCode := None; message := msg |}.

Definition pg_error (e : db_error) : error :=
  {| isJoi := false; code := Some (sqlstate e); type := None; statusCode := None;
     message := db_message e |}.

Definition type_error (msg : string) : error :=
  {| isJoi := false; code := None; type := None; statusCode := None; message := msg |}.

(** What [res.json] or [res.send] is given. *)
Inductive payload : Type :=
| json_error (text : string)
| json_error_details (text : string) (details : list string)
| json_order (order : option order_row)
| json_user (user : option user_row)
| json_payment (payment : option payment_row) (clientSecret : option string)
| json_received
| text_body (text : string).

(** How a handler ends: [res.status(n).json(..)] or [next(error)]. *)
Inductive outcome : Type :=
| Respond (status : nat) (body : payload)
| Next (e : error).

(** [req.user], set by the authentication middleware. *)
Record identity : Type := { clerkId : string; email : option string }.

Record request : Type := {
  params : list (string * string);
  body : value;
  headers : list (string * string);
  user : identity;
  time : timestamp         (* the clock while the request is served *)
}.

(** [req.params.k]; the router only calls a handler with its parameters
    bound. *)
Definition param (k : string) (req : request) : string :=
  match assoc k (params req) with
  | Some s => s
  | None => ""
  end.

(** The calls that leave the process towards Clerk and Stripe. *)
Inductive call : Type :=
| clerk_users_getUser (clerkId : string)
| stripe_customers_create (email : option string) (clerkId : string)
| clerk_users_updateUserMetadata (clerkId : string) (publicMetadata : list (string * value))
| stripe_paymentIntents_create (amount : Z) (customer : option value)
    (payment_method : option value) (orderId : option value) (userId : uuid)
    (clerkId : string).

Record world : Type := {
  store : database;
  calls : list call       (* oldest first *)
}.

(** One step of a handler: a value to go on with, a response already
    sent ([return res...]), or an exception on its way to a [catch]. *)
Inductive step (A : Type) : Type :=
| Value (a : A)
| Sent (o : outcome)
| Thrown (e : error).

Arguments Value {A} a.
Arguments Sent {A} o.
Arguments Thrown {A} e.

Definition M (A : Type) : Type := world -> step A * world.

Definition ret {A : Type} (a : A) : M A := fun w => (Value a, w).

Definition bind {A B : Type} (m : M A) (k : A -> M B) : M B :=
  fun w =>
    match m w with
    | (Value a, w') => k a w'
    | (Sent o, w') => (Sent o, w')
    | (Thrown e, w') => (Thrown e, w')
    end.

Definition throw {A : Type} (e : error) : M A := fun w => (Thrown e, w).

Definition respond {A : Type} (status : nat) (p : payload) : M A :=
  fun w => (Sent (Respond status p), w).

Definition next {A : Type} (e : error) : M A := fun w => (Sent (Next e), w).

(** [try { m } catch (error) { handler(error) }] *)
Definition try_catch {A : Type} (m : M A) (handler : error -> M A) : M A :=
  fun w =>
    match m w with
    | (Thrown e, w') => handler e w'
    | r => r
    end.

(** [const { error, value } = schema.validate(x); if (error) throw error;] *)
Definition validated (r : Joi.result) : M value :=
  match r with
  | inl msg => throw (joi_error msg)
  | inr v => ret v
  end.

(** [await db.query(...)] *)
Definition query {A : Type} (q : statement A) : M A :=
  fun w =>
    match q (store w) with
    | inl e => (Thrown (pg_error e), w)
    | inr (a, db') => (Value a, {| store := db'; calls := calls w |})
    end.

(** A call to Clerk or Stripe: it is recorded, then answers or throws. *)
Definition external_call {A : Type} (c : call) (answer : error + A) : M A :=
  fun w =>
    let w' := {| store := store w; calls := calls w ++ [c] |} in
    match answer with
    | inl e => (Thrown e, w')
    | inr a => (Value a, w')
    end.

(** Running a handler to its end. *)
Definition run (m : M outcome) (w : world) : outcome * world :=
  match m w with
  | (Value o, w') => (o, w')
  | (Sent o, w') => (o, w')
  | (Thrown e, w') => (Next e, w')
  end.

Definition starts_with (prefix s : string) : bool :=
  String.eqb (substring 0 (String.length prefix) s) prefix.

(** The error middleware ([errorHandler.js]): the response for an error
    given to [next]. *)
Definition errorHandler (err : error) : nat * payload :=
  if isJoi err then (400, json_error_details "Validation error" [message err])
  else
    match
      match code err with
      | Some "23505" => Some (409, json_error "Resource already exists")
      | Some "23503" => Some (400, json_error "Invalid reference")
      | Some "23502" => Some (400, json_error "Missing required field")
      | _ => None
      end
    with
    | Some r => r
    | None =>
        if match type err with Some t => starts_with "Stripe" t | None => false end
        then (400, json_error (message err))
        else
          (match statusCode err with Some (S n) => S n | _ => 500 end,
           json_error (if String.eqb (message err) "" then "Internal server error"
                       else message err))
    end.

End Http.

Export Http.

Declare Scope handler_scope.
Delimit Scope handler_scope with handler.
Notation "x <- m ;; k" := (bind m (fun x => k))
  (at level 100, m at next level, right associativity) : handler_scope.
Notation "m ;;; k" := (bind m (fun _ => k))
  (at level 100, right associativity) : handler_scope.

(* ================================================================== *)
(** ** [pricingController.js] *)
(* ================================================================== *)

Module PricingController.

Record tier : Type := {
  tier_name : string;
  basePrice : Q;
  description : string;
  features : list string
}.

Definition PRICING_TIERS : list (string * tier) :=
  [ ("standard",
     {| tier_name := "Standard"; basePrice := 25; description := "3-5 business days";
        features := ["Wash and fold"; "Basic detergent"; "Standard packaging"] |});
    ("express",
     {| tier_name := "Express"; basePrice := 40; description := "24-48 hours";
        features := ["Wash and fold"; "Premium detergent"; "Next-day delivery";
                     "Eco-friendly packaging"] |});
    ("premium",
     {| tier_name := "Premium"; basePrice := 60; description := "Same day delivery";
        features := ["Wash and fold"; "Luxury detergent"; "Same-day delivery";
                     "Hand washing available"; "Premium packaging";
                     "Stain treatment included"] |}) ].

End PricingController.

(* ================================================================== *)
(** ** [orderController.js] *)
(* ================================================================== *)

Module OrderController.

Local Open Scope handler_scope.

Definition address_keys : list (string * (Joi.presence * Joi.schema)) :=
  [ ("street", (Joi.required, Joi.string));
    ("city", (Joi.required, Joi.string));
    ("state", (Joi.required, Joi.string));
    ("zipCode", (Joi.required, Joi.string));
    ("latitude", (Joi.optional, Joi.number));
    ("longitude", (Joi.optional, Joi.number)) ].

Definition createOrderSchema : Joi.schema :=
  Joi.object
    [ ("pickupAddress", (Joi.required, Joi.object address_keys));
      ("deliveryAddress", (Joi.required, Joi.object address_keys));
      ("scheduledTime", (Joi.required, Joi.date_iso));
      ("serviceType",
       (Joi.required, Joi.valid ["standard"; "express"; "premium"] Joi.string));
      ("itemCount",
       (Joi.default (VNumber (finite 0)), Joi.min 0 (Joi.integer Joi.number)));
      ("notes", (Joi.optional, Joi.max 500 (Joi.allow_empty_string Joi.string))) ].

Definition updateStatusSchema : Joi.schema :=
  Joi.object
    [ ("status",
       (Joi.required,
        Joi.valid ["pending"; "picked_up"; "in_laundry"; "ready"; "out_for_delivery";
                   "completed"; "cancelled"] Joi.string));
      ("notes", (Joi.optional, Joi.max 500 (Joi.allow_empty_string Joi.string))) ].

(** The [pricingMap] of [createOrder]. *)
Definition pricingMap : list (string * Q) :=
  [ ("standard", 25%Q); ("express", 40%Q); ("premium", 60%Q) ].

(** [pricingMap[serviceType]] *)
Definition index_by {A : Type} (o : list (string * A)) (k : option value) : option A :=
  match k with
  | Some (VString s) => assoc s o
  | _ => None
  end.

Section Handlers.
Context {formats : TextFormats}.

(** [rows[0]] of a result. *)
Definition first_row {A : Type} (rows : list A) : option A := List.head rows.

Definition createOrder (req : request) : M outcome :=
  try_catch
    (value <- validated (Joi.validate createOrderSchema (body req)) ;;
     let pickupAddress := get "pickupAddress" value in
     let deliveryAddress := get "deliveryAddress" value in
     let scheduledTime := get "scheduledTime" value in
     let serviceType := get "serviceType" value in
     let itemCount := get "itemCount" value in
     let notes := get "notes" value in
     let clerkId := clerkId (user req) in
     userResult <- query (select_user_id_by_clerk_id clerkId) ;;
     match userResult with
     | [] =>
         respond 404
           (json_error "User profile not found. Please complete your profile first.")
     | userId :: _ =>
         let price := index_by pricingMap serviceType in
         result <- query (insert_order userId pickupAddress deliveryAddress
                            scheduledTime serviceType itemCount price notes (time req)) ;;
         match result with
         | [] => throw (type_error "Cannot read properties of undefined (reading 'id')")
         | order :: _ =>
             query (insert_history (inr (order_id order)) None (Some (VString "pending"))
                      (Some userId) None (time req)) ;;;
             respond 201 (json_order (Some order))
         end
     end)
    (fun error => next error).

Definition updateOrderStatus (req : request) : M outcome :=
  try_catch
    (let id := as_uuid (param "id" req) in
     value <- validated (Joi.validate updateStatusSchema (body req)) ;;
     let status' := get "status" value in
     let notes := get "notes" value in
     currentOrder <- query (select_order_by_id id) ;;
     match currentOrder with
     | [] => respond 404 (json_error "Order not found")
     | current :: _ =>
         let oldStatus := status current in
         result <- query (update_order_status status' id (time req)) ;;
         query (insert_history id (Some oldStatus) status' None notes (time req)) ;;;
         respond 200 (json_order (first_row result))
     end)
    (fun error => next error).

Definition updateDriverLocation (req : request) : M outcome :=
  try_catch
    (let id := as_uuid (param "id" req) in
     let latitude := get "latitude" (body req) in
     let longitude := get "longitude" (body req) in
     if negb (Number_isFinite latitude) || negb (Number_isFinite longitude) then
       respond 400 (json_error "Valid latitude and longitude coordinates required")
     else
       (* [{ latitude, longitude, timestamp: new Date().toISOString() }],
          the instant standing for its ISO text *)
       let location :=
         VObject
           (match latitude with Some x => [("latitude", x)] | None => [] end
            ++ match longitude with Some x => [("longitude", x)] | None => [] end
            ++ [("timestamp", VDate (time req))]) in
       result <- query (update_order_driver_location location id (time req)) ;;
       match result with
       | [] => respond 404 (json_error "Order not found")
       | order :: _ => respond 200 (json_order (Some order))
       end)
    (fun error => next error).

Definition cancelOrder (req : request) : M outcome :=
  try_catch
    (let id := as_uuid (param "id" req) in
     let clerkId := clerkId (user req) in
     userResult <- query (select_user_id_by_clerk_id clerkId) ;;
     match userResult with
     | [] => respond 404 (json_error "User not found")
     | userId :: _ =>
         currentOrder <- query (select_order_by_id_and_user id userId) ;;
         match currentOrder with
         | [] => respond 404 (json_error "Order not found")
         | order :: _ =>
             if includes ["completed"; "cancelled"] (order_status_text (status order)) then
               respond 400 (json_error "Order cannot be cancelled")
             else
               result <- query (update_order_status (Some (VString "cancelled")) id
                                  (time req)) ;;
               query (insert_history id (Some (status order))
                        (Some (VString "cancelled")) (Some userId)
                        (Some (VString "Cancelled by customer")) (time req)) ;;;
               respond 200 (json_order (first_row result))
         end
     end)
    (fun error => next error).

End Handlers.

End OrderController.

(* ================================================================== *)
(** ** [authController.js] *)
(* ================================================================== *)

Module AuthController.

Local Open Scope handler_scope.

Definition profileSchema : Joi.schema :=
  Joi.object
    [ ("name", (Joi.optional, Joi.max 255 Joi.string));
      ("phone", (Joi.optional, Joi.max 50 Joi.string));
      ("defaultAddress", (Joi.optional, Joi.object OrderController.address_keys)) ].

Definition addressSchema : Joi.schema :=
  Joi.object (("label", (Joi.required, Joi.string)) :: OrderController.address_keys).

Section Handlers.
Context {formats : TextFormats}.

Definition upsertProfile (req : request) : M outcome :=
  try_catch
    (value <- validated (Joi.validate profileSchema (body req)) ;;
     let name := get "name" value in
     let phone := get "phone" value in
     let defaultAddress := get "defaultAddress" value in
     let clerkId := clerkId (user req) in
     (* [defaultAddress ? JSON.stringify(defaultAddress) : null] *)
     let address := if truthy defaultAddress then defaultAddress else None in
     existingUser <- query (select_user_id_by_clerk_id clerkId) ;;
     result <- match existingUser with
               | _ :: _ =>
                   query (update_user_profile name phone address clerkId (time req))
               | [] =>
                   query (insert_user clerkId name phone address (time req))
               end ;;
     respond 200 (json_user (List.head result)))
    (fun error => next error).

Definition addAddress (req : request) : M outcome :=
  try_catch
    (value <- validated (Joi.validate addressSchema (body req)) ;;
     let clerkId := clerkId (user req) in
     result <- query (append_saved_address value clerkId (time req)) ;;
     match result with
     | [] => respond 404 (json_error "Profile not found")
     | user :: _ => respond 200 (json_user (Some user))
     end)
    (fun error => next error).

Definition removeAddress (req : request) : M outcome :=
  try_catch
    (let index := param "index" req in
     let clerkId := clerkId (user req) in
     match parseInt10 index with
     | None =>
         respond 400
           (json_error_details "Invalid index parameter"
              ["Index must be a non-negative integer"])
     | Some parsedIndex =>
         if (parsedIndex <? 0)%Z then
           respond 400
             (json_error_details "Invalid index parameter"
                ["Index must be a non-negative integer"])
         else
           result <- query (remove_saved_address parsedIndex clerkId (time req)) ;;
           match result with
           | [] => respond 404 (json_error "Profile not found")
           | user :: _ => respond 200 (json_user (Some user))
           end
     end)
    (fun error => next error).

End Handlers.

End AuthController.

(* ================================================================== *)
(** ** [paymentController.js] *)
(* ================================================================== *)

Module PaymentController.

Local Open Scope handler_scope.

Definition paymentSchema : Joi.schema :=
  Joi.object
    [ ("orderId", (Joi.required, Joi.uuid Joi.string));
      ("paymentMethodId", (Joi.required, Joi.string)) ].

(** What Clerk returns for a user, as far as the handler reads it. *)
Record clerk_user : Type := { publicMetadata : option (list (string * value)) }.

(** What Stripe returns for a payment intent: [id], [status],
    [client_secret] and [charges?.data?.[0]?.id]. *)
Record payment_intent : Type := {
  intent_id : string;
  intent_status : string;
  client_secret : option string;
  first_charge_id : option string
}.

(** A verified webhook event: [type], [data.object.id] and
    [data.object.last_payment_error?.message]. *)
Record stripe_event : Type := {
  event_type : string;
  object_id : string;
  last_payment_error_message : option string
}.

(** The surroundings of the controller: the answers of Clerk and of
    Stripe to each call, signature verification, and the configured
    webhook secret. *)
Record external : Type := {
  getUser : string -> error + clerk_user;
  customers_create : option string -> string -> error + string;
  updateUserMetadata : string -> list (string * value) -> error + unit;
  paymentIntents_create :
    Z -> option value -> option value -> option value -> uuid -> string
    -> error + payment_intent;
  constructEvent : value -> option string -> option string -> error + stripe_event;
  STRIPE_WEBHOOK_SECRET : option string
}.

(** [{ ...o, k: v }] *)
Definition spread_with (o : list (string * value)) (k : string) (v : value)
  : list (string * value) :=
  List.filter (fun p => negb (String.eqb (fst p) k)) o ++ [(k, v)].

(** [a || null] for a string. *)
Definition or_null (a : option string) : option string :=
  match a with
  | Some "" => None
  | _ => a
  end.

Definition text_of (v : option value) : option string :=
  match v with
  | Some (VString s) => Some s
  | _ => None
  end.

Section Handlers.
Context {formats : TextFormats}.
Variable ext : external.

Definition processPayment (req : request) : M outcome :=
  try_catch
    (value <- validated (Joi.validate paymentSchema (body req)) ;;
     let orderId := get "orderId" value in
     let paymentMethodId := get "paymentMethodId" value in
     let clerkId := clerkId (user req) in
     userResult <- query (select_user_id_by_clerk_id clerkId) ;;
     match userResult with
     | [] => respond 404 (json_error "User not found")
     | userId :: _ =>
         orderResult <- query (select_order_by_id_and_user (as_uuid_value orderId) userId) ;;
         match orderResult with
         | [] => respond 404 (json_error "Order not found")
         | order :: _ =>
             existingPayment <-
               query (select_payments_by_order_and_status (as_uuid_value orderId)
                        "completed") ;;
             match existingPayment with
             | _ :: _ => respond 400 (json_error "Order already paid")
             | [] =>
                 clerkUser <- external_call (clerk_users_getUser clerkId)
                                (getUser ext clerkId) ;;
                 let customerId :=
                   match publicMetadata clerkUser with
                   | Some meta => assoc "stripeCustomerId" meta
                   | None => None
                   end in
                 customerId <-
                   (if negb (truthy customerId) then
                      customer <- external_call
                                    (stripe_customers_create (email (user req)) clerkId)
                                    (customers_create ext (email (user req)) clerkId) ;;
                      let metadata :=
                        spread_with
                          (match publicMetadata clerkUser with
                           | Some meta => meta
                           | None => []
                           end)
                          "stripeCustomerId" (VString customer) in
                      external_call (clerk_users_updateUserMetadata clerkId metadata)
                        (updateUserMetadata ext clerkId metadata) ;;;
                      ret (Some (VString customer))
                    else ret customerId) ;;
                 let amountInCents := Math_round (price order * 100) in
                 paymentIntent <-
                   external_call
                     (stripe_paymentIntents_create amountInCents customerId
                        paymentMethodId orderId userId clerkId)
                     (paymentIntents_create ext amountInCents customerId
                        paymentMethodId orderId userId clerkId) ;;
                 paymentResult <-
                   query (insert_payment (as_uuid_value orderId) userId
                            (or_null (first_charge_id paymentIntent))
                            (Some (intent_id paymentIntent))
                            (price order)
                            (if String.eqb (intent_status paymentIntent) "succeeded"
                             then "completed" else "pending")
                            (text_of paymentMethodId) None (time req)) ;;
                 respond 200 (json_payment (List.head paymentResult)
                                (client_secret paymentIntent))
             end
         end
     end)
    (fun error =>
       (if truthy (get "orderId" (body req)) then
          try_catch
            (userResult <- query (select_user_id_by_clerk_id (clerkId (user req))) ;;
             match userResult with
             | userId :: _ =>
                 query (insert_payment (as_uuid_value (get "orderId" (body req))) userId
                          None None 0 "failed" None (Some (message error)) (time req)) ;;;
                 ret tt
             | [] => ret tt
             end)
            (fun dbError => ret tt)
        else ret tt) ;;;
       next error).

Definition stripeWebhook (req : request) : M outcome :=
  try_catch
    (let sig := assoc "stripe-signature" (headers req) in
     let endpointSecret := STRIPE_WEBHOOK_SECRET ext in
     match constructEvent ext (body req) sig endpointSecret with
     | inl err => respond 400 (text_body ("Webhook Error: " ++ message err))
     | inr event =>
         (if String.eqb (event_type event) "payment_intent.succeeded" then
            query (update_payment_status "completed" (object_id event) (time req))
          else if String.eqb (event_type event) "payment_intent.payment_failed" then
            query (update_payment_status_and_error "failed"
                     (last_payment_error_message event) (object_id event) (time req))
          else ret tt) ;;;
         respond 200 json_received
     end)
    (fun error => next error).

End Handlers.

End PaymentController.

(* ================================================================== *)
(** ** [OrderManager.swift]: the registry of polling tasks *)
(* ================================================================== *)

Module OrderManager.

(** What one [fetchOrderDetails] tells the polling loop: the order came
    back ([order.status.isCompleted] or not), or the call threw. *)
Inductive fetch_result : Type :=
| fetched (isCompleted : bool)
| fetch_failed.

(** Where a polling task stands in the body of [Task { ... }]; each
    position is a suspension point of the task or the test that follows
    one. *)
Inductive position : Type :=
| at_loop_test       (* while !Task.isCancelled *)
| asleep             (* try? await Task.sleep(...) ; if Task.isCancelled { break } *)
| fetching           (* try await fetchOrderDetails(orderId:) *)
| stopping           (* await MainActor.run { self.stopRealTimeUpdates(for:) } ; break *)
| cleaning_up        (* await MainActor.run { self.pollingTasks.removeValue(forKey:) } *)
| finished.

(** A [Task<Void, Never>] created by [startRealTimeUpdates]: the order it
    captured, its cancellation flag and its position. *)
Record task : Type := {
  orderId : string;
  isCancelled : bool;
  at_position : position
}.

(** The manager: [pollingTasks], and every task created so far; a task
    handle is the task's index in [created]. *)
Record manager : Type := {
  pollingTasks : gmap string nat;
  created : list task
}.

Definition init : manager := {| pollingTasks := ∅; created := [] |}.

(** [task.cancel()] *)
Definition cancel (t : nat) (tasks : list task) : list task :=
  alter (fun x => {| orderId := orderId x; isCancelled := true;
                     at_position := at_position x |}) t tasks.

Definition move (t : nat) (p : position) (tasks : list task) : list task :=
  alter (fun x => {| orderId := orderId x; isCancelled := isCancelled x;
                     at_position := p |}) t tasks.

(** [func stopRealTimeUpdates(for orderId: String)] *)
Definition stopRealTimeUpdates (id : string) (m : manager) : manager :=
  {| pollingTasks := delete id (pollingTasks m);
     created := match pollingTasks m !! id with
                | Some t => cancel t (created m)
                | None => created m
                end |}.

(** [func startRealTimeUpdates(for orderId: String) -> Task<Void, Never>]:
    the manager afterwards, and the task returned. *)
Definition startRealTimeUpdates (id : string) (m : manager) : manager * nat :=
  let m' := stopRealTimeUpdates id m in
  let t := length (created m') in
  ({| pollingTasks := <[id := t]> (pollingTasks m');
      created := created m' ++ [{| orderId := id; isCancelled := false;
                                   at_position := at_loop_test |}] |},
   t).

(** [func stopAllRealTimeUpdates()] *)
Definition stopAllRealTimeUpdates (m : manager) : manager :=
  {| pollingTasks := ∅;
     created := map_fold (fun _ t tasks => cancel t tasks) (created m) (pollingTasks m) |}.

(** One step of task [t], from its position to the next one; [r] is the
    answer of the fetch, read only when the task is fetching. *)
Definition resume (t : nat) (r : fetch_result) (m : manager) : manager :=
  match created m !! t with
  | None => m
  | Some x =>
      match at_position x with
      | at_loop_test =>
          {| pollingTasks := pollingTasks m;
             created := move t (if isCancelled x then cleaning_up else asleep) (created m) |}
      | asleep =>
          {| pollingTasks := pollingTasks m;
             created := move t (if isCancelled x then cleaning_up else fetching) (created m) |}
      | fetching =>
          {| pollingTasks := pollingTasks m;
             created := move t (match r with
                                | fetched true => stopping
                                | _ => at_loop_test
                                end) (created m) |}
      | stopping =>
          let m' := stopRealTimeUpdates (orderId x) m in
          {| pollingTasks := pollingTasks m';
             created := move t cleaning_up (created m') |}
      | cleaning_up =>
          {| pollingTasks := delete (orderId x) (pollingTasks m);
             created := move t finished (created m) |}
      | finished => m
      end
  end.

(** What happens to the manager: calls made by the views, and steps of
    the tasks, in any interleaving. *)
Inductive event : Type :=
| start (id : string)
| stop (id : string)
| stop_all
| step_task (t : nat) (r : fetch_result).

Definition apply (e : event) (m : manager) : manager :=
  match e with
  | start id => fst (startRealTimeUpdates id m)
  | stop id => stopRealTimeUpdates id m
  | stop_all => stopAllRealTimeUpdates m
  | step_task t r => resume t r m
  end.

Definition run (events : list event) (m : manager) : manager :=
  fold_left (fun m e => apply e m) events m.

(** A task that still polls: it has not been cancelled and is inside the
    loop. *)
Definition polls (id : string) (x : task) : bool :=
  String.eqb (orderId x) id
  && negb (isCancelled x)
  && match at_position x with
     | at_loop_test | asleep | fetching => true
     | _ => false
     end.

(** The handles of the tasks polling for [id]. *)
Definition active_timers (id : string) (m : manager) : list nat :=
  List.filter (fun t => match created m !! t with
                        | Some x => polls id x
                        | None => false
                        end)
              (seq 0 (length (created m))).

(** Every task polling for [id] is the one registered for [id]. *)
Definition only_registered_polls (id : string) (m : manager) : Prop :=
  forall t x, created m !! t = Some x -> polls id x = true -> pollingTasks m !! id = Some t.

End OrderManager.

(* ================================================================== *)
(** ** The query string and the order of rows *)
(* ================================================================== *)

Module Query.

(** A property of [req.query], as Express's parser builds it from the
    query string: a string, an array or an object. *)
Inductive field : Type :=
| text (s : string)
| items (xs : list field)
| props (ps : list (string * field)).

(** [String(v)]: an array is its elements joined by commas, an object is
    ["[object Object]"]. *)
Fixpoint ToString (v : field) : string :=
  match v with
  | text s => s
  | items xs =>
      (fix join (ys : list field) : string :=
         match ys with
         | [] => ""
         | [y] => ToString y
         | y :: rest => ToString y ++ "," ++ join rest
         end) xs
  | props _ => "[object Object]"
  end.

(** [if (v)] on such a property: only the empty string is falsy. *)
Definition truthy (v : option field) : bool :=
  match v with
  | None => false
  | Some (text s) => negb (String.eqb s "")
  | Some _ => true
  end.

Definition hex_digit_of (c : ascii) : option Z :=
  let n := nat_of_ascii c in
  if ((48 <=? n)%nat && (n <=? 57)%nat)%bool then Some (Z.of_nat (n - 48))
  else if ((97 <=? n)%nat && (n <=? 102)%nat)%bool then Some (Z.of_nat (n - 87))
  else if ((65 <=? n)%nat && (n <=? 70)%nat)%bool then Some (Z.of_nat (n - 55))
  else None.

Fixpoint read_hex_digits (acc : option Z) (s : string) : option Z :=
  match s with
  | String c rest =>
      match hex_digit_of c with
      | Some d =>
          read_hex_digits (Some (16 * match acc with Some a => a | None => 0 end + d)%Z)
            rest
      | None => acc
      end
  | EmptyString => acc
  end.

(** [parseInt(s)], no radix given: as [parseInt(s, 10)], except that
    after the sign a prefix [0x] or [0X] announces hexadecimal digits.
    [None] is NaN; the integer read is kept exact, as for
    [parseInt10]. *)
Definition parseInt (s : string) : option Z :=
  let magnitude (t : string) : option Z :=
    match t with
    | String "0" (String "x" rest) => read_hex_digits None rest
    | String "0" (String "X" rest) => read_hex_digits None rest
    | _ => read_digits None t
    end in
  match skip_spaces s with
  | String "-" rest => option_map Z.opp (magnitude rest)
  | String "+" rest => magnitude rest
  | t => magnitude t
  end.

(** [const { k = d } = req.query; parseInt(k)]: the default is taken
    when the property is absent. *)
Definition integer_or (d : Z) (v : option field) : option Z :=
  match v with
  | None => Some d
  | Some x => parseInt (ToString x)
  end.

End Query.

(** PostgreSQL does not fix the order of the rows of a [SELECT] without
    [ORDER BY], nor the order among rows whose [ORDER BY] keys are equal.
    A [Planner] is one way of choosing: [scan] arranges the rows of a
    plain [SELECT], [newest_first] those of [ORDER BY created_at DESC]. *)
Class Planner : Type := {
  scan : forall {A : Type}, list A -> list A;
  scan_rows : forall (A : Type) (rows : list A), Permutation (scan rows) rows;
  newest_first : forall {A : Type}, (A -> timestamp) -> list A -> list A;
  newest_first_rows :
    forall (A : Type) (created_at : A -> timestamp) (rows : list A),
      Permutation (newest_first created_at rows) rows;
  newest_first_sorted :
    forall (A : Type) (created_at : A -> timestamp) (rows : list A),
      Sorted (fun a b => (created_at b <= created_at a)%Z) (newest_first created_at rows)
}.

(* ================================================================== *)
(** ** The statements of the read handlers *)
(* ================================================================== *)

Module Select.

Section Statements.
Context {formats : TextFormats} {planner : Planner}.

Definition order_status_eqb (a b : order_status) : bool :=
  String.eqb (order_status_text a) (order_status_text b).

(** A property of the query string compared with the [order_status]
    column: the label read, or the error of the enum's input function
    (an array or an object is sent as text that is no label). *)
Definition as_status_filter (v : Query.field) : db_error + order_status :=
  match v with
  | Query.text s =>
      match order_status_of_text s with
      | Some x => inr x
      | None => inl invalid_text_representation
      end
  | _ => inl invalid_text_representation
  end.

(** A JS number bound to [LIMIT] or [OFFSET]: NaN is no [bigint]. *)
Definition as_bigint (n : option Z) : db_error + Z :=
  match n with
  | Some z => inr z
  | None => inl invalid_text_representation
  end.

Definition invalid_row_count_in_result_offset_clause : db_error :=
  {| sqlstate := "2201X"; db_message := "OFFSET must not be negative" |}.

Definition invalid_row_count_in_limit_clause : db_error :=
  {| sqlstate := "2201W"; db_message := "LIMIT must not be negative" |}.

(** [SELECT * FROM orders WHERE user_id = $1 [AND status = $2]
     ORDER BY created_at DESC LIMIT $n OFFSET $m]:
    the parameters are read in their order, then the offset and the
    limit are checked. *)
Definition select_orders_by_user (userId : uuid) (wanted : option Query.field)
    (limit offset : option Z) : statement (list order_row) :=
  fun db =>
    and_then (match wanted with
              | Some v => and_then (as_status_filter v) (fun s => inr (Some s))
              | None => inr None
              end) (fun status' =>
    and_then (as_bigint limit) (fun limit' =>
    and_then (as_bigint offset) (fun offset' =>
    if (offset' <? 0)%Z then inl invalid_row_count_in_result_offset_clause
    else if (limit' <? 0)%Z then inl invalid_row_count_in_limit_clause
    else
      inr (firstn (Z.to_nat limit')
             (skipn (Z.to_nat offset')
                (newest_first order_created_at
                   (List.filter
                      (fun r => N.eqb (order_user_id r) userId
                                && match status' with
                                   | Some s => order_status_eqb (status r) s
                                   | None => true
                                   end)
                      (orders db)))),
           db)))).

(** [SELECT * FROM order_status_history WHERE order_id = $1
     ORDER BY created_at DESC] *)
Definition select_history_by_order (orderId : db_error + uuid)
  : statement (list history_row) :=
  fun db =>
    and_then orderId (fun orderId' =>
    inr (newest_first history_created_at
           (List.filter (fun h => N.eqb (history_order_id h) orderId')
                        (order_status_history db)),
         db)).

(** [SELECT * FROM payments WHERE order_id = $1 AND user_id = $2] *)
Definition select_payments_by_order_and_user (orderId : db_error + uuid) (userId : uuid)
  : statement (list payment_row) :=
  fun db =>
    and_then orderId (fun orderId' =>
    inr (scan (List.filter (fun p => N.eqb (payment_order_id p) orderId'
                                     && N.eqb (payment_user_id p) userId)
                           (payments db)),
         db)).

(** [SELECT * FROM payments WHERE user_id = $1 ORDER BY created_at DESC] *)
Definition select_payments_by_user (userId : uuid) : statement (list payment_row) :=
  fun db =>
    inr (newest_first payment_created_at
           (List.filter (fun p => N.eqb (payment_user_id p) userId) (payments db)),
         db).

(** [SELECT * FROM users WHERE clerk_id = $1]; [clerk_id] is [UNIQUE]. *)
Definition select_user_by_clerk_id (clerkId : string) : statement (list user_row) :=
  fun db => inr (List.filter (fun r => String.eqb (clerk_id r) clerkId) (users db), db).

End Statements.

End Select.

Export Select.

(** What [res.json({ success: true, ... })] carries in the handlers
    below. *)
Inductive reply : Type :=
| json_orders (orders : list order_row) (count : option nat)
| json_order_details (order : order_row) (statusHistory : list history_row)
| json_payments (payments : list payment_row).

(** How such a handler ends: with the final [res.json] of its [try]
    block, or as the other handlers do. *)
Definition conclude {A : Type} (m : M A) (w : world) : (outcome + A) * world :=
  match m w with
  | (Value a, w') => (inr a, w')
  | (Sent o, w') => (inl o, w')
  | (Thrown e, w') => (inl (Next e), w')
  end.

(* ================================================================== *)
(** ** [orderController.js]: the handlers that read *)
(* ================================================================== *)

Module OrderQueries.

Local Open Scope handler_scope.

Section Handlers.
Context {formats : TextFormats} {planner : Planner}.

(** [getUserOrders]; [query'] is [req.query]. *)
Definition getUserOrders (query' : list (string * Query.field)) (req : request) : M reply :=
  try_catch
    (let clerkId := clerkId (user req) in
     let status' := assoc "status" query' in
     let limit := assoc "limit" query' in
     let offset := assoc "offset" query' in
     userResult <- query (select_user_id_by_clerk_id clerkId) ;;
     match userResult with
     | [] => ret (json_orders [] None)
     | userId :: _ =>
         result <- query (select_orders_by_user userId
                            (if Query.truthy status' then status' else None)
                            (Query.integer_or 50 limit) (Query.integer_or 0 offset)) ;;
         ret (json_orders result (Some (length result)))
     end)
    (fun error => next error).

(** [getOrderById] *)
Definition getOrderById (req : request) : M reply :=
  try_catch
    (let id := as_uuid (param "id" req) in
     let clerkId := clerkId (user req) in
     userResult <- query (select_user_id_by_clerk_id clerkId) ;;
     match userResult with
     | [] => respond 404 (json_error "User not found")
     | userId :: _ =>
         result <- query (select_order_by_id_and_user id userId) ;;
         match result with
         | [] => respond 404 (json_error "Order not found")
         | order :: _ =>
             historyResult <- query (select_history_by_order id) ;;
             ret (json_order_details order historyResult)
         end
     end)
    (fun error => next error).

End Handlers.

End OrderQueries.

(* ================================================================== *)
(** ** [paymentController.js]: the handlers that read *)
(* ================================================================== *)

Module PaymentQueries.

Local Open Scope handler_scope.

Section Handlers.
Context {formats : TextFormats} {planner : Planner}.

(** [getPaymentByOrderId] *)
Definition getPaymentByOrderId (req : request) : M outcome :=
  try_catch
    (let orderId := as_uuid (param "orderId" req) in
     let clerkId := clerkId (user req) in
     userResult <- query (select_user_id_by_clerk_id clerkId) ;;
     match userResult with
     | [] => respond 404 (json_error "User not found")
     | userId :: _ =>
         result <- query (select_payments_by_order_and_user orderId userId) ;;
         match result with
         | [] => respond 404 (json_error "Payment not found")
         | payment :: _ => respond 200 (json_payment (Some payment) None)
         end
     end)
    (fun error => next error).

(** [getUserPayments] *)
Definition getUserPayments (req : request) : M reply :=
  try_catch
    (let clerkId := clerkId (user req) in
     userResult <- query (select_user_id_by_clerk_id clerkId) ;;
     match userResult with
     | [] => ret (json_payments [])
     | userId :: _ =>
         result <- query (select_payments_by_user userId) ;;
         ret (json_payments result)
     end)
    (fun error => next error).

End Handlers.

End PaymentQueries.

(* ================================================================== *)
(** ** [authController.js]: reading and updating the profile *)
(* ================================================================== *)

Module ProfileController.

Local Open Scope handler_scope.

Section Handlers.
Context {formats : TextFormats}.

(** [getProfile] *)
Definition getProfile (req : request) : M outcome :=
  try_catch
    (let clerkId := clerkId (user req) in
     result <- query (select_user_by_clerk_id clerkId) ;;
     match result with
     | [] => respond 404 (json_error "Profile not found")
     | user :: _ => respond 200 (json_user (Some user))
     end)
    (fun error => next error).

(** [updateProfile] *)
Definition updateProfile (req : request) : M outcome :=
  try_catch
    (value <- validated (Joi.validate AuthController.profileSchema (body req)) ;;
     let name := get "name" value in
     let phone := get "phone" value in
     let defaultAddress := get "defaultAddress" value in
     let clerkId := clerkId (user req) in
     let address := if JS.truthy defaultAddress then defaultAddress else None in
     result <- query (update_user_profile name phone address clerkId (time req)) ;;
     match result with
     | [] => respond 404 (json_error "Profile not found")
     | user :: _ => respond 200 (json_user (Some user))
     end)
    (fun error => next error).

End Handlers.

End ProfileController.

(* ================================================================== *)
(** ** [middleware/auth.js] and the routes it guards *)
(* ================================================================== *)

Module Auth.

(** What Clerk returns for a session and for a user, as far as
    [verifyClerkToken] reads it; [emailAddresses] holds the
    [emailAddress] of each entry. *)
Record clerk_session : Type := { userId : string }.

Record clerk_account : Type := {
  id : string;
  emailAddresses : list string;
  firstName : option string;
  lastName : option string
}.

(** The answers of [clerkClient.sessions.verifySession] (a missing
    session is [None]) and of [clerkClient.users.getUser]. *)
Record clerk : Type := {
  verifySession : string -> error + option clerk_session;
  getAccount : string -> error + clerk_account
}.

(** The [req.user] the middleware attaches. *)
Record authenticated : Type := {
  as_identity : identity;
  user_firstName : option string;
  user_lastName : option string
}.

(** [verifyClerkToken]: the response it sends, or the [req.user] with
    which it calls [next()].  It neither reads nor writes the database.
    Everything that can throw stands inside the inner [try], whose
    [catch] answers 401. *)
Definition verifyClerkToken (clerk : clerk) (headers : list (string * string))
  : (nat * payload) + authenticated :=
  match assoc "authorization" headers with
  | None => inl (401, json_error "No authorization token provided")
  | Some authHeader =>
      if String.eqb authHeader "" || negb (starts_with "Bearer " authHeader) then
        inl (401, json_error "No authorization token provided")
      else
        let token := substring 7 (String.length authHeader - 7) authHeader in
        match verifySession clerk token with
        | inl _ => inl (401, json_error "Invalid or expired token")
        | inr None => inl (401, json_error "Invalid session")
        | inr (Some session) =>
            match getAccount clerk (userId session) with
            | inl _ => inl (401, json_error "Invalid or expired token")
            | inr user =>
                inr {| as_identity := {| clerkId := id user;
                                         email := List.head (emailAddresses user) |};
                       user_firstName := firstName user;
                       user_lastName := lastName user |}
            end
        end
  end.

Local Open Scope handler_scope.

(** [user.publicMetadata?.role] *)
Definition role_of (user : PaymentController.clerk_user) : option value :=
  match PaymentController.publicMetadata user with
  | Some meta => assoc "role" meta
  | None => None
  end.

(** [v === 's'] *)
Definition is_text (v : option value) (s : string) : bool :=
  match v with
  | Some (VString x) => String.eqb x s
  | _ => false
  end.

Section Middleware.
Variable ext : PaymentController.external.

(** [requireAdmin]: a value is [next()]. *)
Definition requireAdmin (req : request) : M unit :=
  try_catch
    (user <- external_call (clerk_users_getUser (clerkId (user req)))
               (PaymentController.getUser ext (clerkId (user req))) ;;
     if negb (truthy (role_of user)) || negb (is_text (role_of user) "admin") then
       respond 403 (json_error "Admin access required")
     else ret tt)
    (fun error => respond 500 (json_error "Authorization error")).

(** [requireDriver] *)
Definition requireDriver (req : request) : M unit :=
  try_catch
    (user <- external_call (clerk_users_getUser (clerkId (user req)))
               (PaymentController.getUser ext (clerkId (user req))) ;;
     let role := role_of user in
     if negb (truthy role) || (negb (is_text role "driver") && negb (is_text role "admin"))
     then respond 403 (json_error "Driver access required")
     else ret tt)
    (fun error => respond 500 (json_error "Authorization error")).

End Middleware.

End Auth.

(** [routes/orders.js]: the two routes behind [requireDriver]. *)
Module OrderRoutes.

Local Open Scope handler_scope.

Section Routes.
Context {formats : TextFormats}.
Variable ext : PaymentController.external.

(** [router.put('/:id', requireDriver, orderController.updateOrderStatus)] *)
Definition put_status (req : request) : M outcome :=
  Auth.requireDriver ext req ;;; OrderController.updateOrderStatus req.

(** [router.put('/:id/location', requireDriver,
     orderController.updateDriverLocation)] *)
Definition put_location (req : request) : M outcome :=
  Auth.requireDriver ext req ;;; OrderController.updateDriverLocation req.

End Routes.

End OrderRoutes.

(** [index.js] ends the chain with [app.use(errorHandler)]: what the
    client receives is the response sent, or the one the error
    middleware makes of the error given to [next]. *)
Definition received (o : outcome) : nat * payload :=
  match o with
  | Respond s p => (s, p)
  | Next e => errorHandler e
  end.

(* ================================================================== *)
(** ** [pricingController.js]: the handlers *)
(* ================================================================== *)

Module Pricing.

(** The schema of a key of [calculatePriceSchema]: one of the schemas
    above, or [Joi.array().items(s)]. *)
Inductive key_schema : Type :=
| plain (s : Joi.schema)
| array_items (item : Joi.schema).

Definition calculatePriceSchema : list (string * (Joi.presence * key_schema)) :=
  [ ("serviceType",
     (Joi.required, plain (Joi.valid ["standard"; "express"; "premium"] Joi.string)));
    ("itemCount",
     (Joi.default (VNumber (finite 0)), plain (Joi.min 0 (Joi.integer Joi.number))));
    ("addons", (Joi.default (VArray []), array_items Joi.string)) ].

Definition addonPrices : list (string * Q) :=
  [ ("stain_treatment", 10%Q); ("delicate_care", 15%Q); ("ironing", 20%Q);
    ("dry_cleaning", 25%Q) ].

(** The property names an object literal inherits from
    [Object.prototype]. *)
Definition Object_prototype : list string :=
  [ "constructor"; "__defineGetter__"; "__defineSetter__"; "hasOwnProperty";
    "__lookupGetter__"; "__lookupSetter__"; "isPrototypeOf"; "propertyIsEnumerable";
    "toString"; "valueOf"; "__proto__"; "toLocaleString" ].

(** [addonPrices[addon]]: the price of one of the four add-ons, a
    function or the prototype for an inherited name, [undefined]
    otherwise. *)
Inductive property : Type :=
| price_of (q : Q)
| inherited
| undefined.

Definition addonPrices_at (addon : string) : property :=
  match assoc addon addonPrices with
  | Some q => price_of q
  | None => if includes Object_prototype addon then inherited else undefined
  end.

(** [totalPrice] while the add-ons are added: a number, or, once an
    inherited function or object has been added to it, the string that
    [+=] concatenates, which is the text of no number. *)
Inductive running_total : Type :=
| amount (q : Q)
| concatenation.

(** [if (addonPrices[addon]) { totalPrice += addonPrices[addon]; }] *)
Definition add_addon (total : running_total) (addon : string) : running_total :=
  match addonPrices_at addon with
  | undefined => total
  | inherited => concatenation
  | price_of q =>
      if is_zero q then total
      else match total with
           | amount t => amount (t + q)
           | concatenation => concatenation
           end
  end.

(** [Math.round(totalPrice * 100) / 100] *)
Definition rounded (total : running_total) : JS.number :=
  match total with
  | amount t => finite (inject_Z (Math_round (t * 100)) / 100)
  | concatenation => NaN
  end.

(** An entry [{ name: addon, price: addonPrices[addon] || 0 }]. *)
Record addon_line : Type := { line_name : string; line_price : property }.

Definition or_zero (p : property) : property :=
  match p with
  | undefined => price_of 0
  | price_of q => if is_zero q then price_of 0 else p
  | inherited => inherited
  end.

(** The [pricing] object of the response. *)
Record pricing : Type := {
  serviceType : option value;
  serviceName : string;
  pricing_basePrice : Q;
  addons : list addon_line;
  totalPrice : JS.number;
  pricing_description : string;
  pricing_features : list string
}.

Local Open Scope handler_scope.

Section Handlers.
Context {formats : TextFormats}.

(** [Joi.array().items(item).validate(v)]: an array each of whose
    elements the item schema accepts. *)
Definition validate_array (item : Joi.schema) (v : value) : Joi.result :=
  match v with
  | VArray xs =>
      match
        (fix each (ys : list value) : string + list value :=
           match ys with
           | [] => inr []
           | y :: rest =>
               match Joi.validate item y with
               | inl e => inl e
               | inr y' =>
                   match each rest with
                   | inl e => inl e
                   | inr rest' => inr (y' :: rest')
                   end
               end
           end) xs
      with
      | inl e => inl ("contains an item that " ++ e)
      | inr xs' => inr (VArray xs')
      end
  | _ => inl "must be an array"
  end.

Definition validate_key (s : key_schema) (v : value) : Joi.result :=
  match s with
  | plain s' => Joi.validate s' v
  | array_items item => validate_array item v
  end.

(** [Joi.object(keys).validate(v)], as [Joi.validate] does it for an
    object schema. *)
Definition validate_object (keys : list (string * (Joi.presence * key_schema))) (v : value)
  : Joi.result :=
  let validate_props (props : list (string * value)) : Joi.result :=
    match
      (fix each (ks : list (string * (Joi.presence * key_schema)))
         : string + list (string * value) :=
         match ks with
         | [] => inr []
         | (k, (p, s')) :: ks' =>
             match assoc k props with
             | Some x =>
                 match validate_key s' x with
                 | inl e => inl (k ++ " " ++ e)
                 | inr x' =>
                     match each ks' with
                     | inl e => inl e
                     | inr rest => inr ((k, x') :: rest)
                     end
                 end
             | None =>
                 match p with
                 | Joi.required => inl (k ++ " is required")
                 | Joi.optional => each ks'
                 | Joi.default d =>
                     match each ks' with
                     | inl e => inl e
                     | inr rest => inr ((k, d) :: rest)
                     end
                 end
             end
         end) keys
    with
    | inl e => inl e
    | inr o =>
        match List.find (fun p => negb (existsb (String.eqb (fst p)) (map fst keys)))
                        props with
        | Some unknown => inl (fst unknown ++ " is not allowed")
        | None => inr (VObject o)
        end
    end in
  match v with
  | VObject props => validate_props props
  | VString text =>
      match object_of_text text with
      | Some props => validate_props props
      | None => inl "must be of type object"
      end
  | _ => inl "must be of type object"
  end.

(** The strings of a validated [addons]. *)
Definition strings_of (v : option value) : list string :=
  match v with
  | Some (VArray xs) =>
      flat_map (fun x => match x with VString s => [s] | _ => [] end) xs
  | _ => []
  end.

(** [calculatePrice]; a value is the [pricing] of
    [res.json({ success: true, pricing })]. *)
Definition calculatePrice (req : request) : M pricing :=
  try_catch
    (value <- validated (validate_object calculatePriceSchema (body req)) ;;
     let serviceType := get "serviceType" value in
     let addons := strings_of (get "addons" value) in
     match OrderController.index_by PricingController.PRICING_TIERS serviceType with
     | None => respond 400 (json_error "Invalid service type")
     | Some tier =>
         let totalPrice :=
           fold_left add_addon addons (amount (PricingController.basePrice tier)) in
         ret {| Pricing.serviceType := serviceType;
                serviceName := PricingController.tier_name tier;
                pricing_basePrice := PricingController.basePrice tier;
                Pricing.addons :=
                  map (fun addon => {| line_name := addon;
                                       line_price := or_zero (addonPrices_at addon) |})
                      addons;
                Pricing.totalPrice := rounded totalPrice;
                pricing_description := PricingController.description tier;
                pricing_features := PricingController.features tier |}
     end)
    (fun error => next error).

(** [getPricingTiers]: [res.json({ success: true, tiers: PRICING_TIERS })] *)
Definition getPricingTiers : M (list (string * PricingController.tier)) :=
  ret PricingController.PRICING_TIERS.

End Handlers.

End Pricing.

(* ================================================================== *)
(** ** The iOS models ([Order.swift], [User.swift]) *)
(* ================================================================== *)

Module Swift.

(** [enum OrderStatus: String] *)
Inductive OrderStatus : Type :=
| pending
| pickedUp
| inLaundry
| ready
| outForDelivery
| completed
| cancelled.

Module OrderStatus_.

Definition allCases : list OrderStatus :=
  [pending; pickedUp; inLaundry; ready; outForDelivery; completed; cancelled].

Definition rawValue (s : OrderStatus) : string :=
  match s with
  | pending => "pending"
  | pickedUp => "picked_up"
  | inLaundry => "in_laundry"
  | ready => "ready"
  | outForDelivery => "out_for_delivery"
  | completed => "completed"
  | cancelled => "cancelled"
  end.

(** [OrderStatus(rawValue:)], which decoding an order goes through. *)
Definition init (raw : string) : option OrderStatus :=
  List.find (fun s => String.eqb (rawValue s) raw) allCases.

(** [var isCompleted: Bool] *)
Definition isCompleted (s : OrderStatus) : bool :=
  match s with
  | completed | cancelled => true
  | _ => false
  end.

(** [var isActive: Bool] *)
Definition isActive (s : OrderStatus) : bool := negb (isCompleted s).

End OrderStatus_.

(** [enum ServiceType: String] *)
Inductive ServiceType : Type :=
| standard
| express
| premium.

Module ServiceType_.

Definition allCases : list ServiceType := [standard; express; premium].

Definition rawValue (t : ServiceType) : string :=
  match t with
  | standard => "standard"
  | express => "express"
  | premium => "premium"
  end.

Definition displayName (t : ServiceType) : string :=
  match t with
  | standard => "Standard"
  | express => "Express"
  | premium => "Premium"
  end.

Definition description (t : ServiceType) : string :=
  match t with
  | standard => "3-5 business days"
  | express => "24-48 hours"
  | premium => "Same day delivery"
  end.

Definition basePrice (t : ServiceType) : Q :=
  match t with
  | standard => 25
  | express => 40
  | premium => 60
  end.

Definition features (t : ServiceType) : list string :=
  match t with
  | standard => ["Wash and fold"; "Basic detergent"; "Standard packaging"]
  | express =>
      ["Wash and fold"; "Premium detergent"; "Next-day delivery"; "Eco-friendly packaging"]
  | premium =>
      ["Wash and fold"; "Luxury detergent"; "Same-day delivery"; "Hand washing available";
       "Premium packaging"; "Stain treatment included"]
  end.

End ServiceType_.

(** [struct Address] *)
Record Address : Type := {
  street : string;
  city : string;
  state : string;
  zipCode : string;
  latitude : option Q;
  longitude : option Q
}.

(** [struct SavedAddress]; its [id] is made up by the app and is no
    coding key. *)
Record SavedAddress : Type := {
  label : string;
  saved_street : string;
  saved_city : string;
  saved_state : string;
  saved_zipCode : string;
  saved_latitude : option Q;
  saved_longitude : option Q
}.

(** What [JSONEncoder] makes of a [SavedAddress]: a property for each
    coding key, those of the optionals that are [nil] left out. *)
Definition encode_SavedAddress (a : SavedAddress) : value :=
  VObject ([ ("label", VString (label a)); ("street", VString (saved_street a));
             ("city", VString (saved_city a)); ("state", VString (saved_state a));
             ("zipCode", VString (saved_zipCode a)) ]
           ++ match saved_latitude a with
              | Some q => [("latitude", VNumber (finite q))]
              | None => []
              end
           ++ match saved_longitude a with
              | Some q => [("longitude", VNumber (finite q))]
              | None => []
              end).

(** [struct DriverLocation] *)
Record DriverLocation : Type := {
  location_latitude : Q;
  location_longitude : Q;
  location_timestamp : timestamp
}.

(** [struct Order] *)
Record Order : Type := {
  id : string;
  userId : string;
  pickupAddress : Address;
  deliveryAddress : Address;
  scheduledTime : timestamp;
  status : OrderStatus;
  serviceType : ServiceType;
  itemCount : Z;
  price : Q;
  driverId : option string;
  driverLocation : option DriverLocation;
  notes : option string;
  createdAt : timestamp;
  updatedAt : timestamp
}.

(** [AddAddressView.swift]: the state of the form, when its [Save]
    button is enabled, and the address [saveAddress] sends. *)
Module AddAddressView.

Record form : Type := {
  form_label : string;
  form_street : string;
  form_city : string;
  form_state : string;
  form_zipCode : string
}.

(** [String.isEmpty] *)
Definition isEmpty (s : string) : bool := String.eqb s "".

Definition isFormValid (f : form) : bool :=
  negb (isEmpty (form_label f)) && negb (isEmpty (form_street f))
  && negb (isEmpty (form_city f)) && negb (isEmpty (form_state f))
  && negb (isEmpty (form_zipCode f)).

Definition saveAddress (f : form) : SavedAddress :=
  {| label := form_label f; saved_street := form_street f; saved_city := form_city f;
     saved_state := form_state f; saved_zipCode := form_zipCode f;
     saved_latitude := None; saved_longitude := None |}.

End AddAddressView.

End Swift.

(* ================================================================== *)
(** ** [OrderManager.swift]: the published lists of orders *)
(* ================================================================== *)

Module OrderLists.

Import Swift.

(** [@Published var orders], [activeOrders] and [isLoading]. *)
Record published : Type := {
  orders : list Order;
  activeOrders : list Order;
  isLoading : bool
}.

Definition init : published := {| orders := []; activeOrders := []; isLoading := false |}.

(** [firstIndex(where:)] *)
Fixpoint firstIndex {A : Type} (p : A -> bool) (xs : list A) : option nat :=
  match xs with
  | [] => None
  | x :: rest => if p x then Some 0%nat else option_map S (firstIndex p rest)
  end.

Definition not_completed (o : Order) : bool := negb (OrderStatus_.isCompleted (status o)).

(** The block [createOrder] runs on the main actor once the server has
    answered with [order]. *)
Definition createOrder_done (order : Order) (m : published) : published :=
  {| orders := order :: orders m;
     activeOrders := if not_completed order then order :: activeOrders m
                     else activeOrders m;
     isLoading := isLoading m |}.

(** The first block of [fetchOrders]. *)
Definition fetchOrders_begun (m : published) : published :=
  {| orders := orders m; activeOrders := activeOrders m; isLoading := true |}.

(** The second block of [fetchOrders], run once the server has answered
    with [response]; when the request throws it is not run. *)
Definition fetchOrders_done (response : list Order) (m : published) : published :=
  {| orders := response;
     activeOrders := List.filter not_completed response;
     isLoading := false |}.

(** The block of [fetchOrderDetails(orderId:)]. *)
Definition fetchOrderDetails_done (orderId : string) (order : Order) (m : published)
  : published :=
  {| orders := match firstIndex (fun o => String.eqb (id o) orderId) (orders m) with
               | Some index => <[index := order]> (orders m)
               | None => orders m
               end;
     activeOrders :=
       match firstIndex (fun o => String.eqb (id o) orderId) (activeOrders m) with
       | Some index =>
           if OrderStatus_.isCompleted (status order) then delete index (activeOrders m)
           else <[index := order]> (activeOrders m)
       | None => activeOrders m
       end;
     isLoading := isLoading m |}.

(** The block of [cancelOrder(orderId:)]. *)
Definition cancelOrder_done (orderId : string) (order : Order) (m : published) : published :=
  {| orders := match firstIndex (fun o => String.eqb (id o) orderId) (orders m) with
               | Some index => <[index := order]> (orders m)
               | None => orders m
               end;
     activeOrders :=
       match firstIndex (fun o => String.eqb (id o) orderId) (activeOrders m) with
       | Some index => delete index (activeOrders m)
       | None => activeOrders m
       end;
     isLoading := isLoading m |}.

(** What happens to the lists: the blocks above, in the order the main
    actor runs them, each with the answer of the server it was given. *)
Inductive event : Type :=
| order_created (order : Order)
| fetch_begun
| fetch_done (response : list Order)
| details_done (orderId : string) (order : Order)
| cancel_done (orderId : string) (order : Order).

Definition apply (e : event) (m : published) : published :=
  match e with
  | order_created order => createOrder_done order m
  | fetch_begun => fetchOrders_begun m
  | fetch_done response => fetchOrders_done response m
  | details_done orderId order => fetchOrderDetails_done orderId order m
  | cancel_done orderId order => cancelOrder_done orderId order m
  end.

Definition run (events : list event) (m : published) : published :=
  fold_left (fun m e => apply e m) events m.

End OrderLists.

(* ================================================================== *)
(** ** Vocabulary of the statements *)
(* ================================================================== *)

(** A response with a 2xx status. *)
Definition succeeded (o : outcome) : bool :=
  match o with
  | Respond s _ => (200 <=? s)%nat && (s <? 300)%nat
  | Next _ => false
  end.

(** Serving requests one after the other, each on the world the previous
    one left. *)
Fixpoint serve {R : Type} (handler : R -> M outcome) (reqs : list R) (w : world)
  : list outcome * world :=
  match reqs with
  | [] => ([], w)
  | req :: rest =>
      let (o, w') := run (handler req) w in
      let (os, w'') := serve handler rest w' in
      (o :: os, w'')
  end.

(** The profile of a signed-in user, and the order an identifier names. *)
Definition profile_of (clerk : string) (db : database) : option user_row :=
  List.find (fun r => String.eqb (clerk_id r) clerk) (users db).

Definition order_of (id : uuid) (db : database) : option order_row :=
  List.find (fun r => N.eqb (order_id r) id) (orders db).

(** The order [id] as its owner [owner] sees it. *)
Definition owned_order (id owner : uuid) (db : database) : option order_row :=
  List.find (fun r => N.eqb (order_id r) id && N.eqb (order_user_id r) owner) (orders db).

(** The history entries of an order, oldest first. *)
Definition history_of (id : uuid) (db : database) : list history_row :=
  List.filter (fun h => N.eqb (history_order_id h) id) (order_status_history db).

(** The two statuses from which no transition is expected. *)
Definition terminal (s : order_status) : bool :=
  match s with
  | completed | cancelled => true
  | _ => false
  end.


(** What the store guarantees by itself: identifiers in use were handed
    out by the generator, and a history entry refers to an order. *)
Definition consistent (db : database) : bool :=
  forallb (fun o => N.ltb (order_id o) (next_uuid db)) (orders db)
  && forallb (fun h => has_order (history_order_id h) db) (order_status_history db).

(** The store after [UPDATE orders SET status = s WHERE id = id]. *)
Definition with_status (s : order_status) (id : uuid) (now : timestamp) (db : database)
  : database :=
  with_orders db
    (map (fun r => if N.eqb (order_id r) id then set_status s now r else r) (orders db)).

(** The store after [UPDATE orders SET driver_location = l WHERE id = id]. *)
Definition with_driver_location (l : value) (id : uuid) (now : timestamp) (db : database)
  : database :=
  with_orders db
    (map (fun r => if N.eqb (order_id r) id then set_driver_location l now r else r)
         (orders db)).

(** The store with one more history entry. *)
Definition with_history_entry (h : history_row) (db : database) : database :=
  {| users := users db; orders := orders db; payments := payments db;
     order_status_history := order_status_history db ++ [h];
     next_uuid := N.succ (next_uuid db) |}.

(** The body [{ status, notes }] of a status update. *)
Definition status_body (target : order_status) (note : option string) : value :=
  VObject (("status", VString (order_status_text target))
           :: match note with
              | Some n => [("notes", VString n)]
              | None => []
              end).

(** A request for [PUT /api/orders/:id]. *)
Definition status_request (id : string) (who : identity) (target : order_status)
    (note : option string) (now : timestamp) : request :=
  {| params := [("id", id)]; body := status_body target note; headers := [];
     user := who; time := now |}.

Definition note_fits (note : option string) : bool :=
  match note with
  | Some n => (String.length n <=? 500)%nat
  | None => true
  end.

(** Notes that PostgreSQL stores: none of their characters is U+0000. *)
Definition note_is_text (note : option string) : bool :=
  match note with
  | Some n => negb (has_nul n)
  | None => true
  end.

(** What PostgreSQL stores of a validated body.  A text, when given,
    holds no U+0000; a JSON value, when given, holds none in its strings
    and property names; a number, when given, is within 32 bits once its
    fraction is dropped; a date, when given, is read as a [TIMESTAMP]. *)
Definition text_fits (v : option value) : bool :=
  match v with
  | Some (VString s) => negb (has_nul s)
  | _ => true
  end.

Definition json_fits (v : option value) : bool :=
  match v with
  | Some x => negb (holds_nul x)
  | None => true
  end.

Definition integer_fits (v : option value) : bool :=
  match v with
  | Some (VNumber (finite q)) =>
      ((-2147483648 <=? Qfloor q) && (Qfloor q <=? 2147483647))%Z
  | _ => true
  end.

Definition date_fits {formats : TextFormats} (v : option value) : bool :=
  match v with
  | Some (VDate t) => reads_as_timestamp t
  | _ => true
  end.

(** The fields of a validated order that PostgreSQL stores. *)
Definition order_fits {formats : TextFormats} (value : JS.value) : bool :=
  json_fits (get "pickupAddress" value) && json_fits (get "deliveryAddress" value)
  && date_fits (get "scheduledTime" value) && integer_fits (get "itemCount" value)
  && text_fits (get "notes" value).

(** The fields of a validated profile that PostgreSQL stores. *)
Definition profile_fits (value : JS.value) : bool :=
  text_fits (get "name" value) && text_fits (get "phone" value)
  && json_fits (get "defaultAddress" value).

(** A [VARCHAR(n)] column keeps the text as it is. *)
Definition kept_as_is (n : nat) (s : option string) : bool :=
  match s with
  | Some x => negb (has_nul x) && (String.length x <=? n)%nat
  | None => true
  end.


(** A payment row without its update stamp. *)
Definition unstamped (p : payment_row) : payment_row :=
  {| payment_id := payment_id p; payment_order_id := payment_order_id p;
     payment_user_id := payment_user_id p; stripe_payment_id := stripe_payment_id p;
     stripe_payment_intent_id := stripe_payment_intent_id p;
     amount := amount p; payment_state := payment_state p;
     payment_method_id := payment_method_id p; error_message := error_message p;
     payment_created_at := payment_created_at p; payment_updated_at := 0%Z |}.

(** Whether a payment is the one an event's payment intent names. *)
Definition matches_intent (intent : string) (p : payment_row) : bool :=
  same_text (stripe_payment_intent_id p) intent.

(** [saved_addresses] holds a JSON array. *)
Definition is_list (a : option value) : bool :=
  match a with
  | Some (VArray _) => true
  | _ => false
  end.

Definition all_saved_addresses_are_lists (db : database) : bool :=
  forallb (fun u => is_list (saved_addresses u)) (users db).

(** The requests of the profile endpoints. *)
Inductive profile_request : Type :=
| upsert_profile (req : request)
| add_address (req : request)
| remove_address (req : request).

(** *** Rows and stores the handlers are expected to produce *)

(** The value [createOrderSchema] returns: the declared keys in order,
    [notes] only when given. *)
Definition order_fields (pickup delivery : value) (t : timestamp) (tier : service_type)
    (count : Q) (note : option string) : value :=
  VObject ([("pickupAddress", pickup); ("deliveryAddress", delivery);
            ("scheduledTime", VDate t);
            ("serviceType", VString (service_type_text tier));
            ("itemCount", VNumber (finite count))]
           ++ match note with
              | Some n => [("notes", VString n)]
              | None => []
              end).

(** The row [INSERT INTO orders] adds. *)
Definition new_order (db : database) (owner : uuid) (pickup delivery : value)
    (t : timestamp) (tier : service_type) (count : Z) (cost : Q) (note : option string)
    (now : timestamp) : order_row :=
  {| order_id := next_uuid db; order_user_id := owner;
     pickup_address := pickup; delivery_address := delivery;
     scheduled_time := t; status := pending; order_service_type := tier;
     item_count := count; price := cost; driver_id := None; driver_location := None;
     notes := note; order_created_at := now; order_updated_at := now |}.

Definition with_new_order (o : order_row) (db : database) : database :=
  {| users := users db; orders := orders db ++ [o]; payments := payments db;
     order_status_history := order_status_history db;
     next_uuid := N.succ (next_uuid db) |}.

(** The history entry written when [o] is created in the store [db]. *)
Definition creation_entry (o : order_row) (db : database) (now : timestamp) : history_row :=
  {| history_id := N.succ (next_uuid db); history_order_id := order_id o;
     old_status := None; new_status := pending; changed_by := Some (order_user_id o);
     history_notes := None; history_created_at := now |}.

(** The history entry written by a status update. *)
Definition transition_entry (id : uuid) (from to : order_status) (note : option string)
    (now : timestamp) (db : database) : history_row :=
  {| history_id := next_uuid db; history_order_id := id;
     old_status := Some from; new_status := to; changed_by := None;
     history_notes := note; history_created_at := now |}.

(** The history entry written by a cancellation. *)
Definition cancellation_entry (id owner : uuid) (from : order_status) (now : timestamp)
    (db : database) : history_row :=
  {| history_id := next_uuid db; history_order_id := id;
     old_status := Some from; new_status := cancelled; changed_by := Some owner;
     history_notes := Some "Cancelled by customer"; history_created_at := now |}.


(** The order already has a completed payment. *)
Definition paid (id : uuid) (db : database) : bool :=
  existsb (fun p => N.eqb (payment_order_id p) id
                    && payment_status_eqb (payment_state p) payment_completed)
          (payments db).

(** A payment after a verified event has been reconciled at [now]. *)
Definition reconciled (event : PaymentController.stripe_event) (now : timestamp)
    (p : payment_row) : payment_row :=
  if matches_intent (PaymentController.object_id event) p then
    if String.eqb (PaymentController.event_type event) "payment_intent.succeeded" then
      settle payment_completed (error_message p) now p
    else if String.eqb (PaymentController.event_type event)
              "payment_intent.payment_failed" then
      settle payment_failed (PaymentController.last_payment_error_message event) now p
    else p
  else p.

(** Two stores that differ at most in the update stamps of payments. *)
Definition same_but_stamps (a b : database) : Prop :=
  users a = users b
  /\ orders a = orders b
  /\ order_status_history a = order_status_history b
  /\ next_uuid a = next_uuid b
  /\ map unstamped (payments a) = map unstamped (payments b).

(** A list without its element at position [i] (the whole list when
    there is none). *)
Definition without {A : Type} (i : nat) (xs : list A) : list A :=
  (firstn i xs ++ skipn (S i) xs)%list.

(** The store after the rows of [clerk] went through [f]. *)
Definition with_profile (clerk : string) (f : user_row -> user_row) (db : database)
  : database :=
  {| users := map (fun r => if String.eqb (clerk_id r) clerk then f r else r) (users db);
     orders := orders db; payments := payments db;
     order_status_history := order_status_history db; next_uuid := next_uuid db |}.

Definition lists_only (db : database) : Prop :=
  all_saved_addresses_are_lists db = true.

Definition profile_handler {formats : TextFormats} (r : profile_request) : M outcome :=
  match r with
  | upsert_profile req => AuthController.upsertProfile req
  | add_address req => AuthController.addAddress req
  | remove_address req => AuthController.removeAddress req
  end.

(** *** Invariants of handlers *)

(** [m] keeps the property [P] of the store, however it ends. *)
Definition keeps (P : database -> Prop) {A : Type} (m : M A) : Prop :=
  forall w, P (store w) -> P (store (snd (m w))).

Definition statement_keeps (P : database -> Prop) {A : Type} (q : statement A) : Prop :=
  forall db a db', q db = inr (a, db') -> P db -> P db'.

(** *** The whole API *)

(** A request to any of the endpoints modelled; a charge and a webhook
    delivery come with the answers Clerk and Stripe give while they are
    served. *)
Inductive api_request : Type :=
| to_profile (r : profile_request)
| create_order (req : request)
| update_status (req : request)
| update_location (req : request)
| cancel_order (req : request)
| charge (ext : PaymentController.external) (req : request)
| webhook (ext : PaymentController.external) (req : request).

Definition api_handler {formats : TextFormats} (r : api_request) : M outcome :=
  match r with
  | to_profile r => profile_handler r
  | create_order req => OrderController.createOrder req
  | update_status req => OrderController.updateOrderStatus req
  | update_location req => OrderController.updateDriverLocation req
  | cancel_order req => OrderController.cancelOrder req
  | charge ext req => PaymentController.processPayment ext req
  | webhook ext req => PaymentController.stripeWebhook ext req
  end.

Definition is_consistent (db : database) : Prop := consistent db = true.

(** A store is sound when it is consistent and every profile's saved
    addresses are a list. *)
Definition sound (db : database) : Prop := is_consistent db /\ lists_only db.

(** *** Charges *)

(** The row a charge attempt leaves behind. *)
Definition payment_record (db : database) (id owner : uuid) (charge intent : option string)
    (cost : Q) (state : payment_status) (method message : option string)
    (now : timestamp) : payment_row :=
  {| payment_id := next_uuid db; payment_order_id := id; payment_user_id := owner;
     stripe_payment_id := charge; stripe_payment_intent_id := intent;
     amount := cost; payment_state := state; payment_method_id := method;
     error_message := message; payment_created_at := now; payment_updated_at := now |}.

Definition with_new_payment (p : payment_row) (db : database) : database :=
  {| users := users db; orders := orders db; payments := payments db ++ [p];
     order_status_history := order_status_history db;
     next_uuid := N.succ (next_uuid db) |}.

(** The charge identifier Stripe returned is not yet in [payments]
    ([stripe_payment_id] is [UNIQUE]). *)
Definition charge_is_new (charge : option string) (db : database) : bool :=
  match charge with
  | Some c => negb (existsb (fun r => same_text (stripe_payment_id r) c) (payments db))
  | None => true
  end.

(* ================================================================== *)
(** ** Vocabulary of the further properties *)
(* ================================================================== *)

(** *** Handlers that only read *)

(** A computation that leaves the world as it found it. *)
Definition leaves_alone {A : Type} (m : M A) : Prop := forall w, snd (m w) = w.

(** A statement that returns the tables it was given. *)
Definition reads_only {A : Type} (q : statement A) : Prop :=
  forall db a db', q db = inr (a, db') -> db' = db.

(** *** Guards and errors *)

(** The world once the call [c] has been made. *)
Definition logged (c : call) (w : world) : world :=
  {| store := store w; calls := (calls w ++ [c])%list |}.

(** The role Clerk reports lets a user through [requireDriver]. *)
Definition drives (user : PaymentController.clerk_user) : bool :=
  Auth.is_text (Auth.role_of user) "driver" || Auth.is_text (Auth.role_of user) "admin".

(** The role Clerk reports lets a user through [requireAdmin]. *)
Definition administers (user : PaymentController.clerk_user) : bool :=
  Auth.is_text (Auth.role_of user) "admin".

(** The handler [h] hands a body that [schema] refuses to the error
    middleware, as the error of the schema, and touches nothing. *)
Definition turns_away {formats : TextFormats} (schema : Joi.schema)
    (h : request -> M outcome) : Prop :=
  forall (req : request) (w : world) (msg : string),
    Joi.validate schema (body req) = inl msg ->
    run (h req) w = (Next (joi_error msg), w).

(** *** Prices *)

(** What an add-on adds to the price: its entry in [addonPrices], and
    nothing when it has none. *)
Definition addon_charge (addon : string) : Q :=
  match assoc addon Pricing.addonPrices with
  | Some q => q
  | None => 0
  end.

(** The add-on bears the name of a property of [Object.prototype]. *)
Definition is_inherited (addon : string) : bool :=
  includes Pricing.Object_prototype addon.

(** The sum of what the add-ons add, each occurrence counted. *)
Fixpoint charges (addons : list string) : Q :=
  match addons with
  | [] => 0
  | a :: rest => addon_charge a + charges rest
  end.

(** *** The iOS side *)

(** A task once cancelled. *)
Definition cancelled_task (x : OrderManager.task) : OrderManager.task :=
  {| OrderManager.orderId := OrderManager.orderId x;
     OrderManager.isCancelled := true;
     OrderManager.at_position := OrderManager.at_position x |}.

(** No order of the list counts as completed. *)
Definition all_active (os : list Swift.Order) : Prop :=
  Forall (fun o => Swift.OrderStatus_.isCompleted (Swift.status o) = false) os.

(** The event is not the block that ends a [fetchOrders]. *)
Definition ends_no_fetch (e : OrderLists.event) : Prop :=
  match e with
  | OrderLists.fetch_done _ => False
  | _ => True
  end.

(** The tier the backend keeps for a service type of the app. *)
Definition tier_of (t : Swift.ServiceType) : PricingController.tier :=
  {| PricingController.tier_name := Swift.ServiceType_.displayName t;
     PricingController.basePrice := Swift.ServiceType_.basePrice t;
     PricingController.description := Swift.ServiceType_.description t;
     PricingController.features := Swift.ServiceType_.features t |}.

(** A task that has been cancelled and is not waiting for a fetch to
    come back. *)
Definition stopped (x : OrderManager.task) : Prop :=
  OrderManager.isCancelled x = true
  /\ OrderManager.at_position x <> OrderManager.fetching.

(** *** Saved addresses *)

(** The requests of one user, with the values their bodies validate
    to, none of which holds U+0000. *)
Fixpoint accepted {formats : TextFormats} (clerk : string) (reqs : list request)
    (values : list JS.value) : Prop :=
  match reqs, values with
  | [], [] => True
  | req :: reqs', value :: values' =>
      clerkId (user req) = clerk
      /\ Joi.validate AuthController.addressSchema (body req) = inr value
      /\ holds_nul value = false
      /\ accepted clerk reqs' values'
  | _, _ => False
  end.

(* ================================================================== *)
(** ** Sample data *)
(* ================================================================== *)

(** Concrete formats for the examples: an identifier is written in
    decimal, an instant as its number of milliseconds, and no string is
    converted to a number or to an object. *)
Definition sample_formats : TextFormats :=
  {| uuid_of_text := fun s =>
       match parseInt10 s with
       | Some z => if (0 <=? z)%Z then Some (Z.to_N z) else None
       | None => None
       end;
     number_of_text := fun _ => None;
     object_of_text := fun _ => None;
     date_of_iso := fun v =>
       match v with
       | VString s => parseInt10 s
       | _ => None
       end;
     reads_as_timestamp := fun t => (-210866803200000 <=? t)%Z |}.

Module Sample.

#[local] Existing Instance sample_formats.

Definition alice : identity := {| clerkId := "user_alice"; email := Some "alice@example.com" |}.

Definition home : value :=
  VObject [("street", VString "123 Main St"); ("city", VString "Springfield");
           ("state", VString "IL"); ("zipCode", VString "62701")].

Definition request_of (who : identity) (params : list (string * string)) (body : value)
    (now : timestamp) : request :=
  {| Http.params := params; Http.body := body; headers := []; user := who; time := now |}.

Definition nobody : world := {| store := empty_database; calls := [] |}.

(** Alice completes her profile. *)
Definition profile_request : request :=
  request_of alice [] (VObject [("name", VString "Alice")]) 1000.

Definition with_alice : world :=
  Eval vm_compute in snd (run (AuthController.upsertProfile profile_request) nobody).

Definition alice_profile : user_row :=
  Eval vm_compute in
    match profile_of "user_alice" (store with_alice) with
    | Some u => u
    | None => {| user_id := 0; clerk_id := ""; name := None; phone := None;
                 default_address := None; saved_addresses := None;
                 user_created_at := 0; user_updated_at := 0 |}
    end.

(** She orders the express service for five items. *)
Definition order_body : value :=
  VObject [("pickupAddress", home); ("deliveryAddress", home);
           ("scheduledTime", VString "1700000000000");
           ("serviceType", VString "express");
           ("itemCount", VNumber (finite 5))].

Definition order_request : request := request_of alice [] order_body 2000.

Definition order_value : value :=
  Eval vm_compute in
    match Joi.validate OrderController.createOrderSchema order_body with
    | inr v => v
    | inl _ => VNull
    end.

Definition with_order : world :=
  Eval vm_compute in snd (run (OrderController.createOrder order_request) with_alice).

Definition the_order : order_row :=
  Eval vm_compute in
    match order_of 1 (store with_order) with
    | Some o => o
    | None => new_order empty_database 0 VNull VNull 0 standard 0 0 None 0
    end.


Definition with_completed_order : world :=
  Eval vm_compute in
    snd (run (OrderController.updateOrderStatus (status_request "1" alice completed None 3000))
             with_order).

Definition completed_order : order_row :=
  Eval vm_compute in set_status completed 3000 the_order.

Definition cancel_request : request := request_of alice [("id", "1")] (VObject []) 6000.

(** Clerk knows Alice's Stripe customer; Stripe answers a charge with an
    intent that still needs the customer ([charged] false) or has
    succeeded ([charged] true); the verifier accepts three bodies. *)
Definition surroundings (charged : bool) : PaymentController.external :=
  {| PaymentController.getUser := fun _ =>
       inr {| PaymentController.publicMetadata :=
                Some [("stripeCustomerId", VString "cus_1")] |};
     PaymentController.customers_create := fun _ _ => inr "cus_1";
     PaymentController.updateUserMetadata := fun _ _ => inr tt;
     PaymentController.paymentIntents_create := fun _ _ _ _ _ _ =>
       inr {| PaymentController.intent_id := "pi_1";
              PaymentController.intent_status :=
                if charged then "succeeded" else "requires_action";
              PaymentController.client_secret := Some "pi_1_secret";
              PaymentController.first_charge_id := if charged then Some "ch_1" else None |};
     PaymentController.constructEvent := fun body _ _ =>
       match body with
       | VString "succeeded" =>
           inr {| PaymentController.event_type := "payment_intent.succeeded";
                  PaymentController.object_id := "pi_1";
                  PaymentController.last_payment_error_message := None |}
       | VString "failed" =>
           inr {| PaymentController.event_type := "payment_intent.payment_failed";
                  PaymentController.object_id := "pi_1";
                  PaymentController.last_payment_error_message :=
                    Some "Your card was declined." |}
       | VString "created" =>
           inr {| PaymentController.event_type := "payment_intent.created";
                  PaymentController.object_id := "pi_1";
                  PaymentController.last_payment_error_message := None |}
       | _ =>
           inl {| isJoi := false; code := None;
                  type := Some "StripeSignatureVerificationError";
                  statusCode := None;
                  message := "No signatures found matching the expected signature" |}
       end;
     PaymentController.STRIPE_WEBHOOK_SECRET := Some "whsec_1" |}.

Definition charge_body : value :=
  VObject [("orderId", VString "1"); ("paymentMethodId", VString "pm_1")].

Definition charge_request : request := request_of alice [] charge_body 7000.

Definition charge_value : value :=
  Eval vm_compute in
    match Joi.validate PaymentController.paymentSchema charge_body with
    | inr v => v
    | inl _ => VNull
    end.

(** The world after a charge that is still pending, and after one that
    succeeded at once. *)
Definition with_pending_payment : world :=
  Eval vm_compute in
    snd (run (PaymentController.processPayment (surroundings false) charge_request)
             with_order).

Definition with_completed_payment : world :=
  Eval vm_compute in
    snd (run (PaymentController.processPayment (surroundings true) charge_request)
             with_order).

Definition delivery (raw : string) (now : timestamp) : request :=
  {| Http.params := []; Http.body := VString raw;
     headers := [("stripe-signature", "t=1,v1=abc")]; user := alice; time := now |}.

(** The world after the pending charge was reported failed. *)
Definition with_failed_payment : world :=
  Eval vm_compute in
    snd (run (PaymentController.stripeWebhook (surroundings false) (delivery "failed" 8000))
             with_pending_payment).

Definition location_request (latitude longitude : option value) : request :=
  request_of alice [("id", "1")]
    (VObject (match latitude with Some x => [("latitude", x)] | None => [] end
              ++ match longitude with Some x => [("longitude", x)] | None => [] end))
    9000.

Definition labelled (label : string) : value :=
  VObject [("label", VString label); ("street", VString "123 Main St");
           ("city", VString "Springfield"); ("state", VString "IL");
           ("zipCode", VString "62701")].

Definition add_request (label : string) (now : timestamp) : request :=
  request_of alice [] (labelled label) now.

Definition remove_request (index : string) (now : timestamp) : request :=
  request_of alice [("index", index)] (VObject []) now.



(** The character U+0000, and a text of [n] letters. *)
Definition nul : string := String "000"%char "".

Fixpoint letters (n : nat) : string :=
  match n with
  | O => ""
  | S k => String "a"%char (letters k)
  end.

End Sample.

(* ================================================================== *)
(** ** Sample data for the further properties *)
(* ================================================================== *)

(** One planner: a plain [SELECT] returns the rows in table order, and
    [ORDER BY created_at DESC] is a merge sort. *)
Definition sample_planner : Planner :=
  {| scan := fun A rows => rows;
     scan_rows := fun A rows => Permutation_refl rows;
     newest_first := fun A created_at rows =>
       @merge_sort A (fun a b => (created_at b <= created_at a)%Z)
         (fun a b => decide_rel Z.le (created_at b) (created_at a)) rows;
     newest_first_rows := fun A created_at rows =>
       @merge_sort_Permutation A (fun a b => (created_at b <= created_at a)%Z)
         (fun a b => decide_rel Z.le (created_at b) (created_at a)) rows;
     newest_first_sorted := fun A created_at rows =>
       @Sorted_merge_sort A (fun a b => (created_at b <= created_at a)%Z)
         (fun a b => decide_rel Z.le (created_at b) (created_at a))
         (fun a b => Z.le_ge_cases (created_at b) (created_at a)) rows |}.

Module Example.

Import Sample.

#[local] Existing Instance sample_formats.
#[local] Existing Instance sample_planner.

(** Alice looks at her order, at its payment and at her lists. *)
Definition lookup_request : request := request_of alice [("id", "1")] (VObject []) 9500.

Definition payment_lookup : request :=
  request_of alice [("orderId", "1")] (VObject []) 9600.

Definition first_page : list (string * Query.field) :=
  [("status", Query.text "pending"); ("limit", Query.text "10")].

(** Bob has a profile and no order. *)
Definition bob : identity := {| clerkId := "user_bob"; email := None |}.

Definition with_bob : world :=
  Eval vm_compute in
    snd (run (AuthController.upsertProfile
                (request_of bob [] (VObject [("name", VString "Bob")]) 2500))
             with_order).

Definition bob_profile : user_row :=
  Eval vm_compute in
    match profile_of "user_bob" (store with_bob) with
    | Some u => u
    | None => alice_profile
    end.

Definition bob_lookup : request := request_of bob [("id", "1")] (VObject []) 9700.

(** A request whose order identifier is no UUID. *)
Definition malformed_request : request :=
  request_of alice [("id", "abc")] (status_body ready None) 9800.

(** A charge without its payment method. *)
Definition refused_charge : request :=
  request_of bob [] (VObject [("orderId", VString "1")]) 9900.

(** Express with ironing twice and an add-on that has no price. *)
Definition price_request : request :=
  request_of alice []
    (VObject [("serviceType", VString "express");
              ("addons", VArray [VString "ironing"; VString "gift_wrap";
                                 VString "ironing"])])
    9950.

Definition price_value : value :=
  Eval vm_compute in
    match Pricing.validate_object Pricing.calculatePriceSchema (body price_request) with
    | inr v => v
    | inl _ => VNull
    end.

(** Six addresses, one more than [Config.maxSavedAddresses]. *)
Definition six_labels : list string := ["Home"; "Work"; "Gym"; "School"; "Club"; "Cabin"].

Definition six_requests : list request := map (fun l => add_request l 1100) six_labels.

(** The "Add Address" form, filled in. *)
Definition home_form : Swift.AddAddressView.form :=
  {| Swift.AddAddressView.form_label := "Home";
     Swift.AddAddressView.form_street := "123 Main St";
     Swift.AddAddressView.form_city := "Springfield";
     Swift.AddAddressView.form_state := "IL";
     Swift.AddAddressView.form_zipCode := "62701" |}.

(** An order as the app holds it. *)
Definition main_street : Swift.Address :=
  {| Swift.street := "123 Main St"; Swift.city := "Springfield"; Swift.state := "IL";
     Swift.zipCode := "62701"; Swift.latitude := None; Swift.longitude := None |}.

Definition app_order (status : Swift.OrderStatus) : Swift.Order :=
  {| Swift.id := "1"; Swift.userId := "0";
     Swift.pickupAddress := main_street; Swift.deliveryAddress := main_street;
     Swift.scheduledTime := 1700000000000; Swift.status := status;
     Swift.serviceType := Swift.express; Swift.itemCount := 5; Swift.price := 40;
     Swift.driverId := None; Swift.driverLocation := None; Swift.notes := None;
     Swift.createdAt := 2000; Swift.updatedAt := 2000 |}.

(** The polling of order "A" has been started and its task sleeps. *)
Definition polling : OrderManager.manager :=
  OrderManager.run
    [ OrderManager.start "A";
      OrderManager.step_task 0 OrderManager.fetch_failed ]
    OrderManager.init.

(** Bob tries his hand at Alice's order. *)
Definition bob_charge : request := request_of bob [("id", "1")] charge_body 9700.

(** Alice orders before she has completed her profile. *)
Definition early_request : request :=
  request_of alice [("id", "1"); ("index", "0")] order_body 900.

End Example.

(* ================================================================== *)
(** * Properties *)
(* ================================================================== *)

(** ** Shared lemmas *)

Section Tables.
Context {A : Type}.

(** An [UPDATE] whose [SET] clause cannot fail changes exactly the rows
    its [WHERE] clause selects, and returns them. *)
Lemma update_rows_total (hit : A -> bool) (f : A -> A) (rows : list A) :
  update_rows hit (fun r => inr (f r)) rows
  = inr (map f (List.filter hit rows), map (fun r => if hit r then f r else r) rows).
Proof.
  induction rows as [|r rows IH]; [reflexivity|].
  cbn [update_rows List.filter map]. rewrite IH.
  destruct (hit r); reflexivity.
Qed.

(** The first row of a [SELECT ... WHERE p] is the first row satisfying
    [p]. *)
Lemma filter_find_some (p : A -> bool) (rows : list A) (x : A) :
  List.find p rows = Some x -> exists rest, List.filter p rows = x :: rest.
Proof.
  induction rows as [|r rows IH]; cbn; [discriminate|].
  destruct (p r); [intros [= ->]; eauto | exact IH].
Qed.

Lemma filter_find_none (p : A -> bool) (rows : list A) :
  List.find p rows = None -> List.filter p rows = [].
Proof.
  induction rows as [|r rows IH]; cbn; [reflexivity|].
  destruct (p r); [discriminate | exact IH].
Qed.

Lemma find_some_holds (p : A -> bool) (rows : list A) (x : A) :
  List.find p rows = Some x -> p x = true /\ In x rows.
Proof. intros H. apply find_some in H. tauto. Qed.

Lemma find_none_existsb (p : A -> bool) (rows : list A) :
  List.find p rows = None -> existsb p rows = true -> False.
Proof.
  intros Hnone H. apply existsb_exists in H as (x & Hin & Hp).
  rewrite (find_none _ _ Hnone x Hin) in Hp. discriminate.
Qed.

Lemma existsb_of_find (p : A -> bool) (rows : list A) (x : A) :
  List.find p rows = Some x -> existsb p rows = true.
Proof.
  intros H. apply find_some in H. apply existsb_exists. exists x. tauto.
Qed.

(** After an update that keeps what [p] looks at, the first row
    satisfying [p] is the update of the former one. *)
Lemma find_map_stable (p : A -> bool) (f : A -> A) (rows : list A) :
  (forall r, p (f r) = p r) ->
  List.find p (map f rows) = option_map f (List.find p rows).
Proof.
  intros Hp. induction rows as [|r rows IH]; cbn; [reflexivity|].
  rewrite Hp. destruct (p r); [reflexivity | exact IH].
Qed.

Lemma existsb_map_stable (p : A -> bool) (f : A -> A) (rows : list A) :
  (forall r, p (f r) = p r) -> existsb p (map f rows) = existsb p rows.
Proof.
  intros Hp. induction rows as [|r rows IH]; cbn; [reflexivity|].
  rewrite Hp, IH. reflexivity.
Qed.

End Tables.

(** The two equations that walk a handler statement by statement. *)
Lemma bind_value {A B : Type} (m : M A) (k : A -> M B) (w w' : world) (a : A) :
  m w = (Value a, w') -> bind m k w = k a w'.
Proof. unfold bind. intros ->. reflexivity. Qed.

Lemma query_value {A : Type} (q : statement A) (db db' : database) (cs : list call)
    (a : A) :
  q db = inr (a, db') ->
  query q {| store := db; calls := cs |} = (Value a, {| store := db'; calls := cs |}).
Proof. unfold query. cbn [store calls]. intros ->. reflexivity. Qed.

Ltac answer H :=
  erewrite bind_value; [| apply query_value; first [ exact H | rewrite H; reflexivity ] ];
  cbv beta iota.

(** And the two that leave it at a statement that fails. *)
Lemma bind_thrown {A B : Type} (m : M A) (k : A -> M B) (w w' : world) (e : error) :
  m w = (Thrown e, w') -> bind m k w = (Thrown e, w').
Proof. unfold bind. intros ->. reflexivity. Qed.

Lemma query_thrown {A : Type} (q : statement A) (db : database) (cs : list call)
    (e : db_error) :
  q db = inl e ->
  query q {| store := db; calls := cs |} = (Thrown (pg_error e), {| store := db; calls := cs |}).
Proof. unfold query. cbn [store calls]. intros ->. reflexivity. Qed.

Ltac refused H :=
  erewrite bind_thrown; [| apply query_thrown; first [ exact H | rewrite H; reflexivity ] ].

(** A statement that answered has read each of its parameters. *)
Ltac parameters_read H :=
  repeat match type of H with
         | and_then ?x _ = inr _ =>
             destruct x; cbn [and_then] in H; [discriminate H|]
         end.

Section Properties.
Context {formats : TextFormats}.

Import OrderController.

(** Case analysis on the innermost scrutinee of the premise. *)
Ltac innermost x :=
  lazymatch x with
  | context [match ?y with _ => _ end] => innermost y
  | _ => destruct x eqn:?
  end.

Ltac crack :=
  repeat (lazymatch goal with
          | |- (match ?x with _ => _ end = _) -> _ => innermost x
          end; try (intros ?; discriminate)).

Lemma profile_of_select (clerk : string) (db : database) (u : user_row) :
  profile_of clerk db = Some u ->
  exists rest, select_user_id_by_clerk_id clerk db = inr (user_id u :: rest, db).
Proof.
  unfold profile_of, select_user_id_by_clerk_id. intros H.
  destruct (filter_find_some _ _ _ H) as [rest ->]. cbn. eauto.
Qed.

Lemma profile_of_has_user (clerk : string) (db : database) (u : user_row) :
  profile_of clerk db = Some u -> has_user (user_id u) db = true.
Proof.
  unfold profile_of, has_user. intros H. apply find_some in H as [Hin _].
  apply existsb_exists. exists u. split; [exact Hin | apply N.eqb_refl].
Qed.

Lemma order_of_has_order (id : uuid) (db : database) (o : order_row) :
  order_of id db = Some o -> has_order id db = true.
Proof.
  unfold order_of, has_order. intros H.
  rewrite (existsb_of_find _ _ _ H). reflexivity.
Qed.

Lemma has_order_with_status (s : order_status) (id id' : uuid) (now : timestamp)
    (db : database) :
  has_order id' (with_status s id now db) = has_order id' db.
Proof.
  unfold has_order, with_status, with_orders. cbn [orders].
  apply existsb_map_stable. intros r. destruct (N.eqb (order_id r) id); reflexivity.
Qed.


(** *** What a valid status body is *)

Lemma order_status_of_text_text (s : order_status) :
  order_status_of_text (order_status_text s) = Some s.
Proof. destruct s; reflexivity. Qed.



Lemma includes_order_status (s : string) :
  includes ["pending"; "picked_up"; "in_laundry"; "ready"; "out_for_delivery";
            "completed"; "cancelled"] s = true ->
  exists target, s = order_status_text target.
Proof.
  unfold includes. cbn [existsb]. rewrite !orb_true_iff.
  intros H.
  repeat match goal with
         | H : _ \/ _ |- _ => destruct H as [H|H]
         end;
    try discriminate; apply String.eqb_eq in H; subst s.
  - exists pending; reflexivity.
  - exists picked_up; reflexivity.
  - exists in_laundry; reflexivity.
  - exists ready; reflexivity.
  - exists out_for_delivery; reflexivity.
  - exists completed; reflexivity.
  - exists cancelled; reflexivity.
Qed.

(** What [updateStatusSchema] lets through: a status of the
    enumeration and, when given, notes of at most 500 characters. *)
Lemma updateStatusSchema_value (input value : JS.value) :
  Joi.validate updateStatusSchema input = inr value ->
  exists target note, value = status_body target note /\ note_fits note = true.
Proof.
  unfold updateStatusSchema, Joi.object.
  cbn [Joi.validate Joi.max Joi.allow_empty_string Joi.string Joi.valid
       Joi.allow_empty Joi.max_length Joi.only Joi.guid].
  unfold Joi.validate_string, Joi.check_string.
  cbn [Joi.allow_empty Joi.max_length Joi.only Joi.guid negb orb andb].
  crack.
  all: intros [= <-].
  all: match goal with
       | H : includes _ ?s = true |- _ => destruct (includes_order_status s H) as [target ->]
       end.
  all: exists target;
       first [ solve [ exists None; split; reflexivity ]
             | solve [ eexists (Some _); split; [reflexivity | assumption] ] ].
Qed.

(** *** One status update *)

Lemma as_text_of_note (target : order_status) (note : option string) :
  as_text (get "notes" (status_body target note)) = text_parameter note.
Proof. destruct note; reflexivity. Qed.

Lemma text_parameter_of_text (note : option string) :
  note_is_text note = true -> text_parameter note = inr note.
Proof.
  destruct note as [n|]; [|reflexivity]. cbn [note_is_text text_parameter].
  intros H. apply negb_true_iff in H. rewrite H. reflexivity.
Qed.

Lemma text_parameter_of_no_text (note : option string) :
  note_is_text note = false -> text_parameter note = inl character_not_in_repertoire.
Proof.
  destruct note as [n|]; [|discriminate]. cbn [note_is_text text_parameter].
  intros H. apply negb_false_iff in H. rewrite H. reflexivity.
Qed.

(** One update, whatever the notes: with notes PostgreSQL stores, the
    status is set and the history entry written; with notes that hold
    U+0000 the status is set, the [INSERT] of the entry fails and the
    error goes to the error middleware, the status staying changed (the
    two statements are not in a transaction). *)
Lemma updateOrderStatus_run (req : request) (w : world) (id : uuid) (current : order_row)
    (target : order_status) (note : option string) :
  uuid_of_text (param "id" req) = Some id ->
  order_of id (store w) = Some current ->
  Joi.validate updateStatusSchema (body req) = inr (status_body target note) ->
  run (updateOrderStatus req) w
  = if note_is_text note then
      (Respond 200 (json_order (Some (set_status target (time req) current))),
       {| store := with_history_entry
                     (transition_entry id (status current) target note (time req) (store w))
                     (with_status target id (time req) (store w));
          calls := calls w |})
    else
      (Next (pg_error character_not_in_repertoire),
       {| store := with_status target id (time req) (store w); calls := calls w |}).
Proof.
  intros Hid Hcur Hvalid.
  unfold updateOrderStatus, run, try_catch, bind.
  rewrite Hvalid. cbn [validated ret].
  unfold query at 1. unfold select_order_by_id, as_uuid. rewrite Hid. cbn [and_then].
  destruct (filter_find_some _ _ _ Hcur) as [rest Hsel]. rewrite Hsel.
  cbn [store calls].
  unfold query at 1. unfold update_order_status. cbn [store].
  assert (Hst : get "status" (status_body target note)
                = Some (VString (order_status_text target))) by reflexivity.
  rewrite Hst. unfold as_order_status at 1. rewrite order_status_of_text_text.
  cbn [and_then]. rewrite update_rows_total. cbn [and_then]. rewrite Hsel. cbn [map].
  unfold query. cbn [store calls]. unfold insert_history. cbn [and_then].
  unfold as_order_status. rewrite order_status_of_text_text. cbn [and_then].
  rewrite as_text_of_note.
  fold (with_status target id (time req) (store w)).
  destruct (note_is_text note) eqn:Hnote.
  - rewrite (text_parameter_of_text _ Hnote). cbn [and_then].
    rewrite has_order_with_status, (order_of_has_order _ _ _ Hcur).
    reflexivity.
  - rewrite (text_parameter_of_no_text _ Hnote). reflexivity.
Qed.


(** *** What a valid order body is *)


Lemma includes_service_type (s : string) :
  includes ["standard"; "express"; "premium"] s = true ->
  exists tier, s = service_type_text tier.
Proof.
  unfold includes. cbn [existsb]. rewrite !orb_true_iff.
  intros [H|[H|[H|H]]]; try discriminate; apply String.eqb_eq in H; subst s.
  - exists standard; reflexivity.
  - exists express; reflexivity.
  - exists premium; reflexivity.
Qed.

Lemma createOrderSchema_value (input value : JS.value) :
  Joi.validate createOrderSchema input = inr value ->
  exists pickup delivery t tier count note,
    value = order_fields pickup delivery t tier count note
    /\ Joi.is_integer count = true.
Proof.
  unfold createOrderSchema, Joi.object.
  set (address := Joi.object_schema address_keys).
  cbn [Joi.validate Joi.min Joi.integer Joi.number Joi.max Joi.allow_empty_string
       Joi.string Joi.valid Joi.date_iso
       Joi.whole Joi.minimum Joi.allow_empty Joi.max_length Joi.only Joi.guid].
  unfold Joi.validate_date_iso, Joi.validate_string, Joi.validate_number,
    Joi.check_string, Joi.check_number.
  cbn [Joi.whole Joi.minimum Joi.allow_empty Joi.max_length Joi.only Joi.guid negb orb].
  crack.
  all: intros [= <-].
  all: match goal with
       | H : includes _ ?s = true |- _ => destruct (includes_service_type s H) as [tier ->]
       end.
  all: repeat match goal with
         | H : _ && _ = true |- _ => apply andb_true_iff in H; destruct H
         end.
  all: do 5 eexists;
       first [ exists None; split; [reflexivity|]
             | eexists (Some _); split; [reflexivity|] ];
       first [ assumption | reflexivity ].
Qed.

(** *** Creating an order *)




(** The price list of [createOrder] is the base price of the tiers. *)
Lemma pricingMap_is_base_price (tier : service_type) :
  exists t,
    assoc (service_type_text tier) PricingController.PRICING_TIERS = Some t
    /\ index_by pricingMap (Some (VString (service_type_text tier)))
       = Some (PricingController.basePrice t).
Proof. destruct tier; eexists; split; reflexivity. Qed.

Lemma order_fits_fields (pickup delivery : JS.value) (t : timestamp) (tier : service_type)
    (count : Q) (note : option string) :
  order_fits (order_fields pickup delivery t tier count note)
  = negb (holds_nul pickup) && negb (holds_nul delivery) && reads_as_timestamp t
    && ((-2147483648 <=? Qfloor count) && (Qfloor count <=? 2147483647))%Z
    && note_is_text note.
Proof. destruct note; reflexivity. Qed.

Lemma as_text_of_order_note (pickup delivery : JS.value) (t : timestamp)
    (tier : service_type) (count : Q) (note : option string) :
  as_text (get "notes" (order_fields pickup delivery t tier count note))
  = text_parameter note.
Proof. destruct note; reflexivity. Qed.

(** The [INSERT] of [createOrder], on the fields of a validated body:
    the row is written when PostgreSQL stores the fields, and otherwise
    the statement fails with an error for which the error middleware has
    no case. *)
Lemma insert_order_of_fields (db : database) (owner : uuid) (pickup delivery : JS.value)
    (t : timestamp) (tier : service_type) (count : Q) (note : option string) (cost : Q)
    (now : timestamp) :
  Joi.is_integer count = true ->
  has_user owner db = true ->
  let fields := order_fields pickup delivery t tier count note in
  let order := new_order db owner pickup delivery t tier (Qnum count / Z.pos (Qden count))
                 cost note now in
  let statement := insert_order owner (Some pickup) (Some delivery) (Some (VDate t))
                     (Some (VString (service_type_text tier)))
                     (Some (VNumber (finite count))) (Some cost) (get "notes" fields) now in
  if order_fits fields then statement db = inr ([order], with_new_order order db)
  else exists e, statement db = inl e /\ fst (received (Next (pg_error e))) = 500%nat.
Proof.
  intros Hint Huser. cbv zeta. rewrite order_fits_fields.
  unfold insert_order. rewrite as_text_of_order_note. unfold as_jsonb, as_timestamp.
  assert (Htier : as_service_type (Some (VString (service_type_text tier)))
                  = inr (Some tier)) by (destruct tier; reflexivity).
  rewrite Htier. cbn [as_integer]. rewrite Hint, Huser.
  destruct count as [n d]. cbn [Qfloor Qnum Qden].
  destruct (holds_nul pickup); cbn [negb andb and_then];
    [eexists; split; reflexivity|].
  destruct (holds_nul delivery); cbn [negb andb and_then];
    [eexists; split; reflexivity|].
  destruct (reads_as_timestamp t); cbn [andb and_then];
    [|eexists; split; reflexivity].
  destruct ((-2147483648 <=? n / Z.pos d) && (n / Z.pos d <=? 2147483647))%Z;
    cbn [andb and_then]; [|eexists; split; reflexivity].
  destruct (note_is_text note) eqn:Hnote.
  - rewrite (text_parameter_of_text _ Hnote). reflexivity.
  - rewrite (text_parameter_of_no_text _ Hnote). eexists; split; reflexivity.
Qed.

(** [createOrder] on a body the schema accepts, for a user with a
    profile: when PostgreSQL stores the fields the order and its first
    history entry are written and the answer is 201; otherwise the
    [INSERT] fails, nothing is written, and the error middleware answers
    500. *)
Lemma createOrder_run (req : request) (w : world) (value : JS.value)
    (profile : user_row) :
  Joi.validate createOrderSchema (body req) = inr value ->
  profile_of (clerkId (user req)) (store w) = Some profile ->
  exists pickup delivery t tier count note base,
    value = order_fields pickup delivery t tier count note
    /\ assoc (service_type_text tier) PricingController.PRICING_TIERS = Some base
    /\ let order := new_order (store w) (user_id profile) pickup delivery t tier
                      (Qnum count / Z.pos (Qden count))
                      (PricingController.basePrice base) note (time req) in
       if order_fits value then
         run (createOrder req) w
         = (Respond 201 (json_order (Some order)),
            {| store := with_history_entry (creation_entry order (store w) (time req))
                          (with_new_order order (store w));
               calls := calls w |})
       else
         exists e, run (createOrder req) w = (Next (pg_error e), w)
                   /\ fst (received (Next (pg_error e))) = 500%nat.
Proof.
  intros Hvalid Hprofile.
  destruct (createOrderSchema_value _ _ Hvalid)
    as (pickup & delivery & t & tier & count & note & -> & Hint).
  destruct (pricingMap_is_base_price tier) as (base & Hbase & Hprice).
  exists pickup, delivery, t, tier, count, note, base.
  split; [reflexivity|]. split; [exact Hbase|]. cbv zeta.
  destruct w as [db cs]. cbn [store calls] in *.
  destruct (profile_of_select _ _ _ Hprofile) as [rest Hsel].
  pose proof (insert_order_of_fields db (user_id profile) pickup delivery t tier count note
                (PricingController.basePrice base) (time req) Hint
                (profile_of_has_user _ _ _ Hprofile)) as Hinsert.
  cbv zeta in Hinsert.
  destruct (order_fits (order_fields pickup delivery t tier count note)).
  - unfold createOrder, run, try_catch. rewrite Hvalid. cbn [validated].
    erewrite bind_value; [|reflexivity]. cbv beta zeta.
    answer Hsel.
    change (get "serviceType" (order_fields pickup delivery t tier count note))
      with (Some (VString (service_type_text tier))).
    rewrite Hprice.
    change (get "pickupAddress" (order_fields pickup delivery t tier count note))
      with (Some pickup).
    change (get "deliveryAddress" (order_fields pickup delivery t tier count note))
      with (Some delivery).
    change (get "scheduledTime" (order_fields pickup delivery t tier count note))
      with (Some (VDate t)).
    change (get "itemCount" (order_fields pickup delivery t tier count note))
      with (Some (VNumber (finite count))).
    answer Hinsert.
    erewrite bind_value.
    2:{ apply query_value. unfold insert_history.
        cbn [and_then as_order_status as_text text_parameter].
        change (order_status_of_text "pending") with (Some pending). cbn [and_then].
        assert (Hnew : forall o db0, has_order (order_id o) (with_new_order o db0) = true).
        { intros o db0. unfold has_order, with_new_order. cbn [orders].
          rewrite existsb_app. cbn. rewrite N.eqb_refl. apply orb_true_r. }
        rewrite Hnew. reflexivity. }
    reflexivity.
  - destruct Hinsert as (e & Hinsert & H500). exists e. split; [|exact H500].
    unfold createOrder, run, try_catch. rewrite Hvalid. cbn [validated].
    erewrite bind_value; [|reflexivity]. cbv beta zeta.
    answer Hsel.
    change (get "serviceType" (order_fields pickup delivery t tier count note))
      with (Some (VString (service_type_text tier))).
    rewrite Hprice.
    change (get "pickupAddress" (order_fields pickup delivery t tier count note))
      with (Some pickup).
    change (get "deliveryAddress" (order_fields pickup delivery t tier count note))
      with (Some delivery).
    change (get "scheduledTime" (order_fields pickup delivery t tier count note))
      with (Some (VDate t)).
    change (get "itemCount" (order_fields pickup delivery t tier count note))
      with (Some (VNumber (finite count))).
    refused Hinsert. reflexivity.
Qed.

Lemma createOrder_creates (req : request) (w : world) (value : JS.value)
    (profile : user_row) :
  Joi.validate createOrderSchema (body req) = inr value ->
  order_fits value = true ->
  profile_of (clerkId (user req)) (store w) = Some profile ->
  exists pickup delivery t tier count note base,
    value = order_fields pickup delivery t tier count note
    /\ assoc (service_type_text tier) PricingController.PRICING_TIERS = Some base
    /\ let order := new_order (store w) (user_id profile) pickup delivery t tier
                      (Qnum count / Z.pos (Qden count))
                      (PricingController.basePrice base) note (time req) in
       run (createOrder req) w
       = (Respond 201 (json_order (Some order)),
          {| store := with_history_entry (creation_entry order (store w) (time req))
                        (with_new_order order (store w));
             calls := calls w |}).
Proof.
  intros Hvalid Hfits Hprofile.
  destruct (createOrder_run req w value profile Hvalid Hprofile)
    as (pickup & delivery & t & tier & count & note & base & Hvalue & Hbase & Hrun).
  exists pickup, delivery, t, tier, count, note, base.
  cbv zeta in *. rewrite Hfits in Hrun. tauto.
Qed.

(** In a consistent store no history entry refers to the identifier the
    generator hands out next. *)
Lemma history_of_next_uuid (db : database) :
  consistent db = true -> history_of (next_uuid db) db = [].
Proof.
  unfold consistent, history_of. intros H.
  apply andb_true_iff in H as [Hids Hrefs].
  rewrite forallb_forall in Hids, Hrefs.
  induction (order_status_history db) as [|h hs IH]; [reflexivity|].
  cbn [List.filter].
  assert (Hh : has_order (history_order_id h) db = true)
    by (apply Hrefs; left; reflexivity).
  unfold has_order in Hh. apply existsb_exists in Hh as (o & Hin & Heq).
  apply N.eqb_eq in Heq. specialize (Hids o Hin). apply N.ltb_lt in Hids.
  destruct (N.eqb (history_order_id h) (next_uuid db)) eqn:E.
  - apply N.eqb_eq in E. lia.
  - apply IH. intros x Hx. apply Hrefs. right. exact Hx.
Qed.

(** *** Runs of status updates *)


Lemma history_of_with_history_entry (id : uuid) (h : history_row) (db : database) :
  history_of id (with_history_entry h db)
  = (history_of id db ++ (if N.eqb (history_order_id h) id then [h] else []))%list.
Proof.
  unfold history_of, with_history_entry. cbn [order_status_history].
  rewrite List.filter_app. reflexivity.
Qed.


Lemma history_of_with_status (id id' : uuid) (s : order_status) (now : timestamp)
    (db : database) :
  history_of id (with_status s id' now db) = history_of id db.
Proof. reflexivity. Qed.


(** *** From creation on *)

Lemma order_of_next_uuid (db : database) :
  consistent db = true -> order_of (next_uuid db) db = None.
Proof.
  unfold consistent, order_of. intros H. apply andb_true_iff in H as [Hids _].
  rewrite forallb_forall in Hids.
  destruct (List.find _ (orders db)) as [o|] eqn:E; [|reflexivity].
  apply find_some in E as [Hin Heq]. apply N.eqb_eq in Heq.
  specialize (Hids o Hin). apply N.ltb_lt in Hids. lia.
Qed.


(** An order that [createOrder] answers with: the body was accepted,
    the caller has a profile, PostgreSQL stored the fields, and the order
    and the world are the ones described by [createOrder_creates]. *)
Lemma createOrder_created (req : request) (w w' : world) (order : order_row) :
  run (createOrder req) w = (Respond 201 (json_order (Some order)), w') ->
  exists value profile,
    Joi.validate createOrderSchema (body req) = inr value
    /\ order_fits value = true
    /\ profile_of (clerkId (user req)) (store w) = Some profile.
Proof.
  intros H.
  destruct (Joi.validate createOrderSchema (body req)) as [e|value] eqn:Hvalid.
  - unfold createOrder, run, try_catch, bind in H. rewrite Hvalid in H.
    cbn in H. discriminate.
  - destruct (profile_of (clerkId (user req)) (store w)) as [profile|] eqn:Hprofile.
    + exists value, profile. split; [reflexivity|]. split; [|reflexivity].
      destruct (createOrder_run req w value profile Hvalid Hprofile)
        as (pickup & delivery & t & tier & count & note & base & _ & _ & Hrun).
      cbv zeta in Hrun. destruct (order_fits value); [reflexivity|].
      destruct Hrun as (e & Hrun & _). rewrite Hrun in H. discriminate H.
    + unfold createOrder, run, try_catch, bind in H. rewrite Hvalid in H.
      cbn [validated ret] in H. unfold query at 1 in H.
      unfold select_user_id_by_clerk_id in H. unfold profile_of in Hprofile.
      rewrite (filter_find_none _ _ Hprofile) in H. cbn in H. discriminate.
Qed.

(** What an order just created looks like in the store. *)
Lemma createOrder_answered (req : request) (w w' : world) (order : order_row) :
  run (createOrder req) w = (Respond 201 (json_order (Some order)), w') ->
  exists (value : JS.value) (profile : user_row) (tier : service_type)
         (base : PricingController.tier),
    Joi.validate createOrderSchema (body req) = inr value
    /\ profile_of (clerkId (user req)) (store w) = Some profile
    /\ get "serviceType" value = Some (VString (service_type_text tier))
    /\ assoc (service_type_text tier) PricingController.PRICING_TIERS = Some base
    /\ price order = PricingController.basePrice base
    /\ status order = pending
    /\ order_user_id order = user_id profile
    /\ order_id order = next_uuid (store w)
    /\ store w' = with_history_entry (creation_entry order (store w) (time req))
                    (with_new_order order (store w))
    /\ calls w' = calls w.
Proof.
  intros H.
  destruct (createOrder_created _ _ _ _ H) as (value & profile & Hvalid & Hfits & Hprofile).
  destruct (createOrder_creates req w value profile Hvalid Hfits Hprofile)
    as (pickup & delivery & t & tier & count & note & base & -> & Hbase & Hrun).
  cbv zeta in Hrun. rewrite Hrun in H. injection H as Horder Hw'.
  exists (order_fields pickup delivery t tier count note), profile, tier, base.
  subst order w'. cbn [store calls].
  repeat (split; [first [ reflexivity | assumption ]|]). reflexivity.
Qed.

(** In a consistent store, the history of an order just created is its
    creation entry. *)
Lemma history_of_created (order : order_row) (db : database) (now : timestamp) :
  consistent db = true ->
  order_id order = next_uuid db ->
  history_of (order_id order)
    (with_history_entry (creation_entry order db now) (with_new_order order db))
  = [creation_entry order db now].
Proof.
  intros Hcons Hnext. rewrite history_of_with_history_entry.
  cbn [creation_entry history_order_id]. rewrite N.eqb_refl.
  change (history_of (order_id order) (with_new_order order db))
    with (history_of (order_id order) db).
  rewrite Hnext, (history_of_next_uuid _ Hcons). reflexivity.
Qed.

(** ** The order lifecycle *)



(** *** Cancelling *)


Lemma includes_terminal (s : order_status) :
  includes ["completed"; "cancelled"] (order_status_text s) = terminal s.
Proof. destruct s; reflexivity. Qed.

Lemma owned_order_select (id owner : uuid) (db : database) (o : order_row) :
  owned_order id owner db = Some o ->
  exists rest, select_order_by_id_and_user (inr id) owner db = inr (o :: rest, db).
Proof.
  unfold owned_order, select_order_by_id_and_user. intros H. cbn [and_then].
  destruct (filter_find_some _ _ _ H) as [rest ->]. eauto.
Qed.

Lemma owned_order_is_order (id owner : uuid) (db : database) (o : order_row) :
  owned_order id owner db = Some o ->
  exists first, order_of id db = Some first.
Proof.
  unfold owned_order, order_of. intros H. apply find_some in H as [Hin Hp].
  apply andb_true_iff in Hp as [Hid _].
  destruct (List.find _ (orders db)) as [x|] eqn:E; [eauto|].
  exfalso. apply (find_none _ _ E) in Hin. congruence.
Qed.

Lemma owned_order_with_status (s : order_status) (id owner : uuid) (now : timestamp)
    (db : database) (o : order_row) :
  owned_order id owner db = Some o ->
  owned_order id owner (with_status s id now db) = Some (set_status s now o).
Proof.
  unfold owned_order, with_status, with_orders. cbn [orders]. intros H.
  induction (orders db) as [|r rows IH]; [discriminate|].
  cbn [map List.find] in *.
  destruct (N.eqb (order_id r) id) eqn:E; cbn [andb] in *.
  - cbn [set_status order_id order_user_id]. rewrite E. cbn [andb].
    destruct (N.eqb (order_user_id r) owner).
    + injection H as <-. reflexivity.
    + exact (IH H).
  - rewrite E. cbn [andb]. exact (IH H).
Qed.

(** C3.  An owner's cancel request on an order that is completed or
    cancelled is answered 400, and the world is left as it was: the
    status is unchanged and no history entry is appended.  On an order
    of the requester in any other status it is answered 200, the order's
    status becomes cancelled, and exactly one history entry is appended,
    from the former status to cancelled. *)
Theorem cancelOrder_refuses_terminal_orders :
  forall (req : request) (w : world) (id : uuid) (profile : user_row) (order : order_row),
    uuid_of_text (param "id" req) = Some id ->
    profile_of (clerkId (user req)) (store w) = Some profile ->
    owned_order id (user_id profile) (store w) = Some order ->
    if terminal (status order) then
      run (cancelOrder req) w = (Respond 400 (json_error "Order cannot be cancelled"), w)
    else
      exists (answered : order_row) (w' : world) (entry : history_row),
        run (cancelOrder req) w = (Respond 200 (json_order (Some answered)), w')
        /\ order_id answered = id
        /\ status answered = cancelled
        /\ owned_order id (user_id profile) (store w')
           = Some (set_status cancelled (time req) order)
        /\ orders (store w')
           = map (fun r => if N.eqb (order_id r) id
                           then set_status cancelled (time req) r else r)
                 (orders (store w))
        /\ order_status_history (store w')
           = (order_status_history (store w) ++ [entry])%list
        /\ history_order_id entry = id
        /\ old_status entry = Some (status order)
        /\ new_status entry = cancelled.
Proof.
  intros req [db cs] id profile order Hid Hprofile Horder. cbn [store] in *.
  destruct (profile_of_select _ _ _ Hprofile) as [rest Hsel].
  destruct (owned_order_select _ _ _ _ Horder) as [rest' Hsel'].
  destruct (owned_order_is_order _ _ _ _ Horder) as [first Hfirst].
  destruct (filter_find_some _ _ _ Hfirst) as [rest'' Hall].
  assert (Hu : as_uuid (param "id" req) = inr id)
    by (unfold as_uuid; rewrite Hid; reflexivity).
  unfold cancelOrder, run, try_catch. rewrite Hu. cbv zeta.
  answer Hsel. answer Hsel'.
  rewrite includes_terminal.
  destruct (terminal (status order)) eqn:Eterm; [reflexivity|].
  assert (Hupdate : update_order_status (Some (VString "cancelled")) (inr id) (time req) db
                    = inr (set_status cancelled (time req) first
                             :: map (set_status cancelled (time req)) rest'',
                           with_status cancelled id (time req) db)).
  { unfold update_order_status. cbn [as_order_status].
    change (order_status_of_text "cancelled") with (Some cancelled). cbn [and_then].
    rewrite update_rows_total. cbn [and_then]. rewrite Hall. reflexivity. }
  answer Hupdate.
  set (entry := cancellation_entry id (user_id profile) (status order) (time req) db).
  assert (Hinsert : insert_history (inr id) (Some (status order))
                      (Some (VString "cancelled")) (Some (user_id profile))
                      (Some (VString "Cancelled by customer")) (time req)
                      (with_status cancelled id (time req) db)
                    = inr (tt, with_history_entry entry
                                 (with_status cancelled id (time req) db))).
  { unfold insert_history. cbn [and_then as_order_status as_text].
    change (order_status_of_text "cancelled") with (Some cancelled). cbn [and_then].
    rewrite has_order_with_status, (order_of_has_order _ _ _ Hfirst). reflexivity. }
  answer Hinsert.
  cbn [first_row List.head respond].
  eexists _, _, entry. split; [reflexivity|]. cbn [store].
  split.
  { apply find_some in Hfirst as [_ E]. apply N.eqb_eq in E. exact E. }
  split; [reflexivity|]. split.
  { change (owned_order id (user_id profile) (with_history_entry entry ?d))
      with (owned_order id (user_id profile) d).
    exact (owned_order_with_status _ _ _ _ _ _ Horder). }
  repeat split.
Qed.

(** ** Payments *)

Import PaymentController.


Lemma paymentSchema_value (input value : JS.value) :
  Joi.validate paymentSchema input = inr value ->
  exists order_text id method,
    value = VObject [("orderId", VString order_text); ("paymentMethodId", VString method)]
    /\ uuid_of_text order_text = Some id.
Proof.
  unfold paymentSchema, Joi.object.
  cbn [Joi.validate Joi.uuid Joi.string
       Joi.allow_empty Joi.max_length Joi.only Joi.guid].
  unfold Joi.validate_string, Joi.check_string.
  cbn [Joi.allow_empty Joi.max_length Joi.only Joi.guid negb orb].
  crack.
  all: intros [= <-]; eauto.
Qed.

(** C4.  When the order already has a completed payment, a charge
    request of its owner is answered 400 "Order already paid" and the
    world is left as it was: no payment row is written and the log of
    calls to Clerk and Stripe is not extended (no customer is resolved,
    no payment intent is created). *)
Theorem processPayment_rejects_paid_order :
  forall (ext : external) (req : request) (w : world) (value : JS.value)
         (profile : user_row) (id : uuid) (order : order_row),
    Joi.validate paymentSchema (body req) = inr value ->
    profile_of (clerkId (user req)) (store w) = Some profile ->
    as_uuid_value (get "orderId" value) = inr id ->
    owned_order id (user_id profile) (store w) = Some order ->
    paid id (store w) = true ->
    run (processPayment ext req) w = (Respond 400 (json_error "Order already paid"), w)
    /\ calls (snd (run (processPayment ext req) w)) = calls w.
Proof.
  intros ext req [db cs] value profile id order Hvalid Hprofile Hid Horder Hpaid.
  cbn [store] in *.
  destruct (profile_of_select _ _ _ Hprofile) as [rest Hsel].
  destruct (owned_order_select _ _ _ _ Horder) as [rest' Hsel'].
  unfold paid in Hpaid.
  assert (Hexisting : exists p rest'',
             select_payments_by_order_and_status (inr id) "completed" db
             = inr (p :: rest'', db)).
  { unfold select_payments_by_order_and_status. cbn [and_then].
    change (as_payment_status "completed") with (@inr db_error _ payment_completed).
    cbn [and_then].
    destruct (List.filter _ (payments db)) as [|p rest''] eqn:E.
    - exfalso. apply existsb_exists in Hpaid as (p & Hin & Hp).
      assert (In p []) as [] by (rewrite <- E; apply filter_In; split; assumption).
    - eauto. }
  destruct Hexisting as (p & rest'' & Hexisting).
  assert (Hrun : run (processPayment ext req) {| store := db; calls := cs |}
                 = (Respond 400 (json_error "Order already paid"),
                    {| store := db; calls := cs |})).
  { unfold processPayment, run, try_catch. rewrite Hvalid. cbn [validated].
    erewrite bind_value; [|reflexivity]. cbv beta.
    answer Hsel. rewrite Hid. answer Hsel'. answer Hexisting. reflexivity. }
  rewrite Hrun. split; reflexivity.
Qed.

(** *** The webhook *)


Lemma map_id_ext {A : Type} (f : A -> A) (l : list A) :
  (forall x, f x = x) -> map f l = l.
Proof. intros H. induction l as [|x l IH]; cbn; [reflexivity|]. rewrite H, IH. reflexivity. Qed.

Lemma stripeWebhook_verified (ext : external) (req : request) (w : world)
    (event : stripe_event) :
  constructEvent ext (body req) (assoc "stripe-signature" (headers req))
    (STRIPE_WEBHOOK_SECRET ext) = inr event ->
  run (stripeWebhook ext req) w
  = (Respond 200 json_received,
     {| store := with_payments (store w)
                   (map (reconciled event (time req)) (payments (store w)));
        calls := calls w |}).
Proof.
  intros Hverified. destruct w as [db cs]. cbn [store calls].
  unfold stripeWebhook, run, try_catch. cbv zeta. rewrite Hverified.
  unfold reconciled.
  destruct (String.eqb (event_type event) "payment_intent.succeeded") eqn:E1;
    [|destruct (String.eqb (event_type event) "payment_intent.payment_failed") eqn:E2].
  - erewrite bind_value;
      [| apply query_value; unfold update_payment_status;
         change (as_payment_status "completed") with (@inr db_error _ payment_completed);
         cbn [and_then]; rewrite update_rows_total; reflexivity ].
    reflexivity.
  - erewrite bind_value;
      [| apply query_value; unfold update_payment_status_and_error;
         change (as_payment_status "failed") with (@inr db_error _ payment_failed);
         cbn [and_then]; rewrite update_rows_total; reflexivity ].
    reflexivity.
  - erewrite bind_value; [|reflexivity]. cbv beta. unfold respond.
    rewrite map_id_ext; [destruct db; reflexivity|].
    intros p. destruct (matches_intent _ p); reflexivity.
Qed.

(** C6.  A webhook request whose signature does not verify (the
    verification throws) is answered 400 with the verifier's message, and
    the world is left as it was: no payment row changes. *)
Theorem stripeWebhook_rejects_unverified_signature :
  forall (ext : external) (req : request) (w : world) (err : error),
    constructEvent ext (body req) (assoc "stripe-signature" (headers req))
      (STRIPE_WEBHOOK_SECRET ext) = inl err ->
    run (stripeWebhook ext req) w
    = (Respond 400 (text_body ("Webhook Error: " ++ message err)), w).
Proof.
  intros ext req w err Hrefused.
  unfold stripeWebhook, run, try_catch. cbv zeta. rewrite Hrefused. reflexivity.
Qed.

Lemma matches_intent_settle (intent : string) (state : payment_status)
    (msg : option string) (now : timestamp) (p : payment_row) :
  matches_intent intent (settle state msg now p) = matches_intent intent p.
Proof. reflexivity. Qed.


(** C5.  A verified charge-succeeded event delivered twice: both
    deliveries are acknowledged with 200; after the first, every payment
    with the event's payment-intent identifier is completed; the second
    changes no status, error message or other column of any payment (only
    the update stamp the trigger sets) and no other table.  A verified
    event of any other type than the two handled is acknowledged with 200
    and leaves the world as it was. *)
Theorem stripeWebhook_redelivery_is_idempotent :
  (forall (ext : external) (first second : request) (w : world) (event : stripe_event),
      constructEvent ext (body first) (assoc "stripe-signature" (headers first))
        (STRIPE_WEBHOOK_SECRET ext) = inr event ->
      constructEvent ext (body second) (assoc "stripe-signature" (headers second))
        (STRIPE_WEBHOOK_SECRET ext) = inr event ->
      event_type event = "payment_intent.succeeded" ->
      exists w1 w2,
        run (stripeWebhook ext first) w = (Respond 200 json_received, w1)
        /\ run (stripeWebhook ext second) w1 = (Respond 200 json_received, w2)
        /\ (forall p, In p (payments (store w1)) ->
                      matches_intent (object_id event) p = true ->
                      payment_state p = payment_completed)
        /\ map payment_state (payments (store w2)) = map payment_state (payments (store w1))
        /\ same_but_stamps (store w2) (store w1)
        /\ calls w2 = calls w)
  /\
  (forall (ext : external) (req : request) (w : world) (event : stripe_event),
      constructEvent ext (body req) (assoc "stripe-signature" (headers req))
        (STRIPE_WEBHOOK_SECRET ext) = inr event ->
      event_type event <> "payment_intent.succeeded" ->
      event_type event <> "payment_intent.payment_failed" ->
      run (stripeWebhook ext req) w = (Respond 200 json_received, w)).
Proof.
  split.
  - intros ext first second w event H1 H2 Htype.
    eexists _, _. split; [exact (stripeWebhook_verified ext first w event H1)|].
    split; [exact (stripeWebhook_verified ext second _ event H2)|].
    cbn [store calls with_payments payments users orders order_status_history next_uuid].
    assert (Hrec : forall now p,
               reconciled event now p
               = if matches_intent (object_id event) p
                 then settle payment_completed (error_message p) now p else p).
    { intros now p. unfold reconciled. rewrite Htype. reflexivity. }
    assert (Hstamp : forall p,
               unstamped (reconciled event (time second) (reconciled event (time first) p))
               = unstamped (reconciled event (time first) p)).
    { intros p. rewrite !Hrec.
      destruct (matches_intent (object_id event) p) eqn:E.
      - rewrite matches_intent_settle, E. reflexivity.
      - rewrite E. reflexivity. }
    split.
    { intros p Hin Hm. apply in_map_iff in Hin as (p0 & <- & _).
      rewrite Hrec in *. destruct (matches_intent (object_id event) p0) eqn:E.
      - reflexivity.
      - congruence. }
    split.
    { rewrite !map_map. apply map_ext. intros p.
      change (payment_state ?x) with (payment_state (unstamped x)).
      rewrite Hstamp. reflexivity. }
    unfold same_but_stamps.
    cbn [store calls with_payments payments users orders order_status_history next_uuid].
    repeat split. rewrite !map_map. apply map_ext. exact Hstamp.
  - intros ext req w event Hverified Hnot1 Hnot2.
    rewrite (stripeWebhook_verified ext req w event Hverified).
    f_equal. destruct w as [db cs]. cbn [store calls]. f_equal.
    unfold with_payments. rewrite map_id_ext; [destruct db; reflexivity|].
    intros p. unfold reconciled.
    apply String.eqb_neq in Hnot1, Hnot2. rewrite Hnot1, Hnot2.
    destruct (matches_intent _ p); reflexivity.
Qed.

(** C7, as amended.  A verified charge-succeeded event sets every
    payment that carries the event's payment-intent identifier to
    completed, and a verified charge-failed event sets it to failed and
    stores the processor's error message, whatever status the payment had
    before; every other payment, and every payment on an event of another
    type, is left as it was; no other table changes. *)
Theorem stripeWebhook_settles_by_intent_only :
  forall (ext : external) (req : request) (w : world) (event : stripe_event),
    constructEvent ext (body req) (assoc "stripe-signature" (headers req))
      (STRIPE_WEBHOOK_SECRET ext) = inr event ->
    exists w',
      run (stripeWebhook ext req) w = (Respond 200 json_received, w')
      /\ users (store w') = users (store w)
      /\ orders (store w') = orders (store w)
      /\ order_status_history (store w') = order_status_history (store w)
      /\ calls w' = calls w
      /\ Forall2
           (fun before after =>
              (matches_intent (object_id event) before = true ->
               event_type event = "payment_intent.succeeded" ->
               after = settle payment_completed (error_message before) (time req) before)
              /\ (matches_intent (object_id event) before = true ->
                  event_type event = "payment_intent.payment_failed" ->
                  after = settle payment_failed (last_payment_error_message event)
                            (time req) before)
              /\ (matches_intent (object_id event) before = false -> after = before)
              /\ (event_type event <> "payment_intent.succeeded" ->
                  event_type event <> "payment_intent.payment_failed" ->
                  after = before))
           (payments (store w)) (payments (store w')).
Proof.
  intros ext req w event Hverified.
  eexists. split; [exact (stripeWebhook_verified ext req w event Hverified)|].
  cbn [store calls with_payments payments users orders order_status_history].
  repeat (split; [reflexivity|]).
  induction (payments (store w)) as [|p ps IH]; cbn [map]; constructor; [|exact IH].
  unfold reconciled. repeat split.
  - intros -> ->. reflexivity.
  - intros -> ->. reflexivity.
  - intros ->. reflexivity.
  - intros H1 H2. apply String.eqb_neq in H1, H2. rewrite H1, H2.
    destruct (matches_intent _ p); reflexivity.
Qed.

(** ** The driver's location *)

(** C8.  [updateDriverLocation] answers 400 and leaves the world as it
    was whenever a coordinate is not a finite number (NaN, an infinity,
    null, a string, absent); for an existing order and two finite
    coordinates, zero included, it answers 200 and overwrites the order's
    [driver_location] with the pair and the time of capture.  So on an
    existing order it succeeds exactly when both coordinates are finite. *)
Theorem updateDriverLocation_accepts_exactly_finite_coordinates :
  (forall (req : request) (w : world),
      Number_isFinite (get "latitude" (body req))
      && Number_isFinite (get "longitude" (body req)) = false ->
      run (updateDriverLocation req) w
      = (Respond 400 (json_error "Valid latitude and longitude coordinates required"), w))
  /\
  (forall (req : request) (w : world) (id : uuid),
      uuid_of_text (param "id" req) = Some id ->
      has_order id (store w) = true ->
      Number_isFinite (get "latitude" (body req))
      && Number_isFinite (get "longitude" (body req)) = true ->
      exists (a b : Q) (order : order_row),
        get "latitude" (body req) = Some (VNumber (finite a))
        /\ get "longitude" (body req) = Some (VNumber (finite b))
        /\ let location := VObject [("latitude", VNumber (finite a));
                                    ("longitude", VNumber (finite b));
                                    ("timestamp", VDate (time req))] in
           run (updateDriverLocation req) w
           = (Respond 200 (json_order (Some order)),
              {| store := with_driver_location location id (time req) (store w);
                 calls := calls w |})
           /\ order_id order = id
           /\ driver_location order = Some location)
  /\
  (forall (req : request) (w : world) (id : uuid),
      uuid_of_text (param "id" req) = Some id ->
      has_order id (store w) = true ->
      succeeded (fst (run (updateDriverLocation req) w))
      = Number_isFinite (get "latitude" (body req))
        && Number_isFinite (get "longitude" (body req))).
Proof.
  assert (Hfail : forall (req : request) (w : world),
      Number_isFinite (get "latitude" (body req))
      && Number_isFinite (get "longitude" (body req)) = false ->
      run (updateDriverLocation req) w
      = (Respond 400 (json_error "Valid latitude and longitude coordinates required"), w)).
  { intros req w H. unfold updateDriverLocation, run, try_catch. cbv zeta.
    apply andb_false_iff in H.
    destruct H as [H|H]; rewrite H; cbn [negb orb]; [reflexivity|].
    rewrite orb_true_r. reflexivity. }
  assert (Hok : forall (req : request) (w : world) (id : uuid),
      uuid_of_text (param "id" req) = Some id ->
      has_order id (store w) = true ->
      Number_isFinite (get "latitude" (body req))
      && Number_isFinite (get "longitude" (body req)) = true ->
      exists (a b : Q) (order : order_row),
        get "latitude" (body req) = Some (VNumber (finite a))
        /\ get "longitude" (body req) = Some (VNumber (finite b))
        /\ let location := VObject [("latitude", VNumber (finite a));
                                    ("longitude", VNumber (finite b));
                                    ("timestamp", VDate (time req))] in
           run (updateDriverLocation req) w
           = (Respond 200 (json_order (Some order)),
              {| store := with_driver_location location id (time req) (store w);
                 calls := calls w |})
           /\ order_id order = id
           /\ driver_location order = Some location).
  { intros req [db cs] id Hid Hex H. cbn [store calls] in *.
    apply andb_true_iff in H. destruct H as [Hlat Hlng].
    destruct (get "latitude" (body req)) as [[| |[a| | |]| | | |]|] eqn:Elat;
      try discriminate.
    destruct (get "longitude" (body req)) as [[| |[b| | |]| | | |]|] eqn:Elng;
      try discriminate.
    unfold has_order in Hex.
    destruct (List.find (fun r => N.eqb (order_id r) id) (orders db)) as [o|] eqn:Efind;
      [|apply find_none_existsb in Hex; [contradiction | exact Efind]].
    destruct (filter_find_some _ _ _ Efind) as [rest Hsel].
    exists a, b, (set_driver_location
                    (VObject [("latitude", VNumber (finite a));
                              ("longitude", VNumber (finite b));
                              ("timestamp", VDate (time req))]) (time req) o).
    split; [reflexivity|]. split; [reflexivity|]. cbv zeta.
    assert (Hu : as_uuid (param "id" req) = inr id)
      by (unfold as_uuid; rewrite Hid; reflexivity).
    unfold updateDriverLocation, run, try_catch. rewrite Hu, Elat, Elng. cbv zeta.
    cbn [Number_isFinite negb orb app].
    erewrite bind_value;
      [| apply query_value; unfold update_order_driver_location; cbn [and_then];
         rewrite update_rows_total; cbn [and_then]; rewrite Hsel; reflexivity ].
    split; [reflexivity|]. split; [|reflexivity].
    apply find_some in Efind as [_ E]. apply N.eqb_eq in E. exact E. }
  split; [exact Hfail|]. split; [exact Hok|].
  intros req w id Hid Hex.
  destruct (Number_isFinite (get "latitude" (body req))
            && Number_isFinite (get "longitude" (body req))) eqn:E.
  - destruct (Hok req w id Hid Hex E) as (a & b & o & _ & _ & Hrun & _).
    cbv zeta in Hrun. rewrite Hrun. reflexivity.
  - rewrite (Hfail req w E). reflexivity.
Qed.

(** ** Saved addresses *)

Import AuthController.

(** *** An invariant rule for handlers *)



Section Keeps.
Variable P : database -> Prop.

Lemma keeps_ret {A : Type} (a : A) : keeps P (ret a).
Proof. intros w H. exact H. Qed.

Lemma keeps_throw {A : Type} (e : error) : keeps P (@throw A e).
Proof. intros w H. exact H. Qed.

Lemma keeps_respond {A : Type} (s : nat) (p : payload) : keeps P (@respond A s p).
Proof. intros w H. exact H. Qed.

Lemma keeps_next {A : Type} (e : error) : keeps P (@next A e).
Proof. intros w H. exact H. Qed.

Lemma keeps_validated (r : Joi.result) : keeps P (validated r).
Proof. destruct r; [apply keeps_throw | apply keeps_ret]. Qed.

Lemma keeps_bind {A B : Type} (m : M A) (k : A -> M B) :
  keeps P m -> (forall a, keeps P (k a)) -> keeps P (bind m k).
Proof.
  intros Hm Hk w H. unfold bind. specialize (Hm w H).
  destruct (m w) as [[a|o|e] w1]; cbn [snd] in *.
  - apply Hk. exact Hm.
  - exact Hm.
  - exact Hm.
Qed.

Lemma keeps_try_catch {A : Type} (m : M A) (handler : error -> M A) :
  keeps P m -> (forall e, keeps P (handler e)) -> keeps P (try_catch m handler).
Proof.
  intros Hm Hh w H. unfold try_catch. specialize (Hm w H).
  destruct (m w) as [[a|o|e] w1]; cbn [snd] in *.
  - exact Hm.
  - exact Hm.
  - apply Hh. exact Hm.
Qed.

Lemma keeps_query {A : Type} (q : statement A) :
  statement_keeps P q -> keeps P (query q).
Proof.
  intros Hq w H. unfold query.
  destruct (q (store w)) as [e|[a db']] eqn:E; cbn [snd store].
  - exact H.
  - exact (Hq _ _ _ E H).
Qed.

Lemma keeps_run (m : M outcome) (w : world) :
  keeps P m -> P (store w) -> P (store (snd (run m w))).
Proof.
  intros Hm H. unfold run. specialize (Hm w H).
  destruct (m w) as [[a|o|e] w1]; exact Hm.
Qed.

End Keeps.

(** *** The statements on [users] keep the saved addresses lists *)


Lemma update_rows_keeps {A : Type} (good : A -> bool) (hit : A -> bool)
    (change : A -> db_error + A) (rows changed rows' : list A) :
  (forall r r', change r = inr r' -> good r = true -> good r' = true) ->
  update_rows hit change rows = inr (changed, rows') ->
  forallb good rows = true -> forallb good rows' = true.
Proof.
  intros Hchange. revert changed rows'.
  induction rows as [|r rows IH]; intros changed rows' H Hgood.
  - injection H as <- <-. reflexivity.
  - cbn [update_rows] in H. cbn [forallb] in Hgood.
    apply andb_true_iff in Hgood as [Hr Hrows].
    destruct (hit r) eqn:Ehit.
    + destruct (change r) as [e|r1] eqn:E; [discriminate|]. cbn [and_then] in H.
      destruct (update_rows hit change rows) as [e|[c rs]] eqn:E'; [discriminate|].
      cbn [and_then] in H. injection H as <- <-. cbn [forallb].
      rewrite (Hchange _ _ E Hr), (IH _ _ eq_refl Hrows). reflexivity.
    + cbn [and_then] in H.
      destruct (update_rows hit change rows) as [e|[c rs]] eqn:E'; [discriminate|].
      cbn [and_then] in H. injection H as <- <-. cbn [forallb].
      rewrite Hr, (IH _ _ eq_refl Hrows). reflexivity.
Qed.

Lemma update_users_keeps_lists (clerk : string) (change : user_row -> db_error + user_row)
    (now : timestamp) :
  (forall r r', change r = inr r' ->
                is_list (saved_addresses r) = true -> is_list (saved_addresses r') = true) ->
  statement_keeps lists_only (update_users clerk change now).
Proof.
  intros Hchange db changed db' H Hlists. unfold update_users in H.
  destruct (update_rows _ _ (users db)) as [e|[c rows']] eqn:E; [discriminate|].
  cbn [and_then] in H. injection H as <- <-.
  unfold lists_only, all_saved_addresses_are_lists in *. cbn [users].
  refine (update_rows_keeps _ _ _ _ _ _ _ E Hlists).
  intros r r' Hr Hgood. destruct (change r) as [e|r1] eqn:E1; [discriminate|].
  cbn [and_then] in Hr. injection Hr as <-. cbn [touch_user saved_addresses].
  exact (Hchange _ _ E1 Hgood).
Qed.

Lemma select_user_keeps (P : database -> Prop) (clerk : string) :
  statement_keeps P (select_user_id_by_clerk_id clerk).
Proof. intros db a db' H. injection H as _ <-. tauto. Qed.

Lemma insert_user_keeps_lists (clerk : string) (name phone address : option value)
    (now : timestamp) :
  statement_keeps lists_only (insert_user clerk name phone address now).
Proof.
  intros db a db' H Hlists. unfold insert_user in H. parameters_read H.
  destruct (existsb _ (users db)); [discriminate|].
  injection H as _ <-. unfold lists_only, all_saved_addresses_are_lists in *.
  cbn [users]. rewrite forallb_app, Hlists. reflexivity.
Qed.

Lemma update_user_profile_keeps_lists (clerk : string) (name phone address : option value)
    (now : timestamp) :
  statement_keeps lists_only (update_user_profile name phone address clerk now).
Proof.
  intros db a db' H Hlists. unfold update_user_profile in H. parameters_read H.
  revert H Hlists. apply update_users_keeps_lists.
  intros r r' [= <-] Hr. exact Hr.
Qed.

Lemma append_saved_address_keeps_lists (address : value) (clerk : string)
    (now : timestamp) :
  statement_keeps lists_only (append_saved_address address clerk now).
Proof.
  intros db a db' H. unfold append_saved_address in H. parameters_read H.
  revert H. apply update_users_keeps_lists. intros r r' [= <-].
  cbn [set_saved_addresses saved_addresses].
  destruct (saved_addresses r) as [[]|]; try discriminate. reflexivity.
Qed.

Lemma remove_saved_address_keeps_lists (index : Z) (clerk : string) (now : timestamp) :
  statement_keeps lists_only (remove_saved_address index clerk now).
Proof.
  apply update_users_keeps_lists. intros r r' H _.
  destruct (jsonb_array_elements (saved_addresses r)) as [e|arr]; [discriminate|].
  cbn [and_then] in H. injection H as <-. cbn [set_saved_addresses saved_addresses].
  destruct (jsonb_agg _) as [v|] eqn:E; [|reflexivity].
  unfold jsonb_agg in E. destruct (map fst _); [discriminate|].
  injection E as <-. reflexivity.
Qed.

(** *** The profile handlers keep them, whatever the request *)


Lemma profile_handler_keeps_lists (r : profile_request) :
  keeps lists_only (profile_handler r).
Proof.
  destruct r as [req|req|req]; cbn [profile_handler].
  - unfold upsertProfile. apply keeps_try_catch; [|intros; apply keeps_next].
    apply keeps_bind; [apply keeps_validated|]. intros value.
    apply keeps_bind; [apply keeps_query, select_user_keeps|]. intros existing.
    apply keeps_bind; [|intros; apply keeps_respond].
    destruct existing; apply keeps_query.
    + apply insert_user_keeps_lists.
    + apply update_user_profile_keeps_lists.
  - unfold addAddress. apply keeps_try_catch; [|intros; apply keeps_next].
    apply keeps_bind; [apply keeps_validated|]. intros value.
    apply keeps_bind; [apply keeps_query, append_saved_address_keeps_lists|].
    intros [|u rest]; apply keeps_respond.
  - unfold removeAddress. apply keeps_try_catch; [|intros; apply keeps_next].
    cbv zeta. destruct (parseInt10 (param "index" req)) as [i|]; [|apply keeps_respond].
    destruct (i <? 0)%Z; [apply keeps_respond|].
    apply keeps_bind; [apply keeps_query, remove_saved_address_keeps_lists|].
    intros [|u rest]; apply keeps_respond.
Qed.

Lemma serve_keeps {R : Type} (P : database -> Prop) (handler : R -> M outcome)
    (reqs : list R) :
  (forall r, keeps P (handler r)) ->
  forall w, P (store w) -> P (store (snd (serve handler reqs w))).
Proof.
  intros Hkeeps. induction reqs as [|r reqs IH]; intros w H; [exact H|].
  cbn [serve]. pose proof (keeps_run P (handler r) w (Hkeeps r) H) as H1.
  destruct (run (handler r) w) as [o w1]. cbn [snd] in H1.
  specialize (IH w1 H1). destruct (serve handler reqs w1) as [os w2]. exact IH.
Qed.

(** *** What adding and removing do to one profile *)


Lemma ordinality_keeps_later {A : Type} (xs : list A) :
  forall (k : nat) (index : Z),
    (index < Z.of_nat k)%Z ->
    map fst (List.filter (fun p => negb (snd p - 1 =? index)%Z)
               (combine xs (map Z.of_nat (seq (S k) (length xs)))))
    = xs.
Proof.
  induction xs as [|x xs IH]; intros k index Hlt; [reflexivity|].
  cbn [length seq map combine List.filter snd].
  destruct (Z.eqb_spec (Z.of_nat (S k) - 1) index) as [E|E]; [lia|].
  cbn [negb map fst]. f_equal. apply IH. lia.
Qed.

Lemma ordinality_removes {A : Type} (xs : list A) :
  forall (k i : nat),
    map fst (List.filter (fun p => negb (snd p - 1 =? Z.of_nat (k + i))%Z)
               (combine xs (map Z.of_nat (seq (S k) (length xs)))))
    = without i xs.
Proof.
  induction xs as [|x xs IH]; intros k i.
  - destruct i; reflexivity.
  - cbn [length seq map combine List.filter snd].
    destruct i as [|i].
    + assert (E : (Z.of_nat (S k) - 1 =? Z.of_nat (k + 0))%Z = true)
        by (apply Z.eqb_eq; lia).
      rewrite E. cbn [negb]. unfold without. cbn [firstn skipn app].
      apply ordinality_keeps_later. lia.
    + assert (E : (Z.of_nat (S k) - 1 =? Z.of_nat (k + S i))%Z = false)
        by (apply Z.eqb_neq; lia).
      rewrite E. cbn [negb map fst]. unfold without. cbn [firstn skipn app]. f_equal.
      replace (k + S i)%nat with (S k + i)%nat by lia. apply IH.
Qed.

Lemma removal_of_list (xs : list value) (i : nat) :
  and_then (jsonb_array_elements (Some (VArray xs)))
    (fun arr =>
       inr (Some (COALESCE
                    (jsonb_agg
                       (map fst
                          (List.filter (fun p => negb (snd p - 1 =? Z.of_nat i)%Z) arr)))
                    (VArray []))))
  = @inr db_error _ (Some (VArray (without i xs))).
Proof.
  cbn [jsonb_array_elements and_then].
  pose proof (ordinality_removes xs 0 i) as H. cbn [Nat.add] in H. rewrite H.
  destruct (without i xs); reflexivity.
Qed.

Lemma update_rows_where {A : Type} (hit : A -> bool) (change : A -> db_error + A)
    (f : A -> A) (rows : list A) :
  (forall r, In r rows -> hit r = true -> change r = inr (f r)) ->
  update_rows hit change rows
  = inr (map f (List.filter hit rows), map (fun r => if hit r then f r else r) rows).
Proof.
  induction rows as [|r rows IH]; intros H; [reflexivity|].
  cbn [update_rows List.filter map]. rewrite IH by (intros; apply H; [right|]; assumption).
  destruct (hit r) eqn:E; [|reflexivity].
  rewrite (H r) by (left; reflexivity) || assumption. reflexivity.
Qed.


Lemma profile_of_with_profile (clerk : string) (f : user_row -> user_row) (db : database)
    (profile : user_row) :
  (forall r, clerk_id (f r) = clerk_id r) ->
  profile_of clerk db = Some profile ->
  profile_of clerk (with_profile clerk f db) = Some (f profile).
Proof.
  intros Hf. unfold profile_of, with_profile. cbn [users].
  induction (users db) as [|r rows IH]; [discriminate|].
  cbn [List.find map].
  destruct (String.eqb (clerk_id r) clerk) eqn:E.
  - rewrite Hf, E. intros [= <-]. reflexivity.
  - rewrite E. exact IH.
Qed.

Lemma update_users_where (clerk : string) (change : user_row -> db_error + user_row)
    (f : user_row -> user_row) (now : timestamp) (db : database) (profile : user_row) :
  (forall r, In r (users db) -> String.eqb (clerk_id r) clerk = true ->
             change r = inr (f r)) ->
  profile_of clerk db = Some profile ->
  exists rest,
    update_users clerk change now db
    = inr (touch_user now (f profile) :: rest,
           with_profile clerk (fun r => touch_user now (f r)) db).
Proof.
  intros Hchange Hprofile. unfold update_users.
  rewrite (update_rows_where _ _ (fun r => touch_user now (f r))).
  - cbn [and_then]. unfold profile_of in Hprofile.
    destruct (filter_find_some _ _ _ Hprofile) as [rest ->]. cbn [map]. eauto.
  - intros r Hin Hhit. rewrite (Hchange r Hin Hhit). reflexivity.
Qed.

(** An address that holds U+0000 is refused by [jsonb], whether the
    caller has a profile or not; the error middleware answers 500. *)
Lemma addAddress_refuses (req : request) (w : world) (value : JS.value) :
  Joi.validate addressSchema (body req) = inr value ->
  holds_nul value = true ->
  run (addAddress req) w = (Next (pg_error untranslatable_character), w)
  /\ fst (received (Next (pg_error untranslatable_character))) = 500%nat.
Proof.
  intros Hvalid Hnul. split; [|reflexivity]. destruct w as [db cs].
  unfold addAddress, run, try_catch. rewrite Hvalid. cbn [validated].
  erewrite bind_value; [|reflexivity]. cbv beta zeta.
  assert (Hupdate : append_saved_address value (clerkId (user req)) (time req) db
                    = inl untranslatable_character)
    by (unfold append_saved_address, as_jsonb; rewrite Hnul; reflexivity).
  refused Hupdate. reflexivity.
Qed.

Lemma addAddress_appends (req : request) (w : world) (value : JS.value)
    (profile : user_row) (xs : list JS.value) :
  Joi.validate addressSchema (body req) = inr value ->
  holds_nul value = false ->
  profile_of (clerkId (user req)) (store w) = Some profile ->
  saved_addresses profile = Some (VArray xs) ->
  exists after w',
    run (addAddress req) w = (Respond 200 (json_user (Some after)), w')
    /\ profile_of (clerkId (user req)) (store w') = Some after
    /\ saved_addresses after = Some (VArray (xs ++ [value])).
Proof.
  intros Hvalid Hnul Hprofile Hsaved. destruct w as [db cs]. cbn [store] in *.
  set (f := fun r => set_saved_addresses
                       (jsonb_concat (saved_addresses r) (Some (jsonb_build_array value)))
                       r).
  destruct (update_users_where (clerkId (user req)) (fun r => inr (f r)) f (time req) db
              profile (fun _ _ _ => eq_refl) Hprofile) as [rest Hupdate].
  assert (Hstatement : append_saved_address value (clerkId (user req)) (time req) db
                       = inr (touch_user (time req) (f profile) :: rest,
                              with_profile (clerkId (user req))
                                (fun r => touch_user (time req) (f r)) db)).
  { unfold append_saved_address, as_jsonb. rewrite Hnul. cbn [and_then]. exact Hupdate. }
  unfold addAddress, run, try_catch. rewrite Hvalid. cbn [validated].
  erewrite bind_value; [|reflexivity]. cbv beta zeta.
  answer Hstatement.
  eexists _, _. split; [reflexivity|]. cbn [store]. split.
  - apply (profile_of_with_profile _ (fun r => touch_user (time req) (f r)));
      [reflexivity | exact Hprofile].
  - cbn [touch_user f set_saved_addresses saved_addresses]. rewrite Hsaved. reflexivity.
Qed.

Lemma removeAddress_removes (req : request) (w : world) (i : nat)
    (profile : user_row) (xs : list JS.value) :
  lists_only (store w) ->
  parseInt10 (param "index" req) = Some (Z.of_nat i) ->
  profile_of (clerkId (user req)) (store w) = Some profile ->
  saved_addresses profile = Some (VArray xs) ->
  exists after w',
    run (removeAddress req) w = (Respond 200 (json_user (Some after)), w')
    /\ profile_of (clerkId (user req)) (store w') = Some after
    /\ saved_addresses after = Some (VArray (without i xs)).
Proof.
  intros Hlists Hindex Hprofile Hsaved. destruct w as [db cs]. cbn [store] in *.
  set (items := fun r => match saved_addresses r with
                         | Some (VArray ys) => ys
                         | _ => []
                         end).
  set (f := fun r => set_saved_addresses (Some (VArray (without i (items r)))) r).
  assert (Hchange : forall r, In r (users db) ->
             String.eqb (clerk_id r) (clerkId (user req)) = true ->
             and_then (jsonb_array_elements (saved_addresses r))
               (fun arr =>
                  inr (set_saved_addresses
                         (Some (COALESCE
                                  (jsonb_agg
                                     (map fst
                                        (List.filter
                                           (fun p => negb (snd p - 1 =? Z.of_nat i)%Z) arr)))
                                  (VArray [])))
                         r))
             = inr (f r)).
  { intros r Hin _. unfold lists_only, all_saved_addresses_are_lists in Hlists.
    rewrite forallb_forall in Hlists. specialize (Hlists r Hin).
    unfold f, items. destruct (saved_addresses r) as [[| | | | |ys|]|]; try discriminate.
    pose proof (removal_of_list ys i) as H.
    cbn [jsonb_array_elements and_then] in H |- *. injection H as ->. reflexivity. }
  destruct (update_users_where _ _ f (time req) db profile Hchange Hprofile)
    as [rest Hupdate].
  unfold removeAddress, run, try_catch. cbv zeta. rewrite Hindex.
  assert (Hsign : (Z.of_nat i <? 0)%Z = false) by (apply Z.ltb_ge; lia).
  rewrite Hsign.
  unfold remove_saved_address. answer Hupdate.
  eexists _, _. split; [reflexivity|]. cbn [store]. split.
  - apply (profile_of_with_profile _ (fun r => touch_user (time req) (f r)));
      [reflexivity | exact Hprofile].
  - cbn [touch_user f set_saved_addresses saved_addresses]. unfold items.
    rewrite Hsaved. reflexivity.
Qed.


End Properties.

(** ** Every reachable store *)

Section Reachable.
Context {formats : TextFormats}.
Import OrderController AuthController PaymentController.

Lemma consistent_iff (db : database) :
  consistent db = true
  <-> (forall o, In o (orders db) -> (order_id o < next_uuid db)%N)
      /\ (forall h, In h (order_status_history db) ->
                    has_order (history_order_id h) db = true).
Proof.
  unfold consistent. rewrite andb_true_iff, !forallb_forall.
  split; intros [H1 H2]; (split; [|exact H2]); intros o Hin; specialize (H1 o Hin).
  - apply N.ltb_lt. exact H1.
  - apply N.ltb_lt. exact H1.
Qed.

(** A statement that leaves orders and history alone and only moves the
    generator forward keeps the store consistent. *)
Lemma consistent_frame (db db' : database) :
  orders db' = orders db ->
  order_status_history db' = order_status_history db ->
  (next_uuid db <= next_uuid db')%N ->
  is_consistent db -> is_consistent db'.
Proof.
  unfold is_consistent. rewrite !consistent_iff. unfold has_order.
  intros -> -> Hnext [H1 H2]. split.
  - intros o Hin. specialize (H1 o Hin). lia.
  - exact H2.
Qed.

Lemma update_users_frame (clerk : string) (change : user_row -> db_error + user_row)
    (now : timestamp) (db db' : database) (rows : list user_row) :
  update_users clerk change now db = inr (rows, db') ->
  orders db' = orders db
  /\ order_status_history db' = order_status_history db
  /\ next_uuid db' = next_uuid db.
Proof.
  unfold update_users. destruct (update_rows _ _ _) as [e|[c u]]; [discriminate|].
  cbn [and_then]. intros [= _ <-]. repeat split.
Qed.

Lemma orders_update_keeps_consistent (f : order_row -> order_row) (id : uuid)
    (db : database) :
  (forall r, order_id (f r) = order_id r) ->
  is_consistent db ->
  is_consistent
    (with_orders db (map (fun r => if N.eqb (order_id r) id then f r else r) (orders db))).
Proof.
  intros Hf. unfold is_consistent. rewrite !consistent_iff.
  unfold has_order, with_orders. cbn [orders order_status_history next_uuid].
  intros [H1 H2]. split.
  - intros o Hin. apply in_map_iff in Hin as (r & <- & Hr). specialize (H1 r Hr).
    destruct (N.eqb (order_id r) id); [rewrite Hf|]; exact H1.
  - intros h Hin. rewrite existsb_map_stable; [exact (H2 h Hin)|].
    intros r. destruct (N.eqb (order_id r) id); [rewrite Hf|]; reflexivity.
Qed.

Ltac frame :=
  match goal with
  | H : is_consistent ?db |- is_consistent _ =>
      refine (consistent_frame db _ _ _ _ H); cbn; first [ reflexivity | lia ]
  end.

Lemma insert_user_keeps_consistent (clerk : string) (name phone address : option value)
    (now : timestamp) :
  statement_keeps is_consistent (insert_user clerk name phone address now).
Proof.
  intros db a db' H Hc. unfold insert_user in H. parameters_read H.
  destruct (existsb _ (users db)); [discriminate|].
  injection H as _ <-. frame.
Qed.

Lemma update_users_keeps_consistent (clerk : string)
    (change : user_row -> db_error + user_row) (now : timestamp) :
  statement_keeps is_consistent (update_users clerk change now).
Proof.
  intros db a db' H Hc. destruct (update_users_frame _ _ _ _ _ _ H) as (H1 & H2 & H3).
  refine (consistent_frame db db' H1 H2 _ Hc). lia.
Qed.

Lemma update_user_profile_keeps_consistent (clerk : string)
    (name phone address : option value) (now : timestamp) :
  statement_keeps is_consistent (update_user_profile name phone address clerk now).
Proof.
  intros db a db' H. unfold update_user_profile in H. parameters_read H.
  revert H. apply update_users_keeps_consistent.
Qed.

Lemma insert_order_keeps_consistent (owner : uuid) (pickup delivery : option value)
    (t tier count : option value) (cost : option Q) (note : option value)
    (now : timestamp) :
  statement_keeps is_consistent
    (insert_order owner pickup delivery t tier count cost note now).
Proof.
  intros db a db' H Hc. unfold insert_order in H. parameters_read H.
  repeat match type of H with
         | match ?x with _ => _ end = _ => destruct x; try discriminate H
         end.
  injection H as _ <-.
  unfold is_consistent in *. rewrite consistent_iff in *. destruct Hc as [H1 H2].
  unfold has_order in *. cbn [orders order_status_history next_uuid]. split.
  - intros o Hin. apply in_app_iff in Hin as [Hin|[<-|[]]].
    + specialize (H1 o Hin). lia.
    + cbn. lia.
  - intros h Hin. rewrite existsb_app, (H2 h Hin). reflexivity.
Qed.

Lemma insert_history_keeps_consistent (id : db_error + uuid) (from : option order_status)
    (to : option value) (by_whom : option uuid) (note : option value) (now : timestamp) :
  statement_keeps is_consistent (insert_history id from to by_whom note now).
Proof.
  intros db a db' H Hc. unfold insert_history in H.
  destruct id as [|id']; [discriminate|].
  destruct (as_order_status to) as [|[to'|]]; try discriminate;
    destruct (as_text note) as [|note']; try discriminate.
  cbn [and_then] in H. destruct (has_order id' db) eqn:E; [|discriminate].
  injection H as H. subst db'.
  unfold is_consistent in *. rewrite consistent_iff in *. destruct Hc as [H1 H2].
  cbn [orders order_status_history next_uuid]. split.
  - intros o Hin. specialize (H1 o Hin). lia.
  - intros h Hin. apply in_app_iff in Hin as [Hin|[<-|[]]].
    + exact (H2 h Hin).
    + exact E.
Qed.

Lemma update_order_status_keeps_consistent (to : option value) (id : db_error + uuid)
    (now : timestamp) :
  statement_keeps is_consistent (update_order_status to id now).
Proof.
  intros db a db' H Hc. unfold update_order_status in H.
  destruct (as_order_status to) as [|[s|]]; try discriminate;
    destruct id as [|id']; try discriminate.
  cbn [and_then] in H. rewrite update_rows_total in H. cbn [and_then] in H.
  injection H as _ <-. apply orders_update_keeps_consistent; [reflexivity | exact Hc].
Qed.

Lemma update_order_driver_location_keeps_consistent (l : value) (id : db_error + uuid)
    (now : timestamp) :
  statement_keeps is_consistent (update_order_driver_location l id now).
Proof.
  intros db a db' H Hc. unfold update_order_driver_location in H.
  destruct id as [|id']; [discriminate|].
  cbn [and_then] in H. rewrite update_rows_total in H. cbn [and_then] in H.
  injection H as _ <-. apply orders_update_keeps_consistent; [reflexivity | exact Hc].
Qed.

Lemma select_keeps {A : Type} (P : database -> Prop) (q : statement A) :
  (forall db a db', q db = inr (a, db') -> db' = db) -> statement_keeps P q.
Proof. intros Hq db a db' H. rewrite (Hq _ _ _ H). tauto. Qed.

Lemma select_order_by_id_reads (id : db_error + uuid) (db db' : database)
    (rows : list order_row) :
  select_order_by_id id db = inr (rows, db') -> db' = db.
Proof.
  unfold select_order_by_id. destruct id; [discriminate|]. cbn. congruence.
Qed.

Lemma select_order_by_id_and_user_reads (id : db_error + uuid) (owner : uuid)
    (db db' : database) (rows : list order_row) :
  select_order_by_id_and_user id owner db = inr (rows, db') -> db' = db.
Proof.
  unfold select_order_by_id_and_user. destruct id; [discriminate|]. cbn. congruence.
Qed.

Lemma select_payments_reads (id : db_error + uuid) (state : string) (db db' : database)
    (rows : list payment_row) :
  select_payments_by_order_and_status id state db = inr (rows, db') -> db' = db.
Proof.
  unfold select_payments_by_order_and_status. destruct id; [discriminate|].
  cbn [and_then]. destruct (as_payment_status state); [discriminate|]. cbn. congruence.
Qed.

Lemma insert_payment_keeps_consistent (id : db_error + uuid) (owner : uuid)
    (charge intent : option string) (amount : Q) (state : string)
    (method message : option string) (now : timestamp) :
  statement_keeps is_consistent
    (insert_payment id owner charge intent amount state method message now).
Proof.
  intros db a db' H Hc. unfold insert_payment in H. parameters_read H.
  repeat match type of H with
         | (if ?x then _ else _) = _ => destruct x; try discriminate H
         end.
  injection H as _ <-. frame.
Qed.

Lemma update_payments_keep_consistent (db db' : database) (rows' : list payment_row) :
  db' = with_payments db rows' -> is_consistent db -> is_consistent db'.
Proof. intros -> Hc. frame. Qed.

Lemma update_payment_status_keeps_consistent (state intent : string) (now : timestamp) :
  statement_keeps is_consistent (update_payment_status state intent now).
Proof.
  intros db a db' H. unfold update_payment_status in H.
  destruct (as_payment_status state); [discriminate|]. cbn [and_then] in H.
  rewrite update_rows_total in H. cbn [and_then] in H. injection H as H. subst db'.
  eapply update_payments_keep_consistent. reflexivity.
Qed.

Lemma update_payment_status_and_error_keeps_consistent (state : string)
    (message : option string) (intent : string) (now : timestamp) :
  statement_keeps is_consistent (update_payment_status_and_error state message intent now).
Proof.
  intros db a db' H. unfold update_payment_status_and_error in H.
  destruct (as_payment_status state); [discriminate|]. cbn [and_then] in H.
  rewrite update_rows_total in H. cbn [and_then] in H. injection H as H. subst db'.
  eapply update_payments_keep_consistent. reflexivity.
Qed.

Lemma keeps_external_call (P : database -> Prop) {A : Type} (c : call) (answer : error + A) :
  keeps P (external_call c answer).
Proof. intros w H. unfold external_call. destruct answer; exact H. Qed.


(** *** Statements on orders and payments leave the profiles alone *)

Lemma lists_only_frame (db db' : database) :
  users db' = users db -> lists_only db -> lists_only db'.
Proof.
  unfold lists_only, all_saved_addresses_are_lists. intros ->. tauto.
Qed.

Lemma insert_order_keeps_lists (owner : uuid) (pickup delivery : option value)
    (t tier count : option value) (cost : option Q) (note : option value)
    (now : timestamp) :
  statement_keeps lists_only (insert_order owner pickup delivery t tier count cost note now).
Proof.
  intros db a db' H. unfold insert_order in H. parameters_read H.
  repeat match type of H with
         | match ?x with _ => _ end = _ => destruct x; try discriminate H
         end.
  injection H as _ H. subst db'.
  apply lists_only_frame. reflexivity.
Qed.

Lemma insert_history_keeps_lists (id : db_error + uuid) (from : option order_status)
    (to : option value) (by_whom : option uuid) (note : option value) (now : timestamp) :
  statement_keeps lists_only (insert_history id from to by_whom note now).
Proof.
  intros db a db' H. unfold insert_history in H.
  destruct id as [|id']; [discriminate|].
  destruct (as_order_status to) as [|[to'|]]; try discriminate;
    destruct (as_text note) as [|note']; try discriminate.
  cbn [and_then] in H. destruct (has_order id' db); [|discriminate].
  injection H as H. subst db'. apply lists_only_frame. reflexivity.
Qed.

Lemma update_order_status_keeps_lists (to : option value) (id : db_error + uuid)
    (now : timestamp) :
  statement_keeps lists_only (update_order_status to id now).
Proof.
  intros db a db' H. unfold update_order_status in H.
  destruct (as_order_status to) as [|[s|]]; try discriminate;
    destruct id as [|id']; try discriminate.
  cbn [and_then] in H. rewrite update_rows_total in H. cbn [and_then] in H.
  injection H as _ H. subst db'. apply lists_only_frame. reflexivity.
Qed.

Lemma update_order_driver_location_keeps_lists (l : value) (id : db_error + uuid)
    (now : timestamp) :
  statement_keeps lists_only (update_order_driver_location l id now).
Proof.
  intros db a db' H. unfold update_order_driver_location in H.
  destruct id as [|id']; [discriminate|].
  cbn [and_then] in H. rewrite update_rows_total in H. cbn [and_then] in H.
  injection H as _ H. subst db'. apply lists_only_frame. reflexivity.
Qed.

Lemma insert_payment_keeps_lists (id : db_error + uuid) (owner : uuid)
    (charge intent : option string) (amount : Q) (state : string)
    (method message : option string) (now : timestamp) :
  statement_keeps lists_only
    (insert_payment id owner charge intent amount state method message now).
Proof.
  intros db a db' H. unfold insert_payment in H. parameters_read H.
  repeat match type of H with
         | (if ?x then _ else _) = _ => destruct x; try discriminate H
         end.
  injection H as _ H. subst db'. apply lists_only_frame. reflexivity.
Qed.

Lemma update_payment_status_keeps_lists (state intent : string) (now : timestamp) :
  statement_keeps lists_only (update_payment_status state intent now).
Proof.
  intros db a db' H. unfold update_payment_status in H.
  destruct (as_payment_status state); [discriminate|]. cbn [and_then] in H.
  rewrite update_rows_total in H. cbn [and_then] in H. injection H as H. subst db'.
  apply lists_only_frame. reflexivity.
Qed.

Lemma update_payment_status_and_error_keeps_lists (state : string)
    (message : option string) (intent : string) (now : timestamp) :
  statement_keeps lists_only (update_payment_status_and_error state message intent now).
Proof.
  intros db a db' H. unfold update_payment_status_and_error in H.
  destruct (as_payment_status state); [discriminate|]. cbn [and_then] in H.
  rewrite update_rows_total in H. cbn [and_then] in H. injection H as H. subst db'.
  apply lists_only_frame. reflexivity.
Qed.

(** *** Every handler keeps the store sound *)

Lemma statement_keeps_sound {A : Type} (q : statement A) :
  statement_keeps is_consistent q -> statement_keeps lists_only q ->
  statement_keeps sound q.
Proof. intros HP HQ db a db' H [HPdb HQdb]. split; eauto. Qed.

Lemma select_order_by_id_keeps (P : database -> Prop) (id : db_error + uuid) :
  statement_keeps P (select_order_by_id id).
Proof. apply select_keeps. intros db a db'. apply select_order_by_id_reads. Qed.

Lemma select_order_by_id_and_user_keeps (P : database -> Prop) (id : db_error + uuid)
    (owner : uuid) :
  statement_keeps P (select_order_by_id_and_user id owner).
Proof. apply select_keeps. intros db a db'. apply select_order_by_id_and_user_reads. Qed.

Lemma select_payments_keeps (P : database -> Prop) (id : db_error + uuid) (state : string) :
  statement_keeps P (select_payments_by_order_and_status id state).
Proof. apply select_keeps. intros db a db'. apply select_payments_reads. Qed.

Lemma append_saved_address_keeps_consistent (address : value) (clerk : string)
    (now : timestamp) :
  statement_keeps is_consistent (append_saved_address address clerk now).
Proof.
  intros db a db' H. unfold append_saved_address in H. parameters_read H.
  revert H. apply update_users_keeps_consistent.
Qed.

Lemma remove_saved_address_keeps_consistent (index : Z) (clerk : string) (now : timestamp) :
  statement_keeps is_consistent (remove_saved_address index clerk now).
Proof. apply update_users_keeps_consistent. Qed.

Create HintDb keeps.

#[local] Hint Resolve
  select_user_keeps select_order_by_id_keeps select_order_by_id_and_user_keeps
  select_payments_keeps
  insert_user_keeps_consistent update_user_profile_keeps_consistent
  append_saved_address_keeps_consistent remove_saved_address_keeps_consistent
  insert_order_keeps_consistent
  insert_history_keeps_consistent update_order_status_keeps_consistent
  update_order_driver_location_keeps_consistent insert_payment_keeps_consistent
  update_payment_status_keeps_consistent update_payment_status_and_error_keeps_consistent
  insert_user_keeps_lists update_user_profile_keeps_lists
  append_saved_address_keeps_lists remove_saved_address_keeps_lists
  insert_order_keeps_lists insert_history_keeps_lists update_order_status_keeps_lists
  update_order_driver_location_keeps_lists insert_payment_keeps_lists
  update_payment_status_keeps_lists update_payment_status_and_error_keeps_lists
  : keeps.

Ltac keeps_statement :=
  apply keeps_query;
  first [ solve [ auto with keeps ]
        | apply statement_keeps_sound; solve [ auto with keeps ] ].

Ltac keeps_step :=
  first [ apply keeps_respond | apply keeps_next | apply keeps_ret | apply keeps_throw
        | apply keeps_validated | apply keeps_external_call | keeps_statement
        | apply keeps_try_catch; [| intros ? ]
        | apply keeps_bind; [| intros ? ] ].

Ltac keeps_walk :=
  repeat (cbv zeta;
          first [ keeps_step
                | match goal with
                  | |- keeps _ (match ?x with _ => _ end) => destruct x
                  | |- keeps _ (if ?x then _ else _) => destruct x
                  end ]).

Lemma api_handler_keeps_sound (r : api_request) : keeps sound (api_handler r).
Proof.
  destruct r as [[req|req|req]|req|req|req|req|ext req|ext req];
    cbn [api_handler profile_handler].
  - unfold upsertProfile. keeps_walk.
  - unfold addAddress. keeps_walk.
  - unfold removeAddress. keeps_walk.
  - unfold createOrder. keeps_walk.
  - unfold updateOrderStatus. keeps_walk.
  - unfold updateDriverLocation. keeps_walk.
  - unfold cancelOrder. keeps_walk.
  - unfold processPayment. keeps_walk.
  - unfold stripeWebhook. keeps_walk.
Qed.

(** Every store reached from the empty one by requests to the API is
    consistent and keeps every profile's saved addresses in a list. *)
Theorem reachable_stores_are_sound (reqs : list api_request) :
  sound (store (snd (serve api_handler reqs {| store := empty_database; calls := [] |}))).
Proof.
  apply serve_keeps; [exact api_handler_keeps_sound|]. split; reflexivity.
Qed.

End Reachable.

(** ** Charge attempts *)

Section Charging.
Context {formats : TextFormats}.
Import PaymentController.

Lemma external_value {A B : Type} (c : call) (answer : error + A) (a : A)
    (k : A -> M B) (db : database) (cs : list call) :
  answer = inr a ->
  bind (external_call c answer) k {| store := db; calls := cs |}
  = k a {| store := db; calls := cs ++ [c] |}.
Proof. intros ->. reflexivity. Qed.

Lemma external_thrown {A B : Type} (c : call) (answer : error + A) (e : error)
    (k : A -> M B) (db : database) (cs : list call) :
  answer = inl e ->
  bind (external_call c answer) k {| store := db; calls := cs |}
  = (Thrown e, {| store := db; calls := cs ++ [c] |}).
Proof. intros ->. reflexivity. Qed.

Lemma unpaid_select (id : uuid) (db : database) :
  paid id db = false ->
  select_payments_by_order_and_status (inr id) "completed" db = inr ([], db).
Proof.
  unfold paid, select_payments_by_order_and_status. intros H. cbn [and_then].
  change (as_payment_status "completed") with (@inr db_error _ payment_completed).
  cbn [and_then].
  destruct (List.filter _ (payments db)) as [|p rest] eqn:E; [reflexivity|].
  assert (Hin : In p (List.filter
                        (fun r => N.eqb (payment_order_id r) id
                                  && payment_status_eqb (payment_state r) payment_completed)
                        (payments db))) by (rewrite E; left; reflexivity).
  apply filter_In in Hin as [Hin Hp].
  assert (existsb (fun r => N.eqb (payment_order_id r) id
                            && payment_status_eqb (payment_state r) payment_completed)
                  (payments db) = true) by (apply existsb_exists; eauto).
  congruence.
Qed.

Lemma kept_as_is_read (n : nat) (s : option string) :
  kept_as_is n s = true -> text_parameter s = inr s /\ varchar n s = inr s.
Proof.
  destruct s as [x|]; [|split; reflexivity]. cbn [kept_as_is text_parameter varchar].
  intros H. apply andb_prop in H as [Hnul Hlen]. apply negb_true_iff in Hnul.
  rewrite Hnul, Hlen. split; reflexivity.
Qed.

(** The [INSERT] of a payment whose texts the columns keep as they
    are. *)
Lemma insert_payment_stored (db : database) (id owner : uuid)
    (charge intent : option string) (cost : Q) (state : string) (state' : payment_status)
    (method message : option string) (now : timestamp) :
  as_payment_status state = inr state' ->
  kept_as_is 255 charge = true ->
  kept_as_is 255 intent = true ->
  kept_as_is 255 method = true ->
  note_is_text message = true ->
  charge_is_new charge db = true ->
  has_order id db = true ->
  has_user owner db = true ->
  insert_payment (inr id) owner charge intent cost state method message now db
  = inr ([payment_record db id owner charge intent cost state' method message now],
         with_new_payment
           (payment_record db id owner charge intent cost state' method message now) db).
Proof.
  intros Hstate Hcharge Hintent Hmethod Hmessage Hnew Horder Huser.
  destruct (kept_as_is_read _ _ Hcharge) as [C1 C2].
  destruct (kept_as_is_read _ _ Hintent) as [I1 I2].
  destruct (kept_as_is_read _ _ Hmethod) as [M1 M2].
  unfold insert_payment. cbn [and_then].
  rewrite C1, I1, Hstate, M1, (text_parameter_of_text _ Hmessage). cbn [and_then].
  rewrite C2, I2, M2. cbn [and_then].
  assert (Hfree : match charge with
                  | Some c => existsb (fun r => same_text (stripe_payment_id r) c)
                                      (payments db)
                  | None => false
                  end = false).
  { unfold charge_is_new in Hnew. destruct charge as [c|]; [|reflexivity].
    apply negb_true_iff in Hnew. exact Hnew. }
  rewrite Hfree, Horder, Huser. reflexivity.
Qed.

(** A charge for a customer Clerk already knows, with a payment method
    of at most 255 characters, none of them U+0000.  The only calls are
    Clerk's [getUser] and Stripe's [paymentIntents.create], for the
    order's price in cents.  When Stripe answers with identifiers the
    columns keep as they are, the payment is recorded with the charge
    identifier and the payment-intent identifier in their own columns,
    completed if the intent has succeeded and pending otherwise.  When
    Stripe throws an error whose message holds no U+0000, a failed
    payment of amount zero carrying the message is recorded and the error
    goes to [next]. *)
Theorem processPayment_records_every_attempt :
  forall (ext : external) (req : request) (db : database) (cs : list call)
         (profile : user_row) (order_text method : string) (id : uuid) (order : order_row)
         (clerk : clerk_user) (customer : value),
    body req = VObject [("orderId", VString order_text);
                        ("paymentMethodId", VString method)] ->
    order_text <> "" -> method <> "" ->
    kept_as_is 255 (Some method) = true ->
    uuid_of_text order_text = Some id ->
    profile_of (clerkId (user req)) db = Some profile ->
    owned_order id (user_id profile) db = Some order ->
    paid id db = false ->
    getUser ext (clerkId (user req)) = inr clerk ->
    match publicMetadata clerk with
    | Some meta => assoc "stripeCustomerId" meta
    | None => None
    end = Some customer ->
    truthy (Some customer) = true ->
    let cents := Math_round (price order * 100) in
    let asked := stripe_paymentIntents_create cents (Some customer) (Some (VString method))
                   (Some (VString order_text)) (user_id profile) (clerkId (user req)) in
    let log := (cs ++ [clerk_users_getUser (clerkId (user req))] ++ [asked])%list in
    match paymentIntents_create ext cents (Some customer) (Some (VString method))
            (Some (VString order_text)) (user_id profile) (clerkId (user req)) with
    | inr intent =>
        kept_as_is 255 (or_null (first_charge_id intent)) = true ->
        kept_as_is 255 (Some (intent_id intent)) = true ->
        charge_is_new (or_null (first_charge_id intent)) db = true ->
        let record :=
          payment_record db id (user_id profile) (or_null (first_charge_id intent))
            (Some (intent_id intent)) (price order)
            (if String.eqb (intent_status intent) "succeeded"
             then payment_completed else payment_pending)
            (Some method) None (time req) in
        run (processPayment ext req) {| store := db; calls := cs |}
        = (Respond 200 (json_payment (Some record) (client_secret intent)),
           {| store := with_new_payment record db; calls := log |})
    | inl err =>
        has_nul (message err) = false ->
        let record :=
          payment_record db id (user_id profile) None None 0 payment_failed None
            (Some (message err)) (time req) in
        run (processPayment ext req) {| store := db; calls := cs |}
        = (Next err, {| store := with_new_payment record db; calls := log |})
    end.
Proof.
  intros ext req db cs profile order_text method id order clerk customer
    Hbody Horder_text Hmethod Hkept Hid Hprofile Horder Hunpaid Hclerk Hcustomer Htruthy.
  cbv zeta.
  assert (Hvalid : Joi.validate paymentSchema (body req) = inr (body req)).
  { rewrite Hbody. unfold paymentSchema, Joi.object.
    cbn [Joi.validate Joi.uuid Joi.string forallb existsb map fst String.eqb
         Ascii.eqb Bool.eqb orb andb assoc].
    cbn. unfold Joi.validate_string, Joi.check_string.
    cbn [Joi.allow_empty Joi.max_length Joi.only Joi.guid orb].
    apply String.eqb_neq in Horder_text, Hmethod. rewrite Horder_text, Hmethod, Hid.
    reflexivity. }
  destruct (profile_of_select _ _ _ Hprofile) as [rest Hsel].
  destruct (owned_order_select _ _ _ _ Horder) as [rest' Hsel'].
  assert (Hu : as_uuid_value (Some (VString order_text)) = inr id)
    by (cbn; unfold as_uuid; rewrite Hid; reflexivity).
  assert (Hhas_order : has_order id db = true).
  { destruct (owned_order_is_order _ _ _ _ Horder) as [first Hfirst].
    exact (order_of_has_order _ _ _ Hfirst). }
  pose proof (profile_of_has_user _ _ _ Hprofile) as Hhas_user.
  unfold processPayment, run, try_catch. rewrite Hvalid. cbn [validated].
  erewrite bind_value; [|reflexivity]. cbv beta zeta.
  rewrite Hbody.
  change (get "orderId" (VObject [("orderId", VString order_text);
                                  ("paymentMethodId", VString method)]))
    with (Some (VString order_text)).
  change (get "paymentMethodId" (VObject [("orderId", VString order_text);
                                          ("paymentMethodId", VString method)]))
    with (Some (VString method)).
  rewrite Hu.
  answer Hsel. answer Hsel'. answer (unpaid_select _ _ Hunpaid).
  erewrite external_value by exact Hclerk. rewrite Hcustomer, Htruthy.
  cbn [negb]. erewrite bind_value; [|reflexivity]. cbv beta.
  destruct (paymentIntents_create ext _ _ _ _ _ _) as [err|intent] eqn:Hintent.
  - intros Hmessage.
    erewrite external_thrown by reflexivity.
    assert (Htruthy' : truthy (Some (VString order_text)) = true).
    { cbn. apply String.eqb_neq in Horder_text. rewrite Horder_text. reflexivity. }
    rewrite Htruthy'.
    erewrite bind_value.
    2:{ unfold try_catch.
        erewrite bind_value; [| apply query_value; exact Hsel ]. cbv beta iota.
        erewrite bind_value.
        2:{ apply query_value.
            apply (insert_payment_stored db id (user_id profile) None None 0 "failed"
                     payment_failed None (Some (message err)) (time req));
              try reflexivity; try assumption.
            cbn [note_is_text]. rewrite Hmessage. reflexivity. }
        reflexivity. }
    rewrite <- app_assoc. reflexivity.
  - intros Hcharge Hkept' Hunique.
    erewrite external_value by reflexivity.
    erewrite bind_value.
    2:{ apply query_value.
        apply (insert_payment_stored db id (user_id profile) _ _ _ _
                 (if String.eqb (intent_status intent) "succeeded"
                  then payment_completed else payment_pending));
          try assumption; try reflexivity.
        destruct (String.eqb (intent_status intent) "succeeded"); reflexivity. }
    cbv beta. rewrite <- app_assoc. reflexivity.
Qed.

End Charging.

(** ** The polling coordinator *)

(** C10, on the code.  Restarting the polling of an order while its
    first task sleeps cancels that task and registers a second one; when
    the cancelled task then runs its clean-up it removes the entry of the
    order, which by now is the second task's.  The registry is empty
    although the second task polls on: stopping the order does not stop
    it, and starting it once more leaves two tasks polling for the same
    order. *)
Theorem stale_cleanup_unregisters_the_running_task :
  let restarted :=
    OrderManager.run
      [ OrderManager.start "A";
        OrderManager.step_task 0 OrderManager.fetch_failed;
        OrderManager.start "A";
        OrderManager.step_task 0 OrderManager.fetch_failed;
        OrderManager.step_task 0 OrderManager.fetch_failed ]
      OrderManager.init in
  OrderManager.active_timers "A" restarted = [1%nat]
  /\ OrderManager.pollingTasks restarted !! "A" = None
  /\ OrderManager.active_timers "A" (OrderManager.stopRealTimeUpdates "A" restarted)
     = [1%nat]
  /\ OrderManager.active_timers "A" (fst (OrderManager.startRealTimeUpdates "A" restarted))
     = [1%nat; 2%nat].
Proof. vm_compute. repeat split. Qed.

Module OrderManagerFacts.
Import OrderManager.

Lemma filter_seq_none (p : nat -> bool) (start n : nat) :
  (forall t, (start <= t < start + n)%nat -> p t = false) ->
  List.filter p (seq start n) = [].
Proof.
  revert start. induction n as [|n IH]; intros start H; [reflexivity|].
  cbn [seq List.filter]. rewrite (H start) by lia. apply IH. intros t Ht. apply H. lia.
Qed.

Lemma cancel_length (t : nat) (tasks : list task) : length (cancel t tasks) = length tasks.
Proof. unfold cancel. apply length_alter. Qed.

Lemma cancel_lookup (t t' : nat) (tasks : list task) :
  cancel t tasks !! t'
  = if decide (t = t')
    then (fun x => {| orderId := orderId x; isCancelled := true;
                      at_position := at_position x |}) <$> tasks !! t'
    else tasks !! t'.
Proof.
  unfold cancel. destruct (decide (t = t')) as [->|Hne].
  - apply list_lookup_alter_eq.
  - apply list_lookup_alter_ne. exact Hne.
Qed.

(** What does hold of the restart.  [startRealTimeUpdates] cancels the task
    registered for the order, if any, and registers the task it creates;
    other orders keep their entries.  As long as no task polls for the
    order besides the registered one, exactly one task polls for it
    afterwards: the new one. *)
Theorem startRealTimeUpdates_replaces_the_registered_task :
  forall (id : string) (m : manager),
    let m' := fst (startRealTimeUpdates id m) in
    let t := snd (startRealTimeUpdates id m) in
    pollingTasks m' !! id = Some t
    /\ created m' !! t
       = Some {| orderId := id; isCancelled := false; at_position := at_loop_test |}
    /\ (forall t0 x, pollingTasks m !! id = Some t0 -> created m !! t0 = Some x ->
                     isCancelled <$> created m' !! t0 = Some true)
    /\ (forall other, other <> id -> pollingTasks m' !! other = pollingTasks m !! other)
    /\ (only_registered_polls id m -> active_timers id m' = [t]).
Proof.
  intros id m. unfold startRealTimeUpdates, stopRealTimeUpdates. cbn [fst snd].
  cbn [pollingTasks created].
  set (tasks := match pollingTasks m !! id with
                | Some t => cancel t (created m)
                | None => created m
                end).
  assert (Hlen : length tasks = length (created m)).
  { unfold tasks. destruct (pollingTasks m !! id); [apply cancel_length | reflexivity]. }
  split; [apply lookup_insert_eq|]. split.
  { rewrite lookup_app_r by lia. rewrite Nat.sub_diag. reflexivity. }
  split.
  { intros t0 x Hreg Hx. unfold tasks. rewrite Hreg.
    rewrite lookup_app_l by (rewrite cancel_length; apply lookup_lt_Some in Hx; exact Hx).
    rewrite cancel_lookup. destruct (decide (t0 = t0)); [|congruence].
    rewrite Hx. reflexivity. }
  split.
  { intros other Hne. rewrite lookup_insert_ne by congruence.
    apply lookup_delete_ne. congruence. }
  intros Honly. unfold active_timers. cbn [created].
  rewrite length_app. cbn [length]. rewrite Nat.add_1_r, seq_S, List.filter_app.
  cbn [Nat.add List.filter].
  rewrite lookup_app_r by lia. rewrite Nat.sub_diag. cbn [lookup list_lookup].
  unfold polls at 2. cbn [orderId isCancelled at_position negb andb].
  rewrite String.eqb_refl. cbn [andb].
  rewrite filter_seq_none; [reflexivity|].
  intros t Ht. cbn [Nat.add] in Ht.
  rewrite lookup_app_l by lia.
  destruct (tasks !! t) as [x|] eqn:Ex; [|reflexivity].
  destruct (polls id x) eqn:Ep; [|reflexivity]. exfalso.
  unfold tasks in Ex. destruct (pollingTasks m !! id) as [t0|] eqn:Ereg.
  - rewrite cancel_lookup in Ex. destruct (decide (t0 = t)) as [->|Hne].
    + destruct (created m !! t) as [y|]; [|discriminate]. cbn in Ex.
      injection Ex as <-. unfold polls in Ep. cbn [isCancelled negb] in Ep.
      rewrite andb_false_r in Ep. discriminate.
    + pose proof (Honly t x Ex Ep) as H. congruence.
  - pose proof (Honly t x Ex Ep) as H. congruence.
Qed.

End OrderManagerFacts.

(* ================================================================== *)
(** * Further properties of the code *)
(* ================================================================== *)

(** Case analysis on the innermost scrutinee of the premise of the
    goal, as long as the premise is a [match]. *)
Ltac scrutinee x :=
  lazymatch x with
  | context [match ?y with _ => _ end] => scrutinee y
  | _ => destruct x eqn:?
  end.

Ltac open_premise :=
  repeat (lazymatch goal with
          | |- (match ?x with _ => _ end = _) -> _ => scrutinee x
          end; try (intros ?; discriminate)).

(* ================================================================== *)
(** ** The handlers that read *)
(* ================================================================== *)

Section Reading.
Context {formats : TextFormats} {planner : Planner}.

Import OrderQueries PaymentQueries ProfileController.

Lemma leaves_alone_bind {A B : Type} (m : M A) (k : A -> M B) :
  leaves_alone m -> (forall a, leaves_alone (k a)) -> leaves_alone (bind m k).
Proof.
  intros Hm Hk w. unfold bind. specialize (Hm w).
  destruct (m w) as [[a|o|e] w1]; cbn [snd] in *; subst w1; [apply Hk | reflexivity..].
Qed.

Lemma leaves_alone_try_catch {A : Type} (m : M A) (handler : error -> M A) :
  leaves_alone m -> (forall e, leaves_alone (handler e)) ->
  leaves_alone (try_catch m handler).
Proof.
  intros Hm Hh w. unfold try_catch. specialize (Hm w).
  destruct (m w) as [[a|o|e] w1]; cbn [snd] in *; subst w1; [reflexivity.. | apply Hh].
Qed.

Lemma leaves_alone_query {A : Type} (q : statement A) :
  reads_only q -> leaves_alone (query q).
Proof.
  intros Hq [db cs]. unfold query. cbn [store calls].
  destruct (q db) as [e|[a db']] eqn:E; cbn [snd]; [reflexivity|].
  rewrite (Hq _ _ _ E). reflexivity.
Qed.

Lemma reads_only_and_then {A B : Type} (x : db_error + A) (k : A -> statement B) :
  (forall a, reads_only (k a)) -> reads_only (fun db => and_then x (fun a => k a db)).
Proof.
  intros Hk db b db'. destruct x as [e|a]; cbn; [discriminate | apply Hk].
Qed.

Lemma select_user_id_reads : forall clerk, reads_only (select_user_id_by_clerk_id clerk).
Proof. intros clerk db a db' [= _ <-]. reflexivity. Qed.

Lemma select_user_reads : forall clerk, reads_only (select_user_by_clerk_id clerk).
Proof. intros clerk db a db' [= _ <-]. reflexivity. Qed.

Lemma select_owned_order_reads :
  forall id owner, reads_only (select_order_by_id_and_user id owner).
Proof.
  intros [e|id] owner db a db'; cbn; [discriminate|]. intros [= _ <-]. reflexivity.
Qed.

Lemma select_history_reads : forall id, reads_only (select_history_by_order id).
Proof.
  intros [e|id] db a db'; cbn; [discriminate|]. intros [= _ <-]. reflexivity.
Qed.

Lemma select_payments_by_order_and_user_reads :
  forall id owner, reads_only (select_payments_by_order_and_user id owner).
Proof.
  intros [e|id] owner db a db'; cbn; [discriminate|]. intros [= _ <-]. reflexivity.
Qed.

Lemma select_payments_by_user_reads : forall owner, reads_only (select_payments_by_user owner).
Proof. intros owner db a db' [= _ <-]. reflexivity. Qed.

Lemma select_orders_by_user_reads :
  forall owner wanted limit offset,
    reads_only (select_orders_by_user owner wanted limit offset).
Proof.
  intros owner wanted limit offset db a db'. unfold select_orders_by_user.
  destruct (match wanted with Some v => _ | None => _ end) as [e|s]; cbn; [discriminate|].
  destruct limit as [n|]; cbn; [|discriminate].
  destruct offset as [k|]; cbn; [|discriminate].
  destruct (k <? 0)%Z; [discriminate|]. destruct (n <? 0)%Z; [discriminate|].
  intros [= _ <-]. reflexivity.
Qed.

Ltac alone :=
  repeat first
    [ apply leaves_alone_try_catch; [|intros ?; intros ?; reflexivity]
    | apply leaves_alone_bind; [|intros ?]
    | apply leaves_alone_query
    | apply select_user_id_reads | apply select_user_reads
    | apply select_owned_order_reads | apply select_history_reads
    | apply select_payments_by_order_and_user_reads
    | apply select_payments_by_user_reads | apply select_orders_by_user_reads
    | match goal with
      | |- leaves_alone (match ?x with _ => _ end) => destruct x
      end
    | (intros ?; reflexivity) ].

Lemma conclude_leaves_alone {A : Type} (m : M A) (w : world) :
  leaves_alone m -> snd (conclude m w) = w.
Proof.
  intros H. unfold conclude. specialize (H w).
  destruct (m w) as [[a|o|e] w1]; exact H.
Qed.

Lemma run_leaves_alone (m : M outcome) (w : world) :
  leaves_alone m -> snd (run m w) = w.
Proof.
  intros H. unfold run. specialize (H w).
  destruct (m w) as [[a|o|e] w1]; exact H.
Qed.

(** Whatever the request, the five handlers that only read leave the
    database and the log of calls exactly as they were. *)
Theorem read_handlers_change_nothing :
  forall (query' : list (string * Query.field)) (req : request) (w : world),
    snd (conclude (getUserOrders query' req) w) = w
    /\ snd (conclude (getOrderById req) w) = w
    /\ snd (run (getPaymentByOrderId req) w) = w
    /\ snd (conclude (getUserPayments req) w) = w
    /\ snd (run (getProfile req) w) = w.
Proof.
  intros query' req w. repeat split.
  - apply conclude_leaves_alone. unfold getUserOrders. alone.
  - apply conclude_leaves_alone. unfold getOrderById. alone.
  - apply run_leaves_alone. unfold getPaymentByOrderId. alone.
  - apply conclude_leaves_alone. unfold getUserPayments. alone.
  - apply run_leaves_alone. unfold getProfile. alone.
Qed.

(** *** One order and its history *)

Lemma as_uuid_read (s : string) (id : uuid) :
  uuid_of_text s = Some id -> as_uuid s = inr id.
Proof. unfold as_uuid. intros ->. reflexivity. Qed.

Lemma getOrderById_owned (req : request) (w : world) (id : uuid) (profile : user_row)
    (order : order_row) :
  uuid_of_text (param "id" req) = Some id ->
  profile_of (clerkId (user req)) (store w) = Some profile ->
  owned_order id (user_id profile) (store w) = Some order ->
  conclude (getOrderById req) w
  = (inr (json_order_details order
            (newest_first history_created_at (history_of id (store w)))),
     w).
Proof.
  intros Hid Hprofile Horder. destruct w as [db cs]. cbn [store] in *.
  destruct (profile_of_select _ _ _ Hprofile) as [rest Hsel].
  destruct (owned_order_select _ _ _ _ Horder) as [rest' Hsel'].
  unfold getOrderById, conclude, try_catch. rewrite (as_uuid_read _ _ Hid). cbv zeta.
  answer Hsel. answer Hsel'.
  assert (Hhistory : select_history_by_order (inr id) db
                     = inr (newest_first history_created_at (history_of id db), db))
    by reflexivity.
  answer Hhistory. reflexivity.
Qed.

Lemma getOrderById_not_owned (req : request) (w : world) (id : uuid) (profile : user_row) :
  uuid_of_text (param "id" req) = Some id ->
  profile_of (clerkId (user req)) (store w) = Some profile ->
  owned_order id (user_id profile) (store w) = None ->
  conclude (getOrderById req) w = (inl (Respond 404 (json_error "Order not found")), w).
Proof.
  intros Hid Hprofile Horder. destruct w as [db cs]. cbn [store] in *.
  destruct (profile_of_select _ _ _ Hprofile) as [rest Hsel].
  assert (Hsel' : select_order_by_id_and_user (inr id) (user_id profile) db = inr ([], db)).
  { unfold select_order_by_id_and_user. cbn [and_then].
    rewrite (filter_find_none _ _ Horder). reflexivity. }
  unfold getOrderById, conclude, try_catch. rewrite (as_uuid_read _ _ Hid). cbv zeta.
  answer Hsel. answer Hsel'. reflexivity.
Qed.

Lemma newest_first_in {A : Type} (created_at : A -> timestamp) (rows : list A) (x : A) :
  In x (newest_first created_at rows) <-> In x rows.
Proof.
  split; intros H.
  - exact (Permutation_in _ (newest_first_rows A created_at rows) H).
  - exact (Permutation_in _ (Permutation_sym (newest_first_rows A created_at rows)) H).
Qed.

Lemma newest_first_singleton {A : Type} (created_at : A -> timestamp) (x : A) :
  newest_first created_at [x] = [x].
Proof.
  apply Permutation_length_1_inv. apply Permutation_sym. apply newest_first_rows.
Qed.

Lemma owned_order_appended (o : order_row) (db db' : database) :
  order_of (order_id o) db = None ->
  orders db' = (orders db ++ [o])%list ->
  owned_order (order_id o) (order_user_id o) db' = Some o.
Proof.
  unfold order_of, owned_order. intros Hnone ->.
  induction (orders db) as [|r rows IH]; cbn in *.
  - rewrite !N.eqb_refl. reflexivity.
  - destruct (N.eqb (order_id r) (order_id o)) eqn:E; [discriminate|]. cbn. exact (IH Hnone).
Qed.

(** An order just created can be read back by its owner: once
    [createOrder] has answered 201 with an order, [getOrderById] by the
    same user under the order's identifier answers with that very order
    and a history of one entry, from no status to pending. *)
Theorem getOrderById_returns_the_created_order :
  forall (req : request) (w w' : world) (order : order_row),
    consistent (store w) = true ->
    run (OrderController.createOrder req) w
    = (Respond 201 (json_order (Some order)), w') ->
    exists entry : history_row,
      old_status entry = None
      /\ new_status entry = pending
      /\ history_order_id entry = order_id order
      /\ forall lookup : request,
           clerkId (user lookup) = clerkId (user req) ->
           uuid_of_text (param "id" lookup) = Some (order_id order) ->
           conclude (getOrderById lookup) w'
           = (inr (json_order_details order [entry]), w').
Proof.
  intros req w w' order Hcons Hrun.
  destruct (createOrder_answered _ _ _ _ Hrun)
    as (value & profile & tier & base & _ & Hprofile & _ & _ & _ & _ & Howner & Hnext
        & Hstore & _).
  pose proof (history_of_created order (store w) (time req) Hcons Hnext) as Hhist.
  rewrite <- Hstore in Hhist.
  exists (creation_entry order (store w) (time req)).
  split; [reflexivity|]. split; [reflexivity|]. split; [reflexivity|].
  intros lookup Hsame Hid.
  erewrite getOrderById_owned; [|exact Hid| |].
  - rewrite Hhist, newest_first_singleton. reflexivity.
  - rewrite Hsame, Hstore. exact Hprofile.
  - rewrite <- Howner.
    apply (owned_order_appended order (store w)).
    + rewrite Hnext. exact (order_of_next_uuid _ Hcons).
    + rewrite Hstore. reflexivity.
Qed.

(** [getOrderById] shows an order to its owner only.  When no order
    with the identifier of the URL belongs to the caller, the answer is
    404, be the order unknown or another user's; and an answer that
    carries an order carries one of the caller's, named by the URL, with
    entries of that order's history only. *)
Theorem getOrderById_shows_own_orders_only :
  forall (req : request) (w : world) (id : uuid) (profile : user_row),
    uuid_of_text (param "id" req) = Some id ->
    profile_of (clerkId (user req)) (store w) = Some profile ->
    ((forall o, In o (orders (store w)) -> order_id o = id ->
                order_user_id o <> user_id profile) ->
     conclude (getOrderById req) w
     = (inl (Respond 404 (json_error "Order not found")), w))
    /\ (forall order entries w',
          conclude (getOrderById req) w = (inr (json_order_details order entries), w') ->
          In order (orders (store w))
          /\ order_id order = id
          /\ order_user_id order = user_id profile
          /\ forall h, In h entries <->
                       In h (order_status_history (store w)) /\ history_order_id h = id).
Proof.
  intros req w id profile Hid Hprofile.
  destruct (owned_order id (user_id profile) (store w)) as [o|] eqn:Horder.
  - pose proof (find_some _ _ Horder) as [Hin Hmatch].
    apply andb_prop in Hmatch as [E1 E2]. apply N.eqb_eq in E1, E2.
    split.
    + intros Hnone. destruct (Hnone o Hin E1 E2).
    + intros order entries w'. rewrite (getOrderById_owned _ _ _ _ _ Hid Hprofile Horder).
      intros [= <- <- _].
      split; [exact Hin|]. split; [exact E1|]. split; [exact E2|].
      intros h. rewrite newest_first_in. unfold history_of. rewrite filter_In, N.eqb_eq.
      reflexivity.
  - rewrite (getOrderById_not_owned _ _ _ _ Hid Hprofile Horder).
    split; [reflexivity|]. intros order entries w' H. discriminate H.
Qed.

(** *** The list of one's orders *)

Lemma order_status_eqb_eq (a b : order_status) : order_status_eqb a b = true <-> a = b.
Proof. split; [destruct a, b; (reflexivity || discriminate) | intros ->; destruct b; reflexivity]. Qed.

Lemma In_firstn_skipn {A : Type} (n k : nat) (xs : list A) (x : A) :
  In x (firstn n (skipn k xs)) -> In x xs.
Proof.
  intros H. rewrite <- (firstn_skipn k xs). apply in_or_app. right.
  rewrite <- (firstn_skipn n (skipn k xs)). apply in_or_app. left. exact H.
Qed.

(** [getUserOrders] for a user with a profile, a [status] that is
    absent or a status label, and [limit] and [offset] that read as
    non-negative integers (50 and 0 when absent) which a JS number holds
    exactly: the answer is the page
    [offset, offset + limit) of the caller's orders with that status,
    newest first, with its length as [count]; every order in it is the
    caller's and has the status asked for. *)
Theorem getUserOrders_lists_own_orders :
  forall (query' : list (string * Query.field)) (req : request) (w : world)
         (profile : user_row) (wanted : option order_status) (limit offset : Z),
    profile_of (clerkId (user req)) (store w) = Some profile ->
    assoc "status" query' = option_map (fun s => Query.text (order_status_text s)) wanted ->
    Query.integer_or 50 (assoc "limit" query') = Some limit ->
    (0 <= limit <= Joi.MAX_SAFE_INTEGER)%Z ->
    Query.integer_or 0 (assoc "offset" query') = Some offset ->
    (0 <= offset <= Joi.MAX_SAFE_INTEGER)%Z ->
    exists sorted : list order_row,
      let page := firstn (Z.to_nat limit) (skipn (Z.to_nat offset) sorted) in
      Permutation sorted
        (List.filter
           (fun o => N.eqb (order_user_id o) (user_id profile)
                     && match wanted with
                        | Some s => order_status_eqb (status o) s
                        | None => true
                        end)
           (orders (store w)))
      /\ Sorted (fun a b => (order_created_at b <= order_created_at a)%Z) sorted
      /\ conclude (getUserOrders query' req) w
         = (inr (json_orders page (Some (length page))), w)
      /\ (Z.of_nat (length page) <= limit)%Z
      /\ forall o, In o page ->
                   In o (orders (store w))
                   /\ order_user_id o = user_id profile
                   /\ forall s, wanted = Some s -> status o = s.
Proof.
  intros query' req [db cs] profile wanted limit offset Hprofile Hstatus Hlimit [Hl _]
    Hoffset [Ho _].
  cbn [store] in *.
  destruct (profile_of_select _ _ _ Hprofile) as [rest Hsel].
  set (own := fun o : order_row =>
                N.eqb (order_user_id o) (user_id profile)
                && match wanted with
                   | Some s => order_status_eqb (status o) s
                   | None => true
                   end).
  exists (newest_first order_created_at (List.filter own (orders db))). cbv zeta.
  split; [apply newest_first_rows|]. split; [apply newest_first_sorted|].
  set (page := firstn (Z.to_nat limit)
                 (skipn (Z.to_nat offset)
                    (newest_first order_created_at (List.filter own (orders db))))).
  assert (Hquery :
            select_orders_by_user (user_id profile)
              (if Query.truthy (assoc "status" query') then assoc "status" query' else None)
              (Query.integer_or 50 (assoc "limit" query'))
              (Query.integer_or 0 (assoc "offset" query')) db
            = inr (page, db)).
  { rewrite Hstatus, Hlimit, Hoffset. unfold select_orders_by_user.
    assert (Hwanted :
              match (if Query.truthy (option_map (fun s => Query.text (order_status_text s)) wanted)
                     then option_map (fun s => Query.text (order_status_text s)) wanted
                     else None) with
              | Some v => and_then (as_status_filter v) (fun s => inr (Some s))
              | None => inr None
              end = inr wanted).
    { destruct wanted as [s|]; [|reflexivity]. cbn [option_map Query.truthy].
      replace (negb (String.eqb (order_status_text s) "")) with true
        by (destruct s; reflexivity).
      cbn [as_status_filter]. rewrite order_status_of_text_text. reflexivity. }
    rewrite Hwanted. cbn [and_then as_bigint].
    replace (offset <? 0)%Z with false by (symmetry; apply Z.ltb_ge; exact Ho).
    replace (limit <? 0)%Z with false by (symmetry; apply Z.ltb_ge; exact Hl).
    reflexivity. }
  split.
  { unfold getUserOrders, conclude, try_catch. cbv zeta.
    answer Hsel. answer Hquery. reflexivity. }
  split.
  { subst page. rewrite length_firstn. lia. }
  intros o Hin. apply In_firstn_skipn in Hin. apply newest_first_in in Hin.
  apply filter_In in Hin as [Hin Hown]. subst own. cbv beta in Hown.
  apply andb_prop in Hown as [E1 E2]. apply N.eqb_eq in E1.
  split; [exact Hin|]. split; [exact E1|].
  intros s ->. apply order_status_eqb_eq. exact E2.
Qed.

(** The edges of [getUserOrders].  A user without a profile gets an
    empty list, without a [count] and whatever the query string says;
    for a user with a profile, a [limit] that does not read as a number
    or is negative ends in the error middleware, which answers 500. *)
Theorem getUserOrders_edges :
  forall (query' : list (string * Query.field)) (req : request) (w : world),
    (profile_of (clerkId (user req)) (store w) = None ->
     conclude (getUserOrders query' req) w = (inr (json_orders [] None), w))
    /\ (forall profile,
          profile_of (clerkId (user req)) (store w) = Some profile ->
          assoc "status" query' = None ->
          match Query.integer_or 50 (assoc "limit" query') with
          | Some limit => (limit < 0)%Z
          | None => True
          end ->
          exists e,
            conclude (getUserOrders query' req) w = (inl (Next e), w)
            /\ fst (received (Next e)) = 500%nat).
Proof.
  intros query' req [db cs]. cbn [store]. split.
  - intros Hnone.
    assert (Hsel : select_user_id_by_clerk_id (clerkId (user req)) db = inr ([], db)).
    { unfold select_user_id_by_clerk_id. rewrite (filter_find_none _ _ Hnone). reflexivity. }
    unfold getUserOrders, conclude, try_catch. cbv zeta. answer Hsel. reflexivity.
  - intros profile Hprofile Hstatus Hbad.
    destruct (profile_of_select _ _ _ Hprofile) as [rest Hsel].
    unfold getUserOrders, conclude, try_catch. cbv zeta. answer Hsel.
    rewrite Hstatus. cbn [Query.truthy].
    unfold bind, query. cbn [store calls]. unfold select_orders_by_user. cbn [and_then].
    destruct (Query.integer_or 50 (assoc "limit" query')) as [limit|]; cbn [as_bigint and_then].
    + destruct (Query.integer_or 0 (assoc "offset" query')) as [offset|];
        cbn [as_bigint and_then].
      * destruct (offset <? 0)%Z; [eexists; split; reflexivity|].
        replace (limit <? 0)%Z with true by (symmetry; apply Z.ltb_lt; exact Hbad).
        eexists; split; reflexivity.
      * eexists; split; reflexivity.
    + eexists; split; reflexivity.
Qed.

(** *** Payments *)

(** The two handlers that read payments show the caller's own.
    [getUserPayments] answers with all payments of the caller, newest
    first; [getPaymentByOrderId] answers 404 when the caller has no
    payment for the order, and otherwise with one of the caller's
    payments for that order. *)
Theorem payment_queries_show_own_payments :
  forall (req : request) (w : world) (profile : user_row),
    profile_of (clerkId (user req)) (store w) = Some profile ->
    (exists sorted : list payment_row,
        Permutation sorted
          (List.filter (fun p => N.eqb (payment_user_id p) (user_id profile))
                       (payments (store w)))
        /\ Sorted (fun a b => (payment_created_at b <= payment_created_at a)%Z) sorted
        /\ conclude (getUserPayments req) w = (inr (json_payments sorted), w))
    /\ forall id : uuid,
         uuid_of_text (param "orderId" req) = Some id ->
         match List.filter (fun p => N.eqb (payment_order_id p) id
                                     && N.eqb (payment_user_id p) (user_id profile))
                           (payments (store w)) with
         | [] =>
             run (getPaymentByOrderId req) w
             = (Respond 404 (json_error "Payment not found"), w)
         | _ :: _ =>
             exists p : payment_row,
               In p (payments (store w))
               /\ payment_order_id p = id
               /\ payment_user_id p = user_id profile
               /\ run (getPaymentByOrderId req) w
                  = (Respond 200 (json_payment (Some p) None), w)
         end.
Proof.
  intros req [db cs] profile Hprofile. cbn [store] in *.
  destruct (profile_of_select _ _ _ Hprofile) as [rest Hsel].
  split.
  - eexists. split; [apply newest_first_rows|]. split; [apply newest_first_sorted|].
    unfold getUserPayments, conclude, try_catch. cbv zeta. answer Hsel.
    assert (Hquery : select_payments_by_user (user_id profile) db = inr (_, db))
      by reflexivity.
    answer Hquery. reflexivity.
  - intros id Hid.
    set (mine := List.filter _ (payments db)).
    assert (Hquery : select_payments_by_order_and_user (inr id) (user_id profile) db
                     = inr (scan mine, db)) by reflexivity.
    pose proof (scan_rows _ mine) as Hperm.
    unfold getPaymentByOrderId, run, try_catch. rewrite (as_uuid_read _ _ Hid). cbv zeta.
    answer Hsel. answer Hquery.
    destruct mine as [|m mine'] eqn:Emine.
    + apply Permutation_sym, Permutation_nil in Hperm. rewrite Hperm. reflexivity.
    + destruct (scan (m :: mine')) as [|p others] eqn:Escan.
      { apply Permutation_nil in Hperm. discriminate Hperm. }
      assert (Hin : In p (m :: mine'))
        by (apply (Permutation_in _ Hperm); left; reflexivity).
      rewrite <- Emine in Hin. subst mine. apply filter_In in Hin as [Hin Hp].
      apply andb_prop in Hp as [E1 E2]. apply N.eqb_eq in E1, E2.
      exists p. repeat split; assumption.
Qed.

End Reading.

(* ================================================================== *)
(** ** Reading and updating the profile *)
(* ================================================================== *)

Section Profiles.
Context {formats : TextFormats}.

Import AuthController ProfileController.

(** An [UPDATE ... WHERE clerk_id = $n] returns a row when there is a
    profile. *)
Lemma update_user_profile_returns (n p a : option value) (clerk : string)
    (now : timestamp) (db db' : database) (rows : list user_row) (profile : user_row) :
  profile_of clerk db = Some profile ->
  update_user_profile n p a clerk now db = inr (rows, db') ->
  exists first rest, rows = first :: rest.
Proof.
  intros Hprofile H. unfold update_user_profile in H. parameters_read H.
  revert H.
  match goal with
  | |- update_users _ (fun r => inr (@?f r)) _ _ = _ -> _ =>
      destruct (update_users_where clerk (fun r => inr (f r)) f now db profile
                  (fun r _ _ => eq_refl) Hprofile) as [rest ->]
  end.
  intros [= <- _]. eauto.
Qed.

Lemma update_rows_no_hit {A : Type} (hit : A -> bool) (change : A -> db_error + A)
    (rows : list A) :
  List.filter hit rows = [] -> update_rows hit change rows = inr ([], rows).
Proof.
  induction rows as [|r rows IH]; cbn; [reflexivity|].
  destruct (hit r); [discriminate|]. intros H. cbn. rewrite (IH H). reflexivity.
Qed.

Lemma update_users_without_profile (clerk : string)
    (change : user_row -> db_error + user_row) (now : timestamp) (db : database) :
  profile_of clerk db = None -> update_users clerk change now db = inr ([], db).
Proof.
  intros H. unfold update_users.
  rewrite update_rows_no_hit by exact (filter_find_none _ _ H).
  cbn [and_then]. destruct db; reflexivity.
Qed.

Lemma update_user_profile_without_profile (n p a : option value) (clerk : string)
    (now : timestamp) (db : database) :
  profile_of clerk db = None ->
  match update_user_profile n p a clerk now db with
  | inr (rows, db') => rows = [] /\ db' = db
  | inl _ => True
  end.
Proof.
  intros Hnone. unfold update_user_profile.
  repeat match goal with
         | |- match and_then ?x _ with _ => _ end =>
             destruct x; cbn [and_then]; [exact I|]
         end.
  rewrite (update_users_without_profile _ _ _ _ Hnone). split; reflexivity.
Qed.

(** What [profileSchema] lets through: a [name] of at most 255
    characters, a [phone] of at most 50, and an address that is an
    object. *)
Lemma profileSchema_value (input value : JS.value) :
  Joi.validate profileSchema input = inr value ->
  exists (n p : option string),
    get "name" value = option_map VString n
    /\ get "phone" value = option_map VString p
    /\ match n with Some x => (String.length x <=? 255)%nat | None => true end = true
    /\ match p with Some x => (String.length x <=? 50)%nat | None => true end = true
    /\ match get "defaultAddress" value with
       | Some a => truthy (Some a)
       | None => true
       end = true.
Proof.
  unfold profileSchema, Joi.object.
  unfold OrderController.address_keys.
  cbn [Joi.validate Joi.max Joi.string Joi.number
       Joi.allow_empty Joi.max_length Joi.only Joi.guid].
  unfold Joi.validate_string, Joi.check_string.
  cbn [Joi.allow_empty Joi.max_length Joi.only Joi.guid negb orb].
  open_premise.
  all: intros [= <-].
  all: repeat match goal with
         | H : _ && _ = true |- _ => apply andb_prop in H; destruct H
         end.
  all: first
         [ solve [ eexists (Some _), (Some _); repeat split;
                   first [ reflexivity | assumption ] ]
         | solve [ eexists (Some _), None; repeat split;
                   first [ reflexivity | assumption ] ]
         | solve [ eexists None, (Some _); repeat split;
                   first [ reflexivity | assumption ] ]
         | solve [ exists None, None; repeat split; reflexivity ] ].
Qed.

(** The statement of the two profile handlers reads its parameters
    when PostgreSQL stores the fields. *)
Lemma profile_parameters_read (value : JS.value) (n p : option string) :
  get "name" value = option_map VString n ->
  get "phone" value = option_map VString p ->
  match n with Some x => (String.length x <=? 255)%nat | None => true end = true ->
  match p with Some x => (String.length x <=? 50)%nat | None => true end = true ->
  profile_fits value = true ->
  let address := if truthy (get "defaultAddress" value)
                 then get "defaultAddress" value else None in
  as_text (get "name" value) = inr n
  /\ as_text (get "phone" value) = inr p
  /\ as_jsonb address = inr address
  /\ varchar 255 n = inr n
  /\ varchar 50 p = inr p.
Proof.
  intros Hn Hp Hlen_n Hlen_p Hfits. cbv zeta. unfold profile_fits in Hfits.
  apply andb_prop in Hfits as [Hfits Haddress]. apply andb_prop in Hfits as [Hname Hphone].
  rewrite Hn in Hname |- *. rewrite Hp in Hphone |- *.
  repeat split.
  - destruct n as [x|]; [|reflexivity]. cbn in Hname |- *.
    apply negb_true_iff in Hname. rewrite Hname. reflexivity.
  - destruct p as [x|]; [|reflexivity]. cbn in Hphone |- *.
    apply negb_true_iff in Hphone. rewrite Hphone. reflexivity.
  - destruct (truthy (get "defaultAddress" value)); [|reflexivity].
    destruct (get "defaultAddress" value) as [a|]; [|reflexivity].
    cbn in Haddress |- *. apply negb_true_iff in Haddress. rewrite Haddress. reflexivity.
  - destruct n as [x|]; [|reflexivity]. cbn [varchar]. rewrite Hlen_n. reflexivity.
  - destruct p as [x|]; [|reflexivity]. cbn [varchar]. rewrite Hlen_p. reflexivity.
Qed.

(** For a user who has a profile, [PUT /profile] ([updateProfile])
    does exactly what [POST /profile] ([upsertProfile]) does: the same
    response and the same database.  For a user without one it writes
    nothing, and answers 404 to a body the schema accepts and whose texts
    hold no U+0000. *)
Theorem updateProfile_is_upsertProfile_on_a_profile :
  forall (req : request) (w : world),
    (forall profile,
        profile_of (clerkId (user req)) (store w) = Some profile ->
        run (updateProfile req) w = run (upsertProfile req) w)
    /\ (profile_of (clerkId (user req)) (store w) = None ->
        snd (run (updateProfile req) w) = w
        /\ forall value,
             Joi.validate profileSchema (body req) = inr value ->
             profile_fits value = true ->
             run (updateProfile req) w
             = (Respond 404 (json_error "Profile not found"), w)).
Proof.
  intros req [db cs]. cbn [store]. split.
  - intros profile Hprofile.
    destruct (profile_of_select _ _ _ Hprofile) as [rest Hsel].
    unfold updateProfile, upsertProfile, run, try_catch.
    destruct (Joi.validate profileSchema (body req)) as [msg|value]; [reflexivity|].
    cbn [validated]. unfold bind at 1 3. cbn [ret]. cbv zeta.
    rewrite (bind_value _ _ _ _ _ (query_value _ _ _ cs _ Hsel)). cbv beta iota.
    match goal with
    | |- context [query (update_user_profile ?n ?p ?a ?c ?t)] =>
        destruct (update_user_profile n p a c t db) as [e|[rows db']] eqn:E
    end.
    + rewrite !(bind_thrown _ _ _ _ _ (query_thrown _ _ _ _ E)). reflexivity.
    + destruct (update_user_profile_returns _ _ _ _ _ _ _ _ _ Hprofile E)
        as (first & others & ->).
      rewrite !(bind_value _ _ _ _ _ (query_value _ _ _ cs _ E)). reflexivity.
  - intros Hnone.
    assert (Hgeneral :
              forall n p a,
                match update_user_profile n p a (clerkId (user req)) (time req) db with
                | inr (rows, db') => rows = [] /\ db' = db
                | inl _ => True
                end)
      by (intros; apply update_user_profile_without_profile; exact Hnone).
    split.
    + unfold updateProfile, run, try_catch.
      destruct (Joi.validate profileSchema (body req)) as [msg|value]; [reflexivity|].
      cbn [validated]. unfold bind at 1. cbn [ret]. cbv zeta.
      match goal with
      | |- context [query (update_user_profile ?n ?p ?a ?c ?t)] =>
          specialize (Hgeneral n p a);
          destruct (update_user_profile n p a c t db) as [e|[rows db']] eqn:E
      end.
      * rewrite (bind_thrown _ _ _ _ _ (query_thrown _ _ _ _ E)). reflexivity.
      * destruct Hgeneral as [-> ->]. answer E. reflexivity.
    + intros value Hvalid Hfits.
      destruct (profileSchema_value _ _ Hvalid) as (n & p & Hn & Hp & Hlen_n & Hlen_p & _).
      destruct (profile_parameters_read value n p Hn Hp Hlen_n Hlen_p Hfits)
        as (R1 & R2 & R3 & R4 & R5).
      cbv zeta in R3.
      unfold updateProfile, run, try_catch. rewrite Hvalid.
      cbn [validated]. unfold bind at 1. cbn [ret]. cbv zeta.
      match goal with
      | |- context [query (update_user_profile ?n ?p ?a ?c ?t)] =>
          assert (E : update_user_profile n p a c t db = inr ([], db))
      end.
      { unfold update_user_profile. rewrite R1, R2, R3. cbn [and_then].
        rewrite R4, R5. cbn [and_then].
        apply update_users_without_profile. exact Hnone. }
      answer E. reflexivity.
Qed.

Lemma getProfile_found (req : request) (w : world) (profile : user_row) :
  profile_of (clerkId (user req)) (store w) = Some profile ->
  run (getProfile req) w = (Respond 200 (json_user (Some profile)), w).
Proof.
  intros Hprofile. destruct w as [db cs]. cbn [store] in *.
  destruct (filter_find_some _ _ _ Hprofile) as [rest Hrows].
  assert (Hsel : select_user_by_clerk_id (clerkId (user req)) db
                 = inr (profile :: rest, db))
    by (unfold select_user_by_clerk_id; rewrite Hrows; reflexivity).
  unfold getProfile, run, try_catch. cbv zeta. answer Hsel. reflexivity.
Qed.

Lemma profile_of_appended (clerk : string) (row : user_row) (db db' : database) :
  profile_of clerk db = None ->
  clerk_id row = clerk ->
  users db' = (users db ++ [row])%list ->
  profile_of clerk db' = Some row.
Proof.
  unfold profile_of. intros Hnone Hrow ->.
  induction (users db) as [|r rows IH]; cbn in *.
  - rewrite Hrow, String.eqb_refl. reflexivity.
  - destruct (String.eqb (clerk_id r) clerk); [discriminate | exact (IH Hnone)].
Qed.

(** The profile that a successful [upsertProfile] leaves for its
    caller is the one it answered with. *)
Lemma upsertProfile_stores_its_answer (req : request) (w w' : world) (u : user_row) :
  run (upsertProfile req) w = (Respond 200 (json_user (Some u)), w') ->
  profile_of (clerkId (user req)) (store w') = Some u.
Proof.
  destruct w as [db cs]. unfold upsertProfile, run, try_catch.
  destruct (Joi.validate profileSchema (body req)) as [msg|value]; [discriminate|].
  cbn [validated]. unfold bind at 1. cbn [ret]. cbv zeta.
  destruct (profile_of (clerkId (user req)) db) as [profile|] eqn:Hprofile.
  - destruct (profile_of_select _ _ _ Hprofile) as [rest Hsel].
    rewrite (bind_value _ _ _ _ _ (query_value _ _ _ cs _ Hsel)). cbv beta iota.
    match goal with
    | |- context [query (update_user_profile ?n ?p ?a ?c ?t)] =>
        destruct (update_user_profile n p a c t db) as [e|[rows db']] eqn:E
    end.
    + rewrite (bind_thrown _ _ _ _ _ (query_thrown _ _ _ _ E)). discriminate.
    + rewrite (bind_value _ _ _ _ _ (query_value _ _ _ cs _ E)). cbv beta iota.
      cbn [respond]. intros [= Hu <-]. cbn [store].
      unfold update_user_profile in E. parameters_read E.
      match type of E with
      | update_users _ (fun r => inr (@?f r)) _ _ = _ =>
          destruct (update_users_where (clerkId (user req)) (fun r => inr (f r)) f
                      (time req) db profile (fun r _ _ => eq_refl) Hprofile)
            as [others E'];
          rewrite E' in E; injection E as <- <-; cbn [List.head] in Hu;
          injection Hu as <-;
          exact (profile_of_with_profile (clerkId (user req))
                   (fun r => touch_user (time req) (f r)) db profile
                   (fun r => eq_refl) Hprofile)
      end.
  - assert (Hsel : select_user_id_by_clerk_id (clerkId (user req)) db = inr ([], db)).
    { unfold select_user_id_by_clerk_id. rewrite (filter_find_none _ _ Hprofile).
      reflexivity. }
    rewrite (bind_value _ _ _ _ _ (query_value _ _ _ cs _ Hsel)). cbv beta iota.
    unfold bind, query. cbn [store calls].
    destruct (insert_user _ _ _ _ _ db) as [e|[rows db']] eqn:E; [discriminate|].
    cbn [respond]. intros [= Hu <-]. cbn [store].
    unfold insert_user in E. parameters_read E.
    destruct (existsb _ (users db)) in E; [discriminate|].
    injection E as <- <-. cbn [List.head] in Hu. injection Hu as <-.
    eapply profile_of_appended; [exact Hprofile | reflexivity | reflexivity].
Qed.

(** A profile just written can be read back: after a successful
    [upsertProfile], [getProfile] for the same user answers with the
    very row [upsertProfile] answered with. *)
Theorem getProfile_returns_the_upserted_profile :
  forall (req : request) (w w' : world) (u : user_row),
    run (upsertProfile req) w = (Respond 200 (json_user (Some u)), w') ->
    forall lookup : request,
      clerkId (user lookup) = clerkId (user req) ->
      run (getProfile lookup) w' = (Respond 200 (json_user (Some u)), w').
Proof.
  intros req w w' u Hrun lookup Hsame.
  apply getProfile_found. rewrite Hsame.
  exact (upsertProfile_stores_its_answer _ _ _ _ Hrun).
Qed.

End Profiles.

(* ================================================================== *)
(** ** Guards *)
(* ================================================================== *)

Section Guards.
Context {formats : TextFormats}.
Variable ext : PaymentController.external.

Import Auth OrderRoutes.

Lemma is_text_truthy (v : option value) (s : string) :
  s <> "" -> is_text v s = true -> truthy v = true.
Proof.
  destruct v as [[| | |x| | |]|]; cbn; try discriminate.
  intros Hs E. apply String.eqb_eq in E. subst x.
  destruct (String.eqb s "") eqn:E; [apply String.eqb_eq in E; contradiction | reflexivity].
Qed.

(** What [requireDriver] does, by the answer of Clerk. *)
Lemma requireDriver_decides (req : request) (w : world) :
  requireDriver ext req w
  = match PaymentController.getUser ext (clerkId (user req)) with
    | inl _ =>
        (Sent (Respond 500 (json_error "Authorization error")),
         logged (clerk_users_getUser (clerkId (user req))) w)
    | inr account =>
        if drives account then (Value tt, logged (clerk_users_getUser (clerkId (user req))) w)
        else (Sent (Respond 403 (json_error "Driver access required")),
              logged (clerk_users_getUser (clerkId (user req))) w)
    end.
Proof.
  unfold requireDriver, try_catch, bind, external_call, logged, drives.
  destruct (PaymentController.getUser ext (clerkId (user req))) as [e|u]; [reflexivity|].
  cbv zeta.
  destruct (is_text (role_of u) "driver") eqn:Ed.
  - rewrite (is_text_truthy _ "driver" ltac:(discriminate) Ed). reflexivity.
  - destruct (is_text (role_of u) "admin") eqn:Ea.
    + rewrite (is_text_truthy _ "admin" ltac:(discriminate) Ea). reflexivity.
    + cbn [negb andb orb]. rewrite orb_true_r. reflexivity.
Qed.

Lemma requireAdmin_decides (req : request) (w : world) :
  requireAdmin ext req w
  = match PaymentController.getUser ext (clerkId (user req)) with
    | inl _ =>
        (Sent (Respond 500 (json_error "Authorization error")),
         logged (clerk_users_getUser (clerkId (user req))) w)
    | inr account =>
        if administers account
        then (Value tt, logged (clerk_users_getUser (clerkId (user req))) w)
        else (Sent (Respond 403 (json_error "Admin access required")),
              logged (clerk_users_getUser (clerkId (user req))) w)
    end.
Proof.
  unfold requireAdmin, try_catch, bind, external_call, logged, administers.
  destruct (PaymentController.getUser ext (clerkId (user req))) as [e|u]; [reflexivity|].
  destruct (is_text (role_of u) "admin") eqn:Ea.
  - rewrite (is_text_truthy _ "admin" ltac:(discriminate) Ea). reflexivity.
  - cbn [negb]. rewrite orb_true_r. reflexivity.
Qed.

(** The two routes behind [requireDriver].  Clerk is asked for the
    caller once.  If the caller's role is the string [driver] or
    [admin], the route does what its controller does; with any other
    role, or none, the answer is 403, and when Clerk fails it is 500:
    in both cases the database is left as it was. *)
Theorem driver_routes_let_drivers_and_admins_through :
  forall (req : request) (w : world),
    let asked := logged (clerk_users_getUser (clerkId (user req))) w in
    match PaymentController.getUser ext (clerkId (user req)) with
    | inl _ =>
        run (put_status ext req) w
        = (Respond 500 (json_error "Authorization error"), asked)
        /\ run (put_location ext req) w
           = (Respond 500 (json_error "Authorization error"), asked)
    | inr account =>
        if drives account then
          run (put_status ext req) w = run (OrderController.updateOrderStatus req) asked
          /\ run (put_location ext req) w
             = run (OrderController.updateDriverLocation req) asked
        else
          run (put_status ext req) w
          = (Respond 403 (json_error "Driver access required"), asked)
          /\ run (put_location ext req) w
             = (Respond 403 (json_error "Driver access required"), asked)
    end.
Proof.
  intros req w asked. unfold put_status, put_location, run, bind.
  rewrite requireDriver_decides. fold asked.
  destruct (PaymentController.getUser ext (clerkId (user req))) as [e|u].
  - split; reflexivity.
  - destruct (drives u); split; reflexivity.
Qed.

(** [requireAdmin] lets through exactly the callers whose role is
    the string [admin], and whoever it lets through [requireDriver]
    lets through as well. *)
Theorem requireAdmin_is_stricter_than_requireDriver :
  forall (req : request) (w w' : world),
    (requireAdmin ext req w = (Value tt, w')
     <-> exists account,
           PaymentController.getUser ext (clerkId (user req)) = inr account
           /\ role_of account = Some (VString "admin")
           /\ w' = logged (clerk_users_getUser (clerkId (user req))) w)
    /\ (requireAdmin ext req w = (Value tt, w') ->
        requireDriver ext req w = (Value tt, w')).
Proof.
  intros req w w'. rewrite requireAdmin_decides, requireDriver_decides.
  unfold administers, drives.
  destruct (PaymentController.getUser ext (clerkId (user req))) as [e|u].
  - split; [split|]; [discriminate | intros (x & H & _); discriminate H | discriminate].
  - destruct (is_text (role_of u) "admin") eqn:Ea.
    + rewrite orb_true_r. split; [split|]; [| |trivial].
      * intros [= <-]. exists u. split; [reflexivity|]. split; [|reflexivity].
        unfold is_text in Ea. destruct (role_of u) as [[| | |x| | |]|]; try discriminate.
        apply String.eqb_eq in Ea. subst x. reflexivity.
      * intros (x & [= <-] & _ & ->). reflexivity.
    + split; [split|]; [discriminate | | discriminate].
      intros (x & [= <-] & Hrole & _). rewrite Hrole in Ea. discriminate Ea.
Qed.

End Guards.

(* ================================================================== *)
(** ** The bearer token *)
(* ================================================================== *)

Section Bearer.

Import Auth.

Lemma substring_whole (s : string) : substring 0 (String.length s) s = s.
Proof. induction s as [|c s IH]; cbn; [reflexivity | rewrite IH; reflexivity]. Qed.

Lemma starts_with_split (prefix s : string) :
  starts_with prefix s = true ->
  s = prefix ++ substring (String.length prefix)
                          (String.length s - String.length prefix) s.
Proof.
  unfold starts_with. revert s. induction prefix as [|c prefix IH]; intros s.
  - intros _. cbn [String.length append]. rewrite Nat.sub_0_r, substring_whole. reflexivity.
  - destruct s as [|c' s]; cbn [String.length substring]; [discriminate|].
    intros H. apply String.eqb_eq in H. injection H as -> H.
    change (String c prefix +:+ ?x) with (String c (prefix +:+ x)).
    cbn [Nat.sub]. f_equal. apply IH. apply String.eqb_eq. exact H.
Qed.

(** [verifyClerkToken] lets a request through exactly when its
    [Authorization] header is [Bearer] followed by a token for which
    Clerk verifies a session and returns that session's user; [req.user]
    is then that user.  Every request it stops is answered 401. *)
Theorem verifyClerkToken_admits_verified_sessions_only :
  forall (clerk : clerk) (headers : list (string * string)),
    (forall s p, verifyClerkToken clerk headers = inl (s, p) -> s = 401%nat)
    /\ forall u,
         verifyClerkToken clerk headers = inr u
         <-> exists token session account,
               assoc "authorization" headers = Some ("Bearer " ++ token)
               /\ verifySession clerk token = inr (Some session)
               /\ getAccount clerk (userId session) = inr account
               /\ u = {| as_identity := {| clerkId := id account;
                                           email := List.head (emailAddresses account) |};
                         user_firstName := firstName account;
                         user_lastName := lastName account |}.
Proof.
  intros clerk headers. unfold verifyClerkToken. split.
  - intros s p.
    destruct (assoc "authorization" headers) as [h|]; [|intros [= <- _]; reflexivity].
    destruct (String.eqb h "" || negb (starts_with "Bearer " h));
      [intros [= <- _]; reflexivity|].
    cbv zeta.
    destruct (verifySession clerk _) as [e|[session|]]; try (intros [= <- _]; reflexivity).
    destruct (getAccount clerk _) as [e|account]; [intros [= <- _]; reflexivity|].
    discriminate.
  - intros u. split.
    + destruct (assoc "authorization" headers) as [h|]; [|discriminate].
      destruct (String.eqb h "") eqn:Eh; [discriminate|].
      destruct (starts_with "Bearer " h) eqn:Es; [|discriminate].
      cbn [orb negb]. cbv zeta.
      pose proof (starts_with_split _ _ Es) as Hsplit. cbn [String.length] in Hsplit.
      destruct (verifySession clerk _) as [e|[session|]] eqn:Ev; try discriminate.
      destruct (getAccount clerk _) as [e|account] eqn:Ea; [discriminate|].
      intros [= <-]. eexists _, session, account.
      split; [f_equal; exact Hsplit|]. split; [exact Ev|]. split; [exact Ea | reflexivity].
    + intros (token & session & account & -> & Ev & Ea & ->).
      change (String.eqb ("Bearer " ++ token) "") with false.
      assert (Es : starts_with "Bearer " ("Bearer " ++ token) = true).
      { unfold starts_with. cbn [String.length append substring].
        destruct token; reflexivity. }
      rewrite Es. cbn [orb negb]. cbv zeta.
      replace (substring 7 (String.length ("Bearer " ++ token) - 7) ("Bearer " ++ token))
        with token
        by (simpl; change ("" +:+ token) with token; rewrite Nat.sub_0_r;
            symmetry; apply substring_whole).
      rewrite Ev, Ea. reflexivity.
Qed.

End Bearer.

(* ================================================================== *)
(** ** What the client receives when a request is refused *)
(* ================================================================== *)

Section Refusals.
Context {formats : TextFormats} {planner : Planner}.

Import OrderController AuthController ProfileController OrderQueries PaymentQueries.

(** A body that the schema of the handler refuses is answered 400
    [Validation error] with the message of the schema, and nothing is
    written: so for [createOrder], [updateOrderStatus], [upsertProfile],
    [updateProfile] and [addAddress]. *)
Theorem refused_bodies_are_answered_400 :
  turns_away createOrderSchema createOrder
  /\ turns_away updateStatusSchema updateOrderStatus
  /\ turns_away profileSchema upsertProfile
  /\ turns_away profileSchema updateProfile
  /\ turns_away addressSchema addAddress
  /\ forall msg : string,
       received (Next (joi_error msg))
       = (400%nat, json_error_details "Validation error" [msg]).
Proof.
  repeat split.
  all: try (intros req w msg Hvalid;
            unfold createOrder, updateOrderStatus, upsertProfile, updateProfile, addAddress,
              run, try_catch, bind;
            cbv zeta; rewrite Hvalid; reflexivity).
Qed.

Lemma as_uuid_unread (s : string) :
  uuid_of_text s = None -> as_uuid s = inl invalid_text_representation.
Proof. unfold as_uuid. intros ->. reflexivity. Qed.

Lemma received_invalid_text :
  fst (received (Next (pg_error invalid_text_representation))) = 500%nat.
Proof. reflexivity. Qed.

(** An identifier in the URL that is not written as a UUID makes the
    first statement that uses it fail; the error middleware has no case
    for that error and answers 500, and nothing is written.  So for
    [updateOrderStatus] with a valid body, [updateDriverLocation] with
    finite coordinates, and, for a caller with a profile, [cancelOrder]
    and [getOrderById]. *)
Theorem malformed_identifiers_are_answered_500 :
  forall (req : request) (w : world),
    uuid_of_text (param "id" req) = None ->
    exists e : error,
      fst (received (Next e)) = 500%nat
      /\ (forall value,
            Joi.validate updateStatusSchema (body req) = inr value ->
            run (updateOrderStatus req) w = (Next e, w))
      /\ (Number_isFinite (get "latitude" (body req)) = true ->
          Number_isFinite (get "longitude" (body req)) = true ->
          run (updateDriverLocation req) w = (Next e, w))
      /\ (forall profile,
            profile_of (clerkId (user req)) (store w) = Some profile ->
            run (cancelOrder req) w = (Next e, w)
            /\ conclude (getOrderById req) w = (inl (Next e), w)).
Proof.
  intros req [db cs] Hid. exists (pg_error invalid_text_representation).
  split; [reflexivity|]. cbn [store].
  split; [|split].
  - intros value Hvalid.
    unfold updateOrderStatus, run, try_catch. rewrite (as_uuid_unread _ Hid), Hvalid.
    reflexivity.
  - intros Hlat Hlon.
    unfold updateDriverLocation, run, try_catch.
    rewrite (as_uuid_unread _ Hid), Hlat, Hlon. reflexivity.
  - intros profile Hprofile.
    destruct (profile_of_select _ _ _ Hprofile) as [rest Hsel].
    split.
    + unfold cancelOrder, run, try_catch. rewrite (as_uuid_unread _ Hid). cbv zeta.
      answer Hsel. reflexivity.
    + unfold getOrderById, conclude, try_catch. rewrite (as_uuid_unread _ Hid). cbv zeta.
      answer Hsel. reflexivity.
Qed.

End Refusals.

Section RejectedCharges.
Context {formats : TextFormats}.
Variable ext : PaymentController.external.

Import PaymentController.

Lemma has_nul_append (a b : string) : has_nul (a ++ b) = has_nul a || has_nul b.
Proof.
  induction a as [|c a IH]; [reflexivity|].
  change (String c a ++ b) with (String c (a ++ b)).
  cbn [has_nul]. rewrite IH. apply orb_assoc.
Qed.

(** The message with which [paymentSchema] refuses a body holds no
    U+0000 unless the body does: what it quotes of the body is the name
    of a property. *)
Lemma paymentSchema_message (input : JS.value) (msg : string) :
  Joi.validate paymentSchema input = inl msg ->
  holds_nul input = false ->
  (forall text props, input = VString text -> object_of_text text = Some props ->
                      holds_nul (VObject props) = false) ->
  has_nul msg = false.
Proof.
  intros Hvalid Hinput Htext.
  assert (Hprops : forall props,
             holds_nul (VObject props) = false ->
             forall unknown, In unknown props -> has_nul (fst unknown) = false).
  { intros props Hnul unknown Hin. cbn [holds_nul] in Hnul.
    destruct (has_nul (fst unknown)) eqn:E; [|reflexivity].
    assert (existsb (fun p : string * value => has_nul (fst p) || holds_nul (snd p)) props
            = true) as Hex
      by (apply existsb_exists; exists unknown; split; [exact Hin | rewrite E; reflexivity]).
    congruence. }
  revert Hvalid. unfold paymentSchema, Joi.object.
  cbn [Joi.validate Joi.uuid Joi.string
       Joi.allow_empty Joi.max_length Joi.only Joi.guid].
  unfold Joi.validate_string, Joi.check_string.
  cbn [Joi.allow_empty Joi.max_length Joi.only Joi.guid negb orb].
  repeat (lazymatch goal with
          | |- (match ?x with _ => _ end = _) -> _ => scrutinee x
          end; try (intros [= <-]; reflexivity)).
  all: intros [= <-]; rewrite has_nul_append; cbn [has_nul orb]; rewrite orb_false_r.
  all: match goal with
       | H : List.find _ ?props = Some ?unknown |- _ =>
           apply find_some in H; destruct H as [Hin _];
           refine (Hprops props _ unknown Hin)
       end.
  all: first [ assumption | eapply Htext; [reflexivity | eassumption] ].
Qed.

(** [processPayment] records a failed payment also for a body its
    schema refuses.  When the body, which holds no U+0000, names an
    existing order by a well-formed identifier and the caller has a
    profile, a payment of amount 0, failed, with the message of the
    schema, is inserted for that order and the caller, whoever owns the
    order; the error of the schema then goes to the error middleware,
    and neither Clerk nor Stripe is called. *)
Theorem processPayment_records_refused_bodies :
  forall (req : request) (w : world) (msg order_text : string) (id : uuid)
         (profile : user_row),
    Joi.validate paymentSchema (body req) = inl msg ->
    holds_nul (body req) = false ->
    get "orderId" (body req) = Some (VString order_text) ->
    order_text <> "" ->
    uuid_of_text order_text = Some id ->
    has_order id (store w) = true ->
    profile_of (clerkId (user req)) (store w) = Some profile ->
    run (processPayment ext req) w
    = (Next (joi_error msg),
       {| store := with_new_payment
                     (payment_record (store w) id (user_id profile) None None 0
                        payment_failed None (Some msg) (time req))
                     (store w);
          calls := calls w |}).
Proof.
  intros req [db cs] msg order_text id profile Hvalid Hbody Horder Htext Hid Hhas Hprofile.
  cbn [store calls] in *.
  assert (Hnul : has_nul msg = false).
  { apply (paymentSchema_message (body req) msg Hvalid Hbody).
    intros text props E. rewrite E in Horder. discriminate Horder. }
  destruct (profile_of_select _ _ _ Hprofile) as [rest Hsel].
  unfold processPayment, run, try_catch.
  unfold bind at 1. rewrite Hvalid. cbn [validated throw].
  rewrite Horder. cbn [truthy].
  replace (String.eqb order_text "") with false
    by (symmetry; apply String.eqb_neq; exact Htext).
  cbn [negb]. unfold bind at 1. unfold try_catch.
  rewrite (bind_value _ _ _ _ _ (query_value _ _ _ cs _ Hsel)). cbv beta iota.
  assert (Hinsert :
            insert_payment (as_uuid_value (Some (VString order_text))) (user_id profile)
              None None 0 "failed" None (Some (message (joi_error msg))) (time req) db
            = inr ([payment_record db id (user_id profile) None None 0 payment_failed
                      None (Some msg) (time req)],
                   with_new_payment
                     (payment_record db id (user_id profile) None None 0 payment_failed
                        None (Some msg) (time req)) db)).
  { unfold as_uuid_value. rewrite (as_uuid_read _ _ Hid).
    apply insert_payment_stored; try reflexivity; try assumption.
    - cbn [note_is_text message joi_error]. rewrite Hnul. reflexivity.
    - exact (profile_of_has_user _ _ _ Hprofile). }
  rewrite (bind_value _ _ _ _ _ (query_value _ _ _ cs _ Hinsert)). reflexivity.
Qed.

End RejectedCharges.

(* ================================================================== *)
(** ** Prices *)
(* ================================================================== *)

Section Prices.
Context {formats : TextFormats}.

Import Pricing.

Lemma validate_array_strings (v v' : value) :
  validate_array Joi.string v = inr v' ->
  exists names, v' = VArray (map VString names).
Proof.
  unfold validate_array. destruct v as [| | | | |xs|]; try discriminate.
  match goal with
  | |- match ?f xs with _ => _ end = _ -> _ => set (each := f)
  end.
  assert (H : forall ys zs, each ys = inr zs -> exists names, zs = map VString names).
  { induction ys as [|y ys IH]; intros zs.
    - intros [= <-]. exists []. reflexivity.
    - change (each (y :: ys))
        with (match Joi.validate Joi.string y with
              | inl e => inl e
              | inr y' =>
                  match each ys with
                  | inl e => inl e
                  | inr rest' => inr (y' :: rest')
                  end
              end).
      cbn [Joi.validate Joi.string]. unfold Joi.validate_string.
      destruct y as [| | |s| | |]; try discriminate.
      destruct (Joi.check_string _ s); [|discriminate].
      cbn [Joi.guid].
      destruct (each ys) as [e|rest] eqn:E; [discriminate|].
      intros [= <-]. destruct (IH _ eq_refl) as [names ->].
      exists (s :: names). reflexivity. }
  destruct (each xs) as [e|zs] eqn:E; [discriminate|].
  intros [= <-]. destruct (H _ _ E) as [names ->]. eauto.
Qed.

Lemma calculatePriceSchema_value (input value : JS.value) :
  validate_object calculatePriceSchema input = inr value ->
  exists tier count names,
    value = VObject [("serviceType", VString (service_type_text tier));
                     ("itemCount", VNumber (finite count));
                     ("addons", VArray (map VString names))].
Proof.
  unfold validate_object, calculatePriceSchema.
  cbn [validate_key Joi.validate Joi.min Joi.integer Joi.number Joi.string Joi.valid
       Joi.whole Joi.minimum Joi.allow_empty Joi.max_length Joi.only Joi.guid].
  set (strings := validate_array _).
  unfold Joi.validate_string, Joi.validate_number, Joi.check_string, Joi.check_number.
  cbn [Joi.whole Joi.minimum Joi.allow_empty Joi.max_length Joi.only Joi.guid negb orb].
  open_premise.
  all: intros [= <-].
  all: match goal with
       | H : includes _ ?s = true |- _ => destruct (includes_service_type s H) as [tier ->]
       end.
  all: subst strings.
  all: try match goal with
         | H : validate_array _ _ = inr _ |- _ =>
             destruct (validate_array_strings _ _ H) as [names ->]
         end.
  all: first [ eexists _, _, _; reflexivity
             | eexists _, _, []; reflexivity ].
Qed.

Lemma addon_charge_is_whole (addon : string) :
  exists z : Z, addon_charge addon = inject_Z z /\ (0 <= z)%Z.
Proof.
  unfold addon_charge, addonPrices. cbn [assoc].
  repeat match goal with
         | |- context [if ?b then _ else _] => destruct b
         end;
    eexists; (split; [reflexivity | lia]).
Qed.

Lemma charges_are_whole (addons : list string) :
  exists z : Z, charges addons == inject_Z z.
Proof.
  induction addons as [|a rest [z IH]]; cbn [charges].
  - exists 0%Z. reflexivity.
  - destruct (addon_charge_is_whole a) as (z' & -> & _).
    exists (z' + z)%Z. rewrite IH, inject_Z_plus. reflexivity.
Qed.

Lemma addonPrices_are_truthy (addon : string) (q : Q) :
  assoc addon addonPrices = Some q -> is_zero q = false.
Proof.
  unfold addonPrices. cbn [assoc].
  repeat match goal with
         | |- context [if ?b then _ else _] => destruct b
         end;
    (intros [= <-]; reflexivity) || discriminate.
Qed.

Lemma inherited_names_have_no_price (addon : string) :
  is_inherited addon = true -> assoc addon addonPrices = None.
Proof.
  unfold is_inherited, includes, Object_prototype. cbn [existsb].
  repeat match goal with
         | |- context [String.eqb addon ?s] =>
             destruct (String.eqb_spec addon s) as [->|_]; [reflexivity|]
         end.
  discriminate.
Qed.

Lemma concatenation_stays (addons : list string) :
  fold_left add_addon addons concatenation = concatenation.
Proof.
  induction addons as [|a rest IH]; cbn [fold_left]; [reflexivity|].
  replace (add_addon concatenation a) with concatenation; [exact IH|].
  unfold add_addon. destruct (addonPrices_at a) as [q| |]; try reflexivity.
  destruct (is_zero q); reflexivity.
Qed.

Lemma inherited_addon_spoils_the_total (addons : list string) (total : running_total) :
  existsb is_inherited addons = true ->
  fold_left add_addon addons total = concatenation.
Proof.
  revert total. induction addons as [|a rest IH]; intros total; cbn [existsb fold_left].
  - discriminate.
  - destruct (is_inherited a) eqn:Ea; cbn [orb].
    + intros _. unfold add_addon, addonPrices_at.
      rewrite (inherited_names_have_no_price _ Ea).
      unfold is_inherited in Ea. rewrite Ea. apply concatenation_stays.
    + intros H. apply IH. exact H.
Qed.

Lemma known_addons_add_up (addons : list string) (t : Q) :
  existsb is_inherited addons = false ->
  exists t', fold_left add_addon addons (amount t) = amount t' /\ t' == t + charges addons.
Proof.
  revert t. induction addons as [|a rest IH]; intros t; cbn [existsb fold_left charges].
  - intros _. exists t. split; [reflexivity | ring].
  - intros H. apply orb_false_iff in H as [Ha Hrest].
    unfold add_addon at 2, addonPrices_at, addon_charge.
    destruct (assoc a addonPrices) as [q|] eqn:Eq.
    + rewrite (addonPrices_are_truthy _ _ Eq).
      destruct (IH (t + q)%Q Hrest) as (t' & -> & Ht'). exists t'. split; [reflexivity|].
      rewrite Ht'. ring.
    + unfold is_inherited in Ha. rewrite Ha.
      destruct (IH t Hrest) as (t' & -> & Ht'). exists t'. split; [reflexivity|].
      rewrite Ht'. ring.
Qed.

Lemma Math_round_whole (q : Q) (z : Z) :
  q == inject_Z z -> inject_Z (Math_round (q * 100)) / 100 == q.
Proof.
  intros Hq. unfold Math_round.
  assert (E : q * 100 + (1 # 2) == inject_Z (z * 100) + (1 # 2)).
  { rewrite Hq. unfold Qeq. cbn. lia. }
  rewrite (Qfloor_comp _ _ E).
  replace (Qfloor (inject_Z (z * 100) + (1 # 2))) with (z * 100)%Z.
  - rewrite Hq. unfold Qeq. cbn. lia.
  - unfold Qfloor, Qplus, inject_Z. cbn [Qnum Qden].
    replace (z * 100 * 2 + 1 * 1)%Z with (1 + (z * 100) * 2)%Z by lia.
    rewrite Z.div_add by lia. reflexivity.
Qed.

Lemma strings_of_strings (names : list string) :
  strings_of (Some (VArray (map VString names))) = names.
Proof.
  cbn [strings_of]. induction names as [|n rest IH]; cbn; [reflexivity|].
  f_equal. exact IH.
Qed.

(** [calculatePrice] on a body its schema accepts never answers
    [Invalid service type]; it answers with the base price of the tier,
    the add-ons in the order given, and a total that is the base price
    plus the price of every add-on that has one, each occurrence
    counted, add-ons without a price adding nothing; [itemCount] plays no
    part.  That holds as long as no add-on bears the name of a property
    of [Object.prototype]; if one does, the total is NaN. *)
Theorem calculatePrice_charges_the_known_addons :
  forall (req : request) (w : world) (value : JS.value),
    validate_object calculatePriceSchema (body req) = inr value ->
    exists (tier : service_type) (base : PricingController.tier) (names : list string)
           (p : pricing),
      get "serviceType" value = Some (VString (service_type_text tier))
      /\ get "addons" value = Some (VArray (map VString names))
      /\ assoc (service_type_text tier) PricingController.PRICING_TIERS = Some base
      /\ conclude (calculatePrice req) w = (inr p, w)
      /\ pricing_basePrice p = PricingController.basePrice base
      /\ map line_name (addons p) = names
      /\ (existsb is_inherited names = false ->
          exists total : Q,
            totalPrice p = finite total
            /\ total == PricingController.basePrice base + charges names)
      /\ (existsb is_inherited names = true -> totalPrice p = NaN).
Proof.
  intros req w value Hvalid.
  destruct (calculatePriceSchema_value _ _ Hvalid) as (tier & count & names & ->).
  assert (Hbase : exists base z,
             assoc (service_type_text tier) PricingController.PRICING_TIERS = Some base
             /\ PricingController.basePrice base = inject_Z z).
  { destruct tier; cbn; eexists _, _; split; reflexivity. }
  destruct Hbase as (base & z & Hbase & Hz).
  eexists tier, base, names, _.
  split; [reflexivity|]. split; [reflexivity|]. split; [exact Hbase|].
  split.
  { unfold calculatePrice, conclude, try_catch, bind. rewrite Hvalid.
    cbn [validated ret]. cbv zeta.
    change (get "serviceType" (VObject _)) with (Some (VString (service_type_text tier))).
    cbn [OrderController.index_by]. rewrite Hbase.
    change (get "addons" (VObject _)) with (Some (VArray (map VString names))).
    rewrite strings_of_strings. reflexivity. }
  cbn [pricing_basePrice addons totalPrice].
  split; [reflexivity|]. split.
  { rewrite map_map. cbn [line_name]. apply map_id. }
  split.
  - intros Hknown.
    destruct (known_addons_add_up names (PricingController.basePrice base) Hknown)
      as (t' & -> & Ht').
    cbn [rounded]. eexists. split; [reflexivity|].
    destruct (charges_are_whole names) as [c Hc].
    rewrite (Math_round_whole t' (z + c)%Z).
    + exact Ht'.
    + rewrite Ht', Hz, Hc, inject_Z_plus. reflexivity.
  - intros Hspoilt. rewrite (inherited_addon_spoils_the_total _ _ Hspoilt). reflexivity.
Qed.

End Prices.

(* ================================================================== *)
(** ** The app and the backend *)
(* ================================================================== *)

Section Agreement.
Context {formats : TextFormats}.

Import Swift.

(** The price the app shows is the price charged.  For each service
    type of the app, the backend's pricing table has, under the type's
    raw value, the name, base price, description and features the app
    displays; and every order that [createOrder] answers with, for a
    body of that service type, has that base price. *)
Theorem app_shows_the_price_createOrder_charges :
  forall (t : ServiceType),
    assoc (ServiceType_.rawValue t) PricingController.PRICING_TIERS = Some (tier_of t)
    /\ forall (req : request) (w w' : world) (value : JS.value) (order : order_row),
         Joi.validate OrderController.createOrderSchema (body req) = inr value ->
         get "serviceType" value = Some (VString (ServiceType_.rawValue t)) ->
         run (OrderController.createOrder req) w
         = (Respond 201 (json_order (Some order)), w') ->
         Db.price order = ServiceType_.basePrice t.
Proof.
  intros t. split; [destruct t; reflexivity|].
  intros req w w' value order Hvalid Htype Hrun.
  destruct (createOrder_answered _ _ _ _ Hrun)
    as (value' & profile & tier & base & Hvalid' & _ & Htier & Hbase & Hprice & _).
  rewrite Hvalid in Hvalid'. injection Hvalid' as <-.
  rewrite Htype in Htier. injection Htier as Htier. rewrite Hprice.
  destruct t, tier; try discriminate Htier; cbn in Hbase; injection Hbase as <-; reflexivity.
Qed.

(** The app and the backend agree on the statuses.  Every label of
    the database's [order_status] decodes to a case of the app's
    [OrderStatus] with that raw value, every case's raw value is such a
    label, and the app counts a status as completed exactly when
    [cancelOrder] refuses to cancel an order in it. *)
Theorem app_and_backend_agree_on_statuses :
  (forall s : order_status,
      exists s' : OrderStatus,
        OrderStatus_.init (order_status_text s) = Some s'
        /\ OrderStatus_.rawValue s' = order_status_text s
        /\ OrderStatus_.isCompleted s'
           = includes ["completed"; "cancelled"] (order_status_text s))
  /\ forall s' : OrderStatus,
       exists s : order_status,
         order_status_of_text (OrderStatus_.rawValue s') = Some s
         /\ OrderStatus_.init (order_status_text s) = Some s'.
Proof.
  split.
  - intros s. destruct s; eexists; repeat split.
  - intros s'. destruct s'; eexists; repeat split.
Qed.

End Agreement.

(* ================================================================== *)
(** ** The published lists of orders *)
(* ================================================================== *)

Section Lists.

Import Swift OrderLists.

Lemma firstIndex_lookup {A : Type} (p : A -> bool) (xs : list A) (i : nat) :
  firstIndex p xs = Some i -> (i < length xs)%nat.
Proof.
  revert i. induction xs as [|x xs IH]; intros i; cbn; [discriminate|].
  destruct (p x); [intros [= <-]; lia|].
  destruct (firstIndex p xs) as [j|]; [|discriminate].
  intros [= <-]. specialize (IH j eq_refl). lia.
Qed.

Lemma all_active_insert (os : list Order) (i : nat) (o : Order) :
  all_active os -> OrderStatus_.isCompleted (status o) = false ->
  all_active (<[i := o]> os).
Proof. intros H Ho. apply Forall_insert; assumption. Qed.

Lemma all_active_delete (os : list Order) (i : nat) :
  all_active os -> all_active (delete i os).
Proof. intros H. apply Forall_delete. exact H. Qed.

Lemma apply_keeps_active (e : event) (m : published) :
  all_active (activeOrders m) -> all_active (activeOrders (apply e m)).
Proof.
  intros H. destruct e as [o| |response|orderId o|orderId o]; cbn [apply].
  - unfold createOrder_done, not_completed. cbn [activeOrders].
    destruct (OrderStatus_.isCompleted (status o)) eqn:E; cbn [negb]; [exact H|].
    constructor; assumption.
  - exact H.
  - unfold fetchOrders_done. cbn [activeOrders].
    apply List.Forall_forall. intros o Ho. apply filter_In in Ho as [_ Ho].
    unfold not_completed in Ho. apply negb_true_iff in Ho. exact Ho.
  - unfold fetchOrderDetails_done. cbn [activeOrders].
    destruct (firstIndex _ (activeOrders m)) as [i|]; [|exact H].
    destruct (OrderStatus_.isCompleted (status o)) eqn:E.
    + apply all_active_delete. exact H.
    + apply all_active_insert; assumption.
  - unfold cancelOrder_done. cbn [activeOrders].
    destruct (firstIndex _ (activeOrders m)) as [i|]; [|exact H].
    apply all_active_delete. exact H.
Qed.

(** [activeOrders] never holds a completed or cancelled order,
    whatever the server answers and in whatever order the blocks of
    [createOrder], [fetchOrders], [fetchOrderDetails] and [cancelOrder]
    run. *)
Theorem activeOrders_holds_no_completed_order :
  forall (events : list event) (o : Order),
    In o (activeOrders (run events init)) ->
    OrderStatus_.isCompleted (status o) = false.
Proof.
  intros events.
  assert (H : forall m, all_active (activeOrders m) ->
                        all_active (activeOrders (run events m))).
  { induction events as [|e events IH]; intros m Hm; [exact Hm|].
    cbn [run fold_left]. apply IH, apply_keeps_active, Hm. }
  intros o Ho. specialize (H init (List.Forall_nil _)).
  unfold all_active in H. rewrite List.Forall_forall in H. exact (H o Ho).
Qed.

(** Only the block that ends a successful [fetchOrders] clears
    [isLoading].  Once [fetchOrders] has started, [isLoading] stays set
    through everything else that happens; a [fetchOrders] whose request
    throws runs no further block and so leaves it set. *)
Theorem isLoading_waits_for_a_successful_fetch :
  forall (before after : list event),
    Forall ends_no_fetch after ->
    isLoading (run (before ++ [fetch_begun] ++ after) init) = true.
Proof.
  intros before after Hafter. unfold run. rewrite !fold_left_app. cbn [fold_left apply].
  set (m := fetchOrders_begun _).
  assert (Hm : isLoading m = true) by reflexivity. clearbody m.
  revert m Hm. induction Hafter as [|e after He _ IH]; intros m Hm; [exact Hm|].
  cbn [fold_left]. apply IH.
  destruct e; cbn in He; [exact Hm | reflexivity | contradiction | exact Hm | exact Hm].
Qed.

End Lists.

(* ================================================================== *)
(** ** Stopping the polling *)
(* ================================================================== *)

Section Stopping.

Import OrderManager.

Lemma cancelled_lookup (t t' : nat) (tasks : list task) :
  cancel t tasks !! t'
  = if decide (t = t') then cancelled_task <$> tasks !! t' else tasks !! t'.
Proof. exact (OrderManagerFacts.cancel_lookup t t' tasks). Qed.

Lemma move_lookup (t t' : nat) (p : position) (tasks : list task) :
  move t p tasks !! t'
  = if decide (t = t')
    then (fun x => {| orderId := orderId x; isCancelled := isCancelled x;
                      at_position := p |}) <$> tasks !! t'
    else tasks !! t'.
Proof.
  unfold move. destruct (decide (t = t')) as [->|Hne].
  - apply list_lookup_alter_eq.
  - apply list_lookup_alter_ne. exact Hne.
Qed.

(** What [stopAllRealTimeUpdates] makes of the tasks. *)
Lemma stop_all_tasks (m : manager) (t : nat) :
  let tasks := created (stopAllRealTimeUpdates m) in
  (tasks !! t = created m !! t \/ tasks !! t = cancelled_task <$> created m !! t)
  /\ ((exists id, pollingTasks m !! id = Some t) ->
      tasks !! t = cancelled_task <$> created m !! t)
  /\ ((forall id, pollingTasks m !! id <> Some t) -> tasks !! t = created m !! t).
Proof.
  unfold stopAllRealTimeUpdates. cbn [created].
  apply (map_fold_weak_ind
           (fun tasks registry =>
              (tasks !! t = created m !! t
               \/ tasks !! t = cancelled_task <$> created m !! t)
              /\ ((exists id, registry !! id = Some t) ->
                  tasks !! t = cancelled_task <$> created m !! t)
              /\ ((forall id, registry !! id <> Some t) -> tasks !! t = created m !! t))).
  - split; [left; reflexivity|]. split; [|reflexivity].
    intros [id H]. rewrite lookup_empty in H. discriminate H.
  - intros id t0 registry tasks Hfresh (Hany & Hreg & Hnot).
    rewrite cancelled_lookup. destruct (decide (t0 = t)) as [->|Hne].
    + assert (E : cancelled_task <$> tasks !! t = cancelled_task <$> created m !! t).
      { destruct Hany as [-> | ->]; [reflexivity|].
        destruct (created m !! t); reflexivity. }
      rewrite E. split; [right; reflexivity|]. split; [reflexivity|].
      intros H. destruct (H id). apply lookup_insert_eq.
    + split; [exact Hany|]. split.
      * intros [id' H]. apply Hreg. exists id'.
        destruct (decide (id = id')) as [<-|Hid].
        -- rewrite lookup_insert_eq in H. congruence.
        -- rewrite lookup_insert_ne in H by exact Hid. exact H.
      * intros H. apply Hnot. intros id' Hid'. apply (H id').
        destruct (decide (id = id')) as [<-|Hid]; [congruence|].
        rewrite lookup_insert_ne by exact Hid. exact Hid'.
Qed.

Lemma stop_all_length (m : manager) :
  length (created (stopAllRealTimeUpdates m)) = length (created m).
Proof.
  unfold stopAllRealTimeUpdates. cbn [created].
  apply (map_fold_weak_ind (fun tasks _ => length tasks = length (created m)));
    [reflexivity|].
  intros id t registry tasks _ H. rewrite OrderManagerFacts.cancel_length. exact H.
Qed.

Lemma cancelled_task_polls_nothing (id : string) (x : task) :
  polls id (cancelled_task x) = false.
Proof. unfold polls, cancelled_task. cbn. rewrite andb_false_r. reflexivity. Qed.

(** [stopAllRealTimeUpdates] empties the registry, cancels every
    task that was registered and leaves the other tasks as they were.
    So when every polling task was a registered one, no task polls
    afterwards; a task that was polling without being registered goes
    on. *)
Theorem stopAllRealTimeUpdates_cancels_the_registered_tasks :
  forall (m : manager),
    let m' := stopAllRealTimeUpdates m in
    pollingTasks m' = ∅
    /\ (forall id t x,
          pollingTasks m !! id = Some t -> created m !! t = Some x ->
          created m' !! t = Some (cancelled_task x))
    /\ (forall t, (forall id, pollingTasks m !! id <> Some t) ->
                  created m' !! t = created m !! t)
    /\ ((forall id, only_registered_polls id m) ->
        forall id, active_timers id m' = []).
Proof.
  intros m m'. split; [reflexivity|]. split; [|split].
  - intros id t x Hreg Hx.
    destruct (stop_all_tasks m t) as (_ & H & _). fold m' in H.
    rewrite H by eauto. rewrite Hx. reflexivity.
  - intros t Hnot. destruct (stop_all_tasks m t) as (_ & _ & H). exact (H Hnot).
  - intros Honly id. unfold active_timers.
    apply OrderManagerFacts.filter_seq_none. intros t _.
    destruct (stop_all_tasks m t) as (Hany & Hreg & _). fold m' in Hany, Hreg.
    destruct (created m !! t) as [x|] eqn:Ex.
    + destruct (polls id x) eqn:Ep.
      * rewrite Hreg by (exists id; exact (Honly id t x Ex Ep)).
        cbn. apply cancelled_task_polls_nothing.
      * destruct Hany as [-> | ->]; cbn; [exact Ep | apply cancelled_task_polls_nothing].
    + destruct Hany as [-> | ->]; reflexivity.
Qed.

(** *** A task that was stopped *)

Lemma stopped_cancelled (x : task) : stopped x -> stopped (cancelled_task x).
Proof. intros [_ H]. split; [reflexivity | exact H]. Qed.

Lemma stop_keeps_stopped (id : string) (m : manager) (t : nat) (x : task) :
  created m !! t = Some x -> stopped x ->
  exists x', created (stopRealTimeUpdates id m) !! t = Some x'
             /\ stopped x' /\ orderId x' = orderId x.
Proof.
  intros Hx Hs. unfold stopRealTimeUpdates. cbn [created].
  destruct (pollingTasks m !! id) as [t0|]; [|eauto].
  rewrite cancelled_lookup. destruct (decide (t0 = t)); [|eauto].
  rewrite Hx. cbn. eexists. split; [reflexivity|].
  split; [apply stopped_cancelled; exact Hs | reflexivity].
Qed.

Lemma apply_keeps_stopped (e : event) (m : manager) (t : nat) (x : task) :
  created m !! t = Some x -> stopped x ->
  exists x', created (apply e m) !! t = Some x' /\ stopped x' /\ orderId x' = orderId x.
Proof.
  intros Hx Hs. destruct e as [id|id| |t' r]; cbn [apply].
  - unfold startRealTimeUpdates. cbn [fst created].
    destruct (stop_keeps_stopped id m t x Hx Hs) as (x' & Hx' & Hs' & Ho).
    exists x'. split; [|split; assumption].
    rewrite lookup_app_l by (apply lookup_lt_Some in Hx'; exact Hx'). exact Hx'.
  - exact (stop_keeps_stopped id m t x Hx Hs).
  - destruct (stop_all_tasks m t) as ([H | H] & _); cbn zeta in H; rewrite H, Hx.
    + eauto.
    + cbn. eexists. split; [reflexivity|]. split; [apply stopped_cancelled; exact Hs|].
      reflexivity.
  - unfold resume. destruct (created m !! t') as [y|] eqn:Ey; [|eauto].
    destruct (decide (t' = t)) as [->|Hne].
    + assert (y = x) by congruence. subst y. destruct Hs as [Hc Hp].
      destruct (at_position x) eqn:Epos; cbn [created].
      * rewrite Hc, move_lookup. destruct (decide (t = t)); [|congruence].
        rewrite Hx. cbn. eexists. split; [reflexivity|]. repeat split; [exact Hc | discriminate].
      * rewrite Hc, move_lookup. destruct (decide (t = t)); [|congruence].
        rewrite Hx. cbn. eexists. split; [reflexivity|]. repeat split; [exact Hc | discriminate].
      * contradiction.
      * destruct (stop_keeps_stopped (orderId x) m t x Hx) as (x' & Hx' & [Hc' _] & Ho).
        { split; [exact Hc | rewrite Epos; discriminate]. }
        rewrite move_lookup. destruct (decide (t = t)); [|congruence].
        rewrite Hx'. cbn. eexists. split; [reflexivity|].
        repeat split; [exact Hc' | discriminate | exact Ho].
      * rewrite move_lookup. destruct (decide (t = t)); [|congruence].
        rewrite Hx. cbn. eexists. split; [reflexivity|]. repeat split; [exact Hc | discriminate].
      * exists x. repeat split; [exact Hx | exact Hc | rewrite Epos; discriminate].
    + destruct (at_position y); cbn [created];
        try (rewrite move_lookup; destruct (decide (t' = t)); [congruence|]);
        eauto.
      destruct (stop_keeps_stopped (orderId y) m t x Hx Hs) as (x' & Hx' & Hs' & Ho).
      eauto.
Qed.

(** A task that [stopRealTimeUpdates] has cancelled does not fetch
    again.  If the task registered for an order was not waiting for a
    fetch to come back when the order's polling was stopped, then
    whatever happens afterwards (calls of the views, steps of any task,
    in any order) it stays cancelled and never waits for a fetch. *)
Theorem a_stopped_task_fetches_no_more :
  forall (m : manager) (id : string) (t : nat) (x : task) (events : list event),
    pollingTasks m !! id = Some t ->
    created m !! t = Some x ->
    at_position x <> fetching ->
    exists x',
      created (run events (stopRealTimeUpdates id m)) !! t = Some x'
      /\ orderId x' = orderId x
      /\ isCancelled x' = true
      /\ at_position x' <> fetching.
Proof.
  intros m id t x events Hreg Hx Hpos.
  assert (Hstart : exists x0, created (stopRealTimeUpdates id m) !! t = Some x0
                              /\ stopped x0 /\ orderId x0 = orderId x).
  { unfold stopRealTimeUpdates. cbn [created]. rewrite Hreg, cancelled_lookup.
    destruct (decide (t = t)); [|congruence]. rewrite Hx. cbn.
    eexists. split; [reflexivity|]. split; [split; [reflexivity | exact Hpos] | reflexivity]. }
  generalize dependent (stopRealTimeUpdates id m). clear Hreg Hx m.
  induction events as [|e events IH]; intros m (x0 & Hx0 & Hs & Ho).
  - exists x0. destruct Hs. repeat split; assumption.
  - cbn [run fold_left].
    destruct (apply_keeps_stopped e m t x0 Hx0 Hs) as (x1 & Hx1 & Hs1 & Ho1).
    apply IH. exists x1. split; [exact Hx1|]. split; [exact Hs1 | congruence].
Qed.

End Stopping.

(* ================================================================== *)
(** ** Saved addresses, once more *)
(* ================================================================== *)

Section Addresses.
Context {formats : TextFormats}.

Import AuthController.

Lemma without_last {A : Type} (xs : list A) (x : A) :
  without (length xs) (xs ++ [x]) = xs.
Proof.
  unfold without. rewrite firstn_app, Nat.sub_diag, firstn_all. cbn [firstn].
  rewrite app_nil_r. rewrite skipn_all2 by (rewrite length_app; cbn; lia).
  apply app_nil_r.
Qed.

(** Removing the address just added restores the list.  For a user
    whose saved addresses are a list, [addAddress] with a body the schema
    accepts and that holds no U+0000, followed by [removeAddress] at the
    index the new address got (the former length), leaves the saved
    addresses as they were. *)
Theorem removing_the_added_address_restores_the_list :
  forall (add remove : request) (w : world) (value : JS.value) (profile : user_row)
         (xs : list JS.value),
    lists_only (store w) ->
    Joi.validate addressSchema (body add) = inr value ->
    holds_nul value = false ->
    profile_of (clerkId (user add)) (store w) = Some profile ->
    saved_addresses profile = Some (VArray xs) ->
    clerkId (user remove) = clerkId (user add) ->
    parseInt10 (param "index" remove) = Some (Z.of_nat (length xs)) ->
    exists added w1 removed w2,
      run (addAddress add) w = (Respond 200 (json_user (Some added)), w1)
      /\ saved_addresses added = Some (VArray (xs ++ [value])%list)
      /\ run (removeAddress remove) w1 = (Respond 200 (json_user (Some removed)), w2)
      /\ saved_addresses removed = Some (VArray xs)
      /\ profile_of (clerkId (user add)) (store w2) = Some removed.
Proof.
  intros add remove w value profile xs Hlists Hvalid Hnul Hprofile Hsaved Hsame Hindex.
  destruct (addAddress_appends add w value profile xs Hvalid Hnul Hprofile Hsaved)
    as (added & w1 & Hadd & Hprofile1 & Hsaved1).
  assert (Hlists1 : lists_only (store w1)).
  { pose proof (keeps_run lists_only (profile_handler (add_address add)) w
                  (profile_handler_keeps_lists _) Hlists) as H.
    cbn [profile_handler] in H. rewrite Hadd in H. exact H. }
  rewrite <- Hsame in Hprofile1.
  destruct (removeAddress_removes remove w1 (length xs) added (xs ++ [value])
              Hlists1 Hindex Hprofile1 Hsaved1)
    as (removed & w2 & Hremove & Hprofile2 & Hsaved2).
  rewrite without_last in Hsaved2. rewrite Hsame in Hprofile2.
  exists added, w1, removed, w2. repeat split; assumption.
Qed.

(** Nothing bounds the saved addresses.  Any number of [addAddress]
    requests of one user whose bodies the schema accepts, none holding
    U+0000, are all answered 200, and the saved addresses end up being
    the former ones followed by the new ones, in the order of the
    requests. *)
Theorem addAddress_appends_without_limit :
  forall (reqs : list request) (values : list JS.value) (w : world) (clerk : string)
         (profile : user_row) (xs : list JS.value),
    accepted clerk reqs values ->
    profile_of clerk (store w) = Some profile ->
    saved_addresses profile = Some (VArray xs) ->
    exists after : user_row,
      forallb succeeded (fst (serve addAddress reqs w)) = true
      /\ length (fst (serve addAddress reqs w)) = length reqs
      /\ profile_of clerk (store (snd (serve addAddress reqs w))) = Some after
      /\ saved_addresses after = Some (VArray (xs ++ values)%list).
Proof.
  induction reqs as [|req reqs IH]; intros values w clerk profile xs Hacc Hprofile Hsaved.
  - destruct values; [|contradiction]. exists profile. rewrite app_nil_r.
    repeat split; assumption.
  - destruct values as [|value values]; [contradiction|].
    destruct Hacc as (Hclerk & Hvalid & Hnul & Hacc). subst clerk.
    destruct (addAddress_appends req w value profile xs Hvalid Hnul Hprofile Hsaved)
      as (added & w1 & Hadd & Hprofile1 & Hsaved1).
    destruct (IH values w1 _ added (xs ++ [value])%list Hacc Hprofile1 Hsaved1)
      as (after & Hok & Hlen & Hafter & Hsaved').
    exists after. cbn [serve]. rewrite Hadd.
    destruct (serve addAddress reqs w1) as [os w2]. cbn [fst snd] in *.
    rewrite <- app_assoc in Hsaved'. cbn [app] in Hsaved'.
    split; [cbn; exact Hok|]. split; [cbn; f_equal; exact Hlen|].
    split; assumption.
Qed.

(** What the "Add Address" form of the app sends is accepted.  When
    the form's [Save] button is enabled (no field is empty), the address
    it encodes passes [addressSchema] unchanged; and when no field holds
    U+0000, [addAddress] appends it to the saved addresses of a user who
    has a list of them. *)
Theorem the_add_address_form_is_accepted :
  forall (f : Swift.AddAddressView.form) (req : request) (w : world) (profile : user_row)
         (xs : list JS.value),
    Swift.AddAddressView.isFormValid f = true ->
    body req = Swift.encode_SavedAddress (Swift.AddAddressView.saveAddress f) ->
    profile_of (clerkId (user req)) (store w) = Some profile ->
    saved_addresses profile = Some (VArray xs) ->
    Joi.validate addressSchema (body req) = inr (body req)
    /\ (holds_nul (body req) = false ->
        exists after w',
          run (addAddress req) w = (Respond 200 (json_user (Some after)), w')
          /\ saved_addresses after = Some (VArray (xs ++ [body req])%list)).
Proof.
  intros f req w profile xs Hform Hbody Hprofile Hsaved.
  assert (Hvalid : Joi.validate addressSchema (body req) = inr (body req)).
  { rewrite Hbody. destruct f as [l s c st z].
    unfold Swift.AddAddressView.isFormValid, Swift.AddAddressView.isEmpty in Hform.
    cbn [Swift.AddAddressView.form_label Swift.AddAddressView.form_street
         Swift.AddAddressView.form_city Swift.AddAddressView.form_state
         Swift.AddAddressView.form_zipCode] in Hform.
    repeat (apply andb_prop in Hform; destruct Hform as [Hform ?]).
    cbn. unfold Joi.validate_string, Joi.check_string. cbn.
    repeat match goal with
           | H : negb _ = true |- _ => rewrite H; clear H
           end.
    reflexivity. }
  split; [exact Hvalid|]. intros Hnul.
  destruct (addAddress_appends req w (body req) profile xs Hvalid Hnul Hprofile Hsaved)
    as (after & w' & Hrun & _ & Hafter).
  exists after, w'. split; assumption.
Qed.

End Addresses.

(* ================================================================== *)
(** ** Whose order, whose profile *)
(* ================================================================== *)

Section Ownership.
Context {formats : TextFormats} {planner : Planner}.
Variable ext : PaymentController.external.

Import OrderController AuthController PaymentController.
Import OrderQueries PaymentQueries ProfileController.

Lemma owned_order_of_others (id owner : uuid) (db : database) :
  (forall o, In o (orders db) -> order_id o = id -> order_user_id o <> owner) ->
  owned_order id owner db = None.
Proof.
  intros H. unfold owned_order.
  destruct (List.find _ (orders db)) as [o|] eqn:E; [|reflexivity].
  apply find_some in E as [Hin Hp]. apply andb_prop in Hp as [E1 E2].
  apply N.eqb_eq in E1, E2. destruct (H o Hin E1 E2).
Qed.

Lemma select_not_owned (id owner : uuid) (db : database) :
  owned_order id owner db = None ->
  select_order_by_id_and_user (inr id) owner db = inr ([], db).
Proof.
  intros H. unfold select_order_by_id_and_user. cbn [and_then].
  rewrite (filter_find_none _ _ H). reflexivity.
Qed.

(** The orders of other users are out of reach of [cancelOrder], and
    of [processPayment] with a body its schema accepts.  For a caller
    with a profile, when no order with the identifier given belongs to
    the caller (it is unknown, or another user's), both answer 404
    [Order not found]; nothing is written, and neither Clerk nor Stripe
    is called.  (A body the schema refuses is another matter: the
    [catch] block of [processPayment] records a failed payment for the
    order that [req.body.orderId] names, whoever owns it.) *)
Theorem other_users_orders_are_refused :
  forall (req : request) (w : world) (profile : user_row) (id : uuid),
    profile_of (clerkId (user req)) (store w) = Some profile ->
    (forall o, In o (orders (store w)) -> order_id o = id ->
               order_user_id o <> user_id profile) ->
    (uuid_of_text (param "id" req) = Some id ->
     run (cancelOrder req) w = (Respond 404 (json_error "Order not found"), w))
    /\ (forall value,
          Joi.validate paymentSchema (body req) = inr value ->
          as_uuid_value (get "orderId" value) = inr id ->
          run (processPayment ext req) w
          = (Respond 404 (json_error "Order not found"), w)).
Proof.
  intros req [db cs] profile id Hprofile Hothers. cbn [store] in *.
  destruct (profile_of_select _ _ _ Hprofile) as [rest Hsel].
  pose proof (select_not_owned _ _ _ (owned_order_of_others _ _ _ Hothers)) as Hnone.
  split.
  - intros Hid. unfold cancelOrder, run, try_catch. rewrite (as_uuid_read _ _ Hid).
    cbv zeta. answer Hsel. answer Hnone. reflexivity.
  - intros value Hvalid Hid.
    unfold processPayment, run, try_catch. rewrite Hvalid. cbn [validated].
    erewrite bind_value; [|reflexivity]. cbv beta.
    answer Hsel. rewrite Hid. answer Hnone. reflexivity.
Qed.

Lemma select_no_user (clerk : string) (db : database) :
  profile_of clerk db = None -> select_user_id_by_clerk_id clerk db = inr ([], db).
Proof.
  intros H. unfold select_user_id_by_clerk_id. rewrite (filter_find_none _ _ H).
  reflexivity.
Qed.

(** A signed-in user who has no profile yet is answered 404 and nothing
    is written: by [createOrder] and [processPayment] (to a body their
    schema accepts), by [cancelOrder], [getOrderById] and
    [getPaymentByOrderId] (whatever identifier the URL holds), by
    [getProfile], by [addAddress] (to a body its schema accepts and that
    holds no U+0000, which PostgreSQL refuses before it looks for the
    profile) and by [removeAddress] (at an index from 0 to
    [Number.MAX_SAFE_INTEGER]). *)
Theorem users_without_a_profile_are_answered_404 :
  forall (req : request) (w : world),
    profile_of (clerkId (user req)) (store w) = None ->
    (forall value,
        Joi.validate createOrderSchema (body req) = inr value ->
        run (createOrder req) w
        = (Respond 404
             (json_error "User profile not found. Please complete your profile first."),
           w))
    /\ (forall value,
          Joi.validate paymentSchema (body req) = inr value ->
          run (processPayment ext req) w = (Respond 404 (json_error "User not found"), w))
    /\ run (cancelOrder req) w = (Respond 404 (json_error "User not found"), w)
    /\ conclude (getOrderById req) w = (inl (Respond 404 (json_error "User not found")), w)
    /\ run (getPaymentByOrderId req) w = (Respond 404 (json_error "User not found"), w)
    /\ run (getProfile req) w = (Respond 404 (json_error "Profile not found"), w)
    /\ (forall value,
          Joi.validate addressSchema (body req) = inr value ->
          holds_nul value = false ->
          run (addAddress req) w = (Respond 404 (json_error "Profile not found"), w))
    /\ (forall index,
          parseInt10 (param "index" req) = Some index ->
          (0 <= index <= Joi.MAX_SAFE_INTEGER)%Z ->
          run (removeAddress req) w = (Respond 404 (json_error "Profile not found"), w)).
Proof.
  intros req [db cs] Hnone. cbn [store] in *.
  pose proof (select_no_user _ _ Hnone) as Hsel.
  repeat match goal with |- _ /\ _ => split end.
  - intros value Hvalid. unfold createOrder, run, try_catch. rewrite Hvalid.
    cbn [validated]. erewrite bind_value; [|reflexivity]. cbv beta zeta.
    answer Hsel. reflexivity.
  - intros value Hvalid. unfold processPayment, run, try_catch. rewrite Hvalid.
    cbn [validated]. erewrite bind_value; [|reflexivity]. cbv beta zeta.
    answer Hsel. reflexivity.
  - unfold cancelOrder, run, try_catch. cbv zeta. answer Hsel. reflexivity.
  - unfold getOrderById, conclude, try_catch. cbv zeta. answer Hsel. reflexivity.
  - unfold getPaymentByOrderId, run, try_catch. cbv zeta. answer Hsel. reflexivity.
  - assert (Hrows : select_user_by_clerk_id (clerkId (user req)) db = inr ([], db)).
    { unfold select_user_by_clerk_id. rewrite (filter_find_none _ _ Hnone). reflexivity. }
    unfold getProfile, run, try_catch. cbv zeta. answer Hrows. reflexivity.
  - intros value Hvalid Hnul. unfold addAddress, run, try_catch. rewrite Hvalid.
    cbn [validated]. erewrite bind_value; [|reflexivity]. cbv beta zeta.
    assert (Hupdate : append_saved_address value (clerkId (user req)) (time req) db
                      = inr ([], db)).
    { unfold append_saved_address, as_jsonb. rewrite Hnul. cbn [and_then].
      apply update_users_without_profile. exact Hnone. }
    answer Hupdate. reflexivity.
  - intros index Hindex [Hpositive _]. unfold removeAddress, run, try_catch. cbv zeta.
    rewrite Hindex.
    replace (index <? 0)%Z with false by (symmetry; apply Z.ltb_ge; exact Hpositive).
    assert (Hupdate : remove_saved_address index (clerkId (user req)) (time req) db
                      = inr ([], db))
      by (apply update_users_without_profile; exact Hnone).
    answer Hupdate. reflexivity.
Qed.

Lemma owned_order_first (id owner : uuid) (db : database) (o : order_row) :
  order_of id db = Some o -> order_user_id o = owner ->
  owned_order id owner db = Some o.
Proof.
  unfold order_of, owned_order. intros H Ho.
  induction (orders db) as [|r rows IH]; cbn in *; [discriminate|].
  destruct (N.eqb (order_id r) id); cbn [andb].
  - injection H as ->. rewrite Ho, N.eqb_refl. reflexivity.
  - exact (IH H).
Qed.

(** A status update can be read back by the owner.  Once
    [updateOrderStatus] has answered 200 for an order, [getOrderById] by
    the order's owner answers with the order that [updateOrderStatus]
    returned, in the status asked for, and with the order's former
    history entries plus one, from the former status to the new one. *)
Theorem getOrderById_shows_the_status_update :
  forall (req lookup : request) (w w' : world) (answered : option order_row) (id : uuid)
         (current : order_row) (profile : user_row),
    run (updateOrderStatus req) w = (Respond 200 (json_order answered), w') ->
    uuid_of_text (param "id" req) = Some id ->
    order_of id (store w) = Some current ->
    profile_of (clerkId (user lookup)) (store w) = Some profile ->
    order_user_id current = user_id profile ->
    param "id" lookup = param "id" req ->
    exists (value : JS.value) (updated : order_row) (entry : history_row)
           (entries : list history_row),
      Joi.validate updateStatusSchema (body req) = inr value
      /\ answered = Some updated
      /\ get "status" value = Some (VString (order_status_text (status updated)))
      /\ conclude (getOrderById lookup) w'
         = (inr (json_order_details updated entries), w')
      /\ Permutation entries (history_of id (store w) ++ [entry])
      /\ history_order_id entry = id
      /\ old_status entry = Some (status current)
      /\ new_status entry = status updated.
Proof.
  intros req lookup w w' answered id current profile Hrun Hid Hcurrent Hprofile Howner
    Hparam.
  destruct (Joi.validate updateStatusSchema (body req)) as [msg|value] eqn:Hvalid.
  { unfold updateOrderStatus, run, try_catch, bind in Hrun. rewrite Hvalid in Hrun.
    cbn in Hrun. discriminate Hrun. }
  destruct (updateStatusSchema_value _ _ Hvalid) as (target & note & -> & _).
  rewrite (updateOrderStatus_run req w id current target note Hid Hcurrent Hvalid) in Hrun.
  destruct (note_is_text note); [|discriminate Hrun].
  injection Hrun as <- <-.
  eexists _, _, (transition_entry id (status current) target note (time req) (store w)), _.
  split; [reflexivity|]. split; [reflexivity|]. split; [reflexivity|]. split.
  - apply getOrderById_owned with (id := id) (profile := profile).
    + rewrite Hparam. exact Hid.
    + exact Hprofile.
    + cbn [store].
      change (owned_order id (user_id profile) (with_history_entry ?h ?d))
        with (owned_order id (user_id profile) d).
      apply owned_order_with_status. apply owned_order_first; assumption.
  - split; [|repeat split].
    cbn [store]. rewrite history_of_with_history_entry.
    cbn [transition_entry history_order_id]. rewrite N.eqb_refl.
    rewrite history_of_with_status. apply newest_first_rows.
Qed.

End Ownership.

(* ================================================================== *)
(** * The theorems at work on the sample data *)
(* ================================================================== *)

Section Instances.

Import Sample.
Import OrderController AuthController PaymentController.
#[local] Existing Instance sample_formats.



(** Alice cannot cancel her completed order; she can cancel it while it
    is pending. *)
Lemma cancelOrder_sample :
  (uuid_of_text (param "id" cancel_request) = Some 1%N
   /\ profile_of (clerkId (user cancel_request)) (store with_completed_order)
      = Some alice_profile
   /\ owned_order 1 (user_id alice_profile) (store with_completed_order)
      = Some completed_order
   /\ run (cancelOrder cancel_request) with_completed_order
      = (Respond 400 (json_error "Order cannot be cancelled"), with_completed_order))
  /\ exists answered w' entry,
       run (cancelOrder cancel_request) with_order
       = (Respond 200 (json_order (Some answered)), w')
       /\ status answered = cancelled
       /\ order_status_history (store w')
          = (order_status_history (store with_order) ++ [entry])%list
       /\ old_status entry = Some pending
       /\ new_status entry = cancelled.
Proof.
  split.
  - split; [reflexivity|]. split; [reflexivity|]. split; [reflexivity|].
    exact (cancelOrder_refuses_terminal_orders (formats := sample_formats) cancel_request with_completed_order 1%N
             alice_profile completed_order ltac:(vm_compute; reflexivity) ltac:(vm_compute; reflexivity) ltac:(vm_compute; reflexivity)).
  - destruct (cancelOrder_refuses_terminal_orders (formats := sample_formats) cancel_request with_order 1%N
                alice_profile the_order ltac:(vm_compute; reflexivity) ltac:(vm_compute; reflexivity) ltac:(vm_compute; reflexivity))
      as (answered & w' & entry & Hrun & _ & Hstatus & _ & _ & Hhistory & _ & Hold & Hnew).
    exists answered, w', entry. repeat split; assumption.
Defined.

(** A second charge of the paid order is refused without any call. *)
Lemma processPayment_sample :
  Joi.validate paymentSchema (body charge_request) = inr charge_value
  /\ profile_of (clerkId (user charge_request)) (store with_completed_payment)
     = Some alice_profile
  /\ owned_order 1 (user_id alice_profile) (store with_completed_payment) = Some the_order
  /\ paid 1 (store with_completed_payment) = true
  /\ run (processPayment (surroundings true) charge_request) with_completed_payment
     = (Respond 400 (json_error "Order already paid"), with_completed_payment).
Proof.
  split; [reflexivity|]. split; [reflexivity|]. split; [reflexivity|].
  split; [reflexivity|].
  exact (proj1 (processPayment_rejects_paid_order (formats := sample_formats) (surroundings true) charge_request
                  with_completed_payment charge_value alice_profile 1%N the_order
                  ltac:(vm_compute; reflexivity) ltac:(vm_compute; reflexivity) ltac:(vm_compute; reflexivity) ltac:(vm_compute; reflexivity) ltac:(vm_compute; reflexivity))).
Defined.

(** The success event delivered twice, and an event of another type. *)
Lemma stripeWebhook_redelivery_sample :
  (exists w1 w2,
      run (stripeWebhook (surroundings false) (delivery "succeeded" 8000))
          with_pending_payment
      = (Respond 200 json_received, w1)
      /\ run (stripeWebhook (surroundings false) (delivery "succeeded" 8500)) w1
         = (Respond 200 json_received, w2)
      /\ map payment_state (payments (store w2)) = map payment_state (payments (store w1))
      /\ same_but_stamps (store w2) (store w1))
  /\ run (stripeWebhook (surroundings false) (delivery "created" 8000)) with_pending_payment
     = (Respond 200 json_received, with_pending_payment).
Proof.
  split.
  - destruct (proj1 (stripeWebhook_redelivery_is_idempotent) (surroundings false)
                (delivery "succeeded" 8000) (delivery "succeeded" 8500)
                with_pending_payment _ ltac:(vm_compute; reflexivity) ltac:(vm_compute; reflexivity) ltac:(vm_compute; reflexivity))
      as (w1 & w2 & H1 & H2 & _ & H3 & H4 & _).
    exists w1, w2. split; [exact H1|]. split; [exact H2|]. split; [exact H3 | exact H4].
  - refine (proj2 (stripeWebhook_redelivery_is_idempotent) (surroundings false)
              (delivery "created" 8000) with_pending_payment _ ltac:(vm_compute; reflexivity) _ _);
      cbn; discriminate.
Defined.

(** A forged delivery changes nothing. *)
Lemma stripeWebhook_forged_sample :
  run (stripeWebhook (surroundings false) (delivery "forged" 8000)) with_pending_payment
  = (Respond 400
       (text_body "Webhook Error: No signatures found matching the expected signature"),
     with_pending_payment).
Proof.
  exact (stripeWebhook_rejects_unverified_signature (surroundings false)
           (delivery "forged" 8000) with_pending_payment _ ltac:(vm_compute; reflexivity)).
Defined.

(** C7 as stated fails: a payment that is failed, not pending, is moved
    to completed by a verified charge-succeeded event.  The payment was
    created pending by a charge and set to failed by an earlier event
    for the same payment intent. *)
Lemma stripeWebhook_moves_a_failed_payment :
  map payment_state (payments (store with_pending_payment)) = [payment_pending]
  /\ run (stripeWebhook (surroundings false) (delivery "failed" 8000)) with_pending_payment
     = (Respond 200 json_received, with_failed_payment)
  /\ map payment_state (payments (store with_failed_payment)) = [payment_failed]
  /\ fst (run (stripeWebhook (surroundings false) (delivery "succeeded" 8500))
              with_failed_payment)
     = Respond 200 json_received
  /\ map payment_state
       (payments
          (store (snd (run (stripeWebhook (surroundings false) (delivery "succeeded" 8500))
                           with_failed_payment))))
     = [payment_completed].
Proof. vm_compute. repeat split. Qed.

(** The amended statement on the same delivery. *)
Lemma stripeWebhook_settles_sample :
  exists w',
    run (stripeWebhook (surroundings false) (delivery "succeeded" 8500)) with_failed_payment
    = (Respond 200 json_received, w')
    /\ orders (store w') = orders (store with_failed_payment)
    /\ map payment_state (payments (store w')) = [payment_completed].
Proof.
  destruct (stripeWebhook_settles_by_intent_only (surroundings false)
              (delivery "succeeded" 8500) with_failed_payment _ ltac:(vm_compute; reflexivity))
    as (w' & Hrun & _ & Horders & _ & _ & Hpayments).
  exists w'. split; [exact Hrun|]. split; [exact Horders|].
  cbn [with_failed_payment store payments] in Hpayments.
  inversion Hpayments as [|before after rest rest' Hp Hrest]; subst.
  inversion Hrest; subst. destruct Hp as (Hsucceeded & _).
  rewrite (Hsucceeded eq_refl eq_refl). reflexivity.
Defined.

(** The equator and the prime meridian are accepted; null is not. *)
Lemma updateDriverLocation_sample :
  (exists order w',
      run (updateDriverLocation
             (location_request (Some (VNumber (finite 0))) (Some (VNumber (finite 0)))))
          with_order
      = (Respond 200 (json_order (Some order)), w')
      /\ driver_location order
         = Some (VObject [("latitude", VNumber (finite 0)); ("longitude", VNumber (finite 0));
                          ("timestamp", VDate 9000)]))
  /\ run (updateDriverLocation (location_request (Some VNull) (Some (VNumber (finite 0)))))
         with_order
     = (Respond 400 (json_error "Valid latitude and longitude coordinates required"),
        with_order)
  /\ run (updateDriverLocation
            (location_request (Some (VNumber NaN)) (Some (VNumber Infinity))))
         with_order
     = (Respond 400 (json_error "Valid latitude and longitude coordinates required"),
        with_order).
Proof.
  split; [|split].
  - destruct (proj1 (proj2 (updateDriverLocation_accepts_exactly_finite_coordinates (formats := sample_formats)))
                (location_request (Some (VNumber (finite 0))) (Some (VNumber (finite 0))))
                with_order 1%N ltac:(vm_compute; reflexivity) ltac:(vm_compute; reflexivity) ltac:(vm_compute; reflexivity))
      as (a & b & order & Ha & Hb & Hrun & _ & Hlocation).
    cbv zeta in Hrun, Hlocation. injection Ha as <-. injection Hb as <-.
    exists order. eexists. split; [exact Hrun | exact Hlocation].
  - exact (proj1 (updateDriverLocation_accepts_exactly_finite_coordinates (formats := sample_formats))
             (location_request (Some VNull) (Some (VNumber (finite 0)))) with_order ltac:(vm_compute; reflexivity)).
  - exact (proj1 (updateDriverLocation_accepts_exactly_finite_coordinates (formats := sample_formats))
             (location_request (Some (VNumber NaN)) (Some (VNumber Infinity)))
             with_order ltac:(vm_compute; reflexivity)).
Defined.


(** Alice's charge, not yet settled by Stripe: Clerk is asked for the
    customer, Stripe for an intent over the order's price in cents, and one
    pending payment carrying the intent is kept. *)
Lemma processPayment_attempt_sample :
  let record :=
    payment_record (store with_order) 1 (user_id alice_profile) None (Some "pi_1")
      (price the_order) payment_pending (Some "pm_1") None 7000 in
  run (processPayment (surroundings false) charge_request) with_order
  = (Respond 200 (json_payment (Some record) (Some "pi_1_secret")),
     {| store := with_new_payment record (store with_order);
        calls := (calls with_order
                  ++ [clerk_users_getUser "user_alice"]
                  ++ [stripe_paymentIntents_create (Math_round (price the_order * 100))
                        (Some (VString "cus_1")) (Some (VString "pm_1"))
                        (Some (VString "1")) (user_id alice_profile) "user_alice"])%list |}).
Proof.
  pose proof (processPayment_records_every_attempt (formats := sample_formats)
                (surroundings false) charge_request (store with_order) (calls with_order)
                alice_profile "1" "pm_1" 1%N the_order
                {| publicMetadata := Some [("stripeCustomerId", VString "cus_1")] |}
                (VString "cus_1")
                ltac:(reflexivity) ltac:(discriminate) ltac:(discriminate)
                ltac:(reflexivity)
                ltac:(reflexivity) ltac:(reflexivity) ltac:(reflexivity)
                ltac:(reflexivity) ltac:(reflexivity) ltac:(reflexivity)
                ltac:(reflexivity)) as H.
  exact (H eq_refl eq_refl eq_refl).
Defined.

(** Two starts in a row from the initial manager: one task polls. *)
Lemma startRealTimeUpdates_sample :
  let once := fst (OrderManager.startRealTimeUpdates "A" OrderManager.init) in
  OrderManager.only_registered_polls "A" once
  /\ OrderManager.active_timers "A" (fst (OrderManager.startRealTimeUpdates "A" once))
     = [1%nat].
Proof.
  intros once.
  assert (H : OrderManager.only_registered_polls "A" once).
  { vm_compute. intros t x Hx. destruct t as [|[|t]]; vm_compute in Hx; try discriminate Hx; auto. }
  split; [exact H|].
  exact (proj2 (proj2 (proj2 (proj2
           (OrderManagerFacts.startRealTimeUpdates_replaces_the_registered_task "A" once))))
           H).
Defined.

End Instances.

(* ================================================================== *)
(** * The further properties at work on the sample data *)
(* ================================================================== *)

Section MoreInstances.

Import Sample Example.
Import OrderController AuthController PaymentController.
Import OrderQueries PaymentQueries ProfileController.
#[local] Existing Instance sample_formats.
#[local] Existing Instance sample_planner.

(** Alice reads back the order she has just created. *)
Lemma getOrderById_created_sample :
  run (createOrder order_request) with_alice
  = (Respond 201 (json_order (Some the_order)), with_order)
  /\ exists entry,
       new_status entry = pending
       /\ conclude (getOrderById lookup_request) with_order
          = (inr (json_order_details the_order [entry]), with_order).
Proof.
  split; [reflexivity|].
  destruct (getOrderById_returns_the_created_order
              (formats := sample_formats) (planner := sample_planner)
              order_request with_alice with_order the_order
              ltac:(vm_compute; reflexivity) ltac:(vm_compute; reflexivity))
    as (entry & _ & Hnew & _ & Hlookup).
  exists entry. split; [exact Hnew|]. apply Hlookup; reflexivity.
Defined.

(** Bob asks for Alice's order and is told there is none. *)
Lemma getOrderById_hidden_sample :
  uuid_of_text (param "id" bob_lookup) = Some 1%N
  /\ profile_of (clerkId (user bob_lookup)) (store with_bob) = Some bob_profile
  /\ conclude (getOrderById bob_lookup) with_bob
     = (inl (Respond 404 (json_error "Order not found")), with_bob).
Proof.
  split; [reflexivity|]. split; [reflexivity|].
  apply (proj1 (getOrderById_shows_own_orders_only
                  (formats := sample_formats) (planner := sample_planner)
                  bob_lookup with_bob 1%N bob_profile
                  ltac:(vm_compute; reflexivity) ltac:(vm_compute; reflexivity))).
  intros o [<-|[]] _. vm_compute. discriminate.
Defined.

(** Alice lists her pending orders, ten to a page. *)
Lemma getUserOrders_sample :
  exists page,
    conclude (getUserOrders first_page lookup_request) with_order
    = (inr (json_orders page (Some (length page))), with_order)
    /\ (Z.of_nat (length page) <= 10)%Z
    /\ forall o, In o page -> status o = pending.
Proof.
  destruct (getUserOrders_lists_own_orders (planner := sample_planner)
              first_page lookup_request with_order alice_profile (Some pending) 10 0
              ltac:(vm_compute; reflexivity) ltac:(vm_compute; reflexivity)
              ltac:(vm_compute; reflexivity) ltac:(unfold Joi.MAX_SAFE_INTEGER; lia)
              ltac:(vm_compute; reflexivity) ltac:(unfold Joi.MAX_SAFE_INTEGER; lia))
    as (sorted & _ & _ & Hrun & Hlength & Hown).
  eexists. split; [exact Hrun|]. split; [exact Hlength|].
  intros o Ho. exact (proj2 (proj2 (Hown o Ho)) pending eq_refl).
Defined.

(** Alice lists her payments once the charge is pending. *)
Lemma getUserPayments_sample :
  exists sorted,
    conclude (getUserPayments payment_lookup) with_pending_payment
    = (inr (json_payments sorted), with_pending_payment)
    /\ Permutation sorted (payments (store with_pending_payment)).
Proof.
  destruct (proj1 (payment_queries_show_own_payments
                     (formats := sample_formats) (planner := sample_planner)
                     payment_lookup with_pending_payment alice_profile
                     ltac:(vm_compute; reflexivity)))
    as (sorted & Hperm & _ & Hrun).
  exists sorted. split; [exact Hrun | exact Hperm].
Defined.

(** Alice reads back the profile she has just completed. *)
Lemma getProfile_sample :
  run (upsertProfile Sample.profile_request) nobody
  = (Respond 200 (json_user (Some alice_profile)), with_alice)
  /\ run (getProfile lookup_request) with_alice
     = (Respond 200 (json_user (Some alice_profile)), with_alice).
Proof.
  split; [reflexivity|].
  exact (getProfile_returns_the_upserted_profile (formats := sample_formats)
           Sample.profile_request nobody with_alice alice_profile
           ltac:(vm_compute; reflexivity) lookup_request eq_refl).
Defined.

(** An order named [abc] cannot be cancelled: 500. *)
Lemma malformed_identifier_sample :
  uuid_of_text (param "id" malformed_request) = None
  /\ exists e,
       fst (received (Next e)) = 500%nat
       /\ run (updateOrderStatus malformed_request) with_order = (Next e, with_order)
       /\ run (cancelOrder malformed_request) with_order = (Next e, with_order).
Proof.
  split; [reflexivity|].
  destruct (malformed_identifiers_are_answered_500
              (formats := sample_formats) (planner := sample_planner)
              malformed_request with_order ltac:(vm_compute; reflexivity))
    as (e & Hstatus & Hupdate & _ & Hprofile).
  exists e. split; [exact Hstatus|]. split.
  - exact (Hupdate (status_body ready None) ltac:(vm_compute; reflexivity)).
  - exact (proj1 (Hprofile alice_profile ltac:(vm_compute; reflexivity))).
Defined.

(** Bob's charge lacks its payment method and names Alice's order: a
    failed payment is recorded for that order, under Bob's name. *)
Lemma processPayment_refused_sample :
  Joi.validate paymentSchema (body refused_charge) = inl "paymentMethodId is required"
  /\ order_user_id the_order <> user_id bob_profile
  /\ run (processPayment (surroundings false) refused_charge) with_bob
     = (Next (joi_error "paymentMethodId is required"),
        {| store := with_new_payment
                      (payment_record (store with_bob) 1 (user_id bob_profile) None None 0
                         payment_failed None (Some "paymentMethodId is required") 9900)
                      (store with_bob);
           calls := calls with_bob |}).
Proof.
  split; [reflexivity|]. split; [vm_compute; discriminate|].
  exact (processPayment_records_refused_bodies (formats := sample_formats)
           (surroundings false) refused_charge with_bob "paymentMethodId is required" "1"
           1%N bob_profile
           ltac:(vm_compute; reflexivity) ltac:(vm_compute; reflexivity)
           ltac:(vm_compute; reflexivity)
           ltac:(discriminate) ltac:(vm_compute; reflexivity)
           ltac:(vm_compute; reflexivity) ltac:(vm_compute; reflexivity)).
Defined.

(** Express, ironing twice and an add-on without a price: 80. *)
Lemma calculatePrice_sample :
  exists p total,
    conclude (Pricing.calculatePrice price_request) nobody = (inr p, nobody)
    /\ Pricing.totalPrice p = finite total
    /\ total == 80.
Proof.
  destruct (calculatePrice_charges_the_known_addons (formats := sample_formats)
              price_request nobody price_value ltac:(vm_compute; reflexivity))
    as (tier & base & names & p & Htier & Hnames & Hbase & Hrun & _ & _ & Hknown & _).
  injection Htier as Htier. injection Hnames as Hnames.
  assert (tier = express) by (destruct tier; (reflexivity || discriminate Htier)).
  subst tier. injection Hbase as <-.
  assert (names = ["ironing"; "gift_wrap"; "ironing"]).
  { destruct names as [|a [|b [|c [|d names]]]]; try discriminate Hnames.
    injection Hnames as <- <- <-. reflexivity. }
  subst names.
  destruct (Hknown ltac:(vm_compute; reflexivity)) as (total & Htotal & Hsum).
  exists p, total. split; [exact Hrun|]. split; [exact Htotal|].
  rewrite Hsum. vm_compute. reflexivity.
Defined.

(** The order becomes ready: it is still among the active ones, and not
    completed. *)
Lemma activeOrders_sample :
  In (app_order Swift.ready)
     (OrderLists.activeOrders
        (OrderLists.run
           [ OrderLists.order_created (app_order Swift.pending);
             OrderLists.details_done "1" (app_order Swift.ready) ]
           OrderLists.init))
  /\ Swift.OrderStatus_.isCompleted (Swift.status (app_order Swift.ready)) = false.
Proof.
  assert (H : In (app_order Swift.ready)
                (OrderLists.activeOrders
                   (OrderLists.run
                      [ OrderLists.order_created (app_order Swift.pending);
                        OrderLists.details_done "1" (app_order Swift.ready) ]
                      OrderLists.init)))
    by (left; reflexivity).
  split; [exact H|].
  exact (activeOrders_holds_no_completed_order _ _ H).
Defined.

(** A fetch has begun and has not come back; an order is created
    meanwhile. *)
Lemma isLoading_sample :
  OrderLists.isLoading
    (OrderLists.run
       ([] ++ [OrderLists.fetch_begun]
           ++ [OrderLists.order_created (app_order Swift.pending)])
       OrderLists.init)
  = true.
Proof.
  apply (isLoading_waits_for_a_successful_fetch []
           [OrderLists.order_created (app_order Swift.pending)]).
  repeat constructor.
Defined.

(** The polling is stopped while its task sleeps; the task wakes up
    twice. *)
Lemma stopped_task_sample :
  exists x',
    OrderManager.created
      (OrderManager.run
         [ OrderManager.step_task 0 OrderManager.fetch_failed;
           OrderManager.step_task 0 OrderManager.fetch_failed ]
         (OrderManager.stopRealTimeUpdates "A" polling)) !! 0%nat
    = Some x'
    /\ OrderManager.isCancelled x' = true
    /\ OrderManager.at_position x' <> OrderManager.fetching.
Proof.
  destruct (a_stopped_task_fetches_no_more polling "A" 0
              {| OrderManager.orderId := "A"; OrderManager.isCancelled := false;
                 OrderManager.at_position := OrderManager.asleep |}
              [ OrderManager.step_task 0 OrderManager.fetch_failed;
                OrderManager.step_task 0 OrderManager.fetch_failed ]
              ltac:(vm_compute; reflexivity) ltac:(vm_compute; reflexivity)
              ltac:(discriminate))
    as (x' & Hx' & _ & Hc & Hp).
  exists x'. split; [exact Hx'|]. split; [exact Hc | exact Hp].
Defined.

(** Alice adds "Home" and removes it again. *)
Lemma add_then_remove_sample :
  exists added w1 removed w2,
    run (addAddress (add_request "Home" 1100)) with_alice
    = (Respond 200 (json_user (Some added)), w1)
    /\ saved_addresses added = Some (VArray [labelled "Home"])
    /\ run (removeAddress (remove_request "0" 1200)) w1
       = (Respond 200 (json_user (Some removed)), w2)
    /\ saved_addresses removed = Some (VArray []).
Proof.
  destruct (removing_the_added_address_restores_the_list (formats := sample_formats)
              (add_request "Home" 1100) (remove_request "0" 1200) with_alice
              (labelled "Home") alice_profile []
              ltac:(vm_compute; reflexivity) ltac:(vm_compute; reflexivity)
              ltac:(vm_compute; reflexivity)
              ltac:(vm_compute; reflexivity) ltac:(vm_compute; reflexivity)
              ltac:(reflexivity) ltac:(vm_compute; reflexivity))
    as (added & w1 & removed & w2 & Hadd & Hsaved & Hremove & Hrestored & _).
  exists added, w1, removed, w2. repeat split; assumption.
Defined.

(** Alice saves six addresses. *)
Lemma six_addresses_sample :
  exists after,
    forallb succeeded (fst (serve addAddress six_requests with_alice)) = true
    /\ profile_of "user_alice" (store (snd (serve addAddress six_requests with_alice)))
       = Some after
    /\ saved_addresses after = Some (VArray (map labelled six_labels)).
Proof.
  destruct (addAddress_appends_without_limit (formats := sample_formats)
              six_requests (map labelled six_labels) with_alice "user_alice"
              alice_profile []
              ltac:(vm_compute; repeat split) ltac:(vm_compute; reflexivity)
              ltac:(vm_compute; reflexivity))
    as (after & Hok & _ & Hafter & Hsaved).
  exists after. repeat split; assumption.
Defined.

(** The form filled in with Alice's home. *)
Lemma add_address_form_sample :
  Swift.AddAddressView.isFormValid home_form = true
  /\ Joi.validate addressSchema (body (add_request "Home" 1100))
     = inr (labelled "Home")
  /\ holds_nul (body (add_request "Home" 1100)) = false
  /\ exists after w',
       run (addAddress (add_request "Home" 1100)) with_alice
       = (Respond 200 (json_user (Some after)), w')
       /\ saved_addresses after = Some (VArray [labelled "Home"]).
Proof.
  split; [reflexivity|].
  destruct (the_add_address_form_is_accepted (formats := sample_formats)
              home_form (add_request "Home" 1100) with_alice alice_profile []
              ltac:(vm_compute; reflexivity) ltac:(vm_compute; reflexivity)
              ltac:(vm_compute; reflexivity) ltac:(vm_compute; reflexivity))
    as (Hvalid & Hadd).
  split; [exact Hvalid|]. split; [reflexivity|].
  destruct (Hadd eq_refl) as (after & w' & Hrun & Hsaved).
  exists after, w'. split; assumption.
Defined.

(** Bob can neither cancel nor pay Alice's order. *)
Lemma other_users_orders_sample :
  run (cancelOrder bob_charge) with_bob
  = (Respond 404 (json_error "Order not found"), with_bob)
  /\ run (processPayment (surroundings true) bob_charge) with_bob
     = (Respond 404 (json_error "Order not found"), with_bob).
Proof.
  assert (Hothers : forall o, In o (orders (store with_bob)) -> order_id o = 1%N ->
                              order_user_id o <> user_id bob_profile).
  { intros o [<-|[]] _. vm_compute. discriminate. }
  destruct (other_users_orders_are_refused (formats := sample_formats)
              (surroundings true) bob_charge with_bob bob_profile 1%N
              ltac:(vm_compute; reflexivity) Hothers)
    as [Hcancel Hcharge].
  split; [apply Hcancel; reflexivity|].
  apply (Hcharge charge_value); vm_compute; reflexivity.
Defined.

(** Before her profile exists, Alice can neither order nor look at
    anything. *)
Lemma without_a_profile_sample :
  run (createOrder early_request) nobody
  = (Respond 404
       (json_error "User profile not found. Please complete your profile first."),
     nobody)
  /\ run (cancelOrder early_request) nobody
     = (Respond 404 (json_error "User not found"), nobody)
  /\ run (getProfile early_request) nobody
     = (Respond 404 (json_error "Profile not found"), nobody)
  /\ run (removeAddress early_request) nobody
     = (Respond 404 (json_error "Profile not found"), nobody).
Proof.
  destruct (users_without_a_profile_are_answered_404
              (formats := sample_formats) (planner := sample_planner)
              (surroundings true) early_request nobody ltac:(vm_compute; reflexivity))
    as (Hcreate & _ & Hcancel & _ & _ & Hprofile & _ & Hremove).
  split; [apply (Hcreate order_value); vm_compute; reflexivity|].
  split; [exact Hcancel|]. split; [exact Hprofile|].
  apply (Hremove 0%Z); [vm_compute; reflexivity | unfold Joi.MAX_SAFE_INTEGER; lia].
Defined.

(** Alice sees that her order has been completed. *)
Lemma status_update_read_back_sample :
  run (updateOrderStatus (status_request "1" alice completed None 3000)) with_order
  = (Respond 200 (json_order (Some completed_order)), with_completed_order)
  /\ exists entries,
       conclude (getOrderById lookup_request) with_completed_order
       = (inr (json_order_details completed_order entries), with_completed_order)
       /\ length entries = 2%nat.
Proof.
  split; [reflexivity|].
  destruct (getOrderById_shows_the_status_update
              (formats := sample_formats) (planner := sample_planner)
              (status_request "1" alice completed None 3000) lookup_request
              with_order with_completed_order (Some completed_order) 1%N the_order
              alice_profile
              ltac:(vm_compute; reflexivity) ltac:(vm_compute; reflexivity)
              ltac:(vm_compute; reflexivity) ltac:(vm_compute; reflexivity)
              ltac:(vm_compute; reflexivity) ltac:(vm_compute; reflexivity))
    as (value & updated & entry & entries & _ & Hanswered & _ & Hlookup & Hentries & _).
  injection Hanswered as <-.
  exists entries. split; [exact Hlookup|].
  rewrite (Permutation_length Hentries). reflexivity.
Defined.

End MoreInstances.

(* ================================================================== *)
(** * What PostgreSQL refuses, on the sample data *)
(* ================================================================== *)

Section RefusedValues.

Import Sample.
Import OrderController AuthController PaymentController.
#[local] Existing Instance sample_formats.

(** Three thousand million items pass the schema and do not fit the
    [INTEGER] column: the [INSERT] fails, the answer is 500 and no order
    is created. *)
Example item_count_out_of_range :
  let body :=
    VObject [("pickupAddress", home); ("deliveryAddress", home);
             ("scheduledTime", VString "1700000000000");
             ("serviceType", VString "express");
             ("itemCount", VNumber (finite 3000000000))] in
  run (createOrder (request_of alice [] body 2000)) with_alice
  = (Next (pg_error numeric_value_out_of_range), with_alice)
  /\ fst (received (Next (pg_error numeric_value_out_of_range))) = 500%nat.
Proof. split; vm_compute; reflexivity. Qed.

(** A note holding U+0000 passes the schema; the [UPDATE] is made, the
    [INSERT] into the history fails, and the answer is 500: the order is
    completed and its history still has the creation entry only. *)
Example note_with_nul :
  let req := status_request "1" alice completed (Some ("left at door" ++ nul)) 3000 in
  fst (run (updateOrderStatus req) with_order)
  = Next (pg_error character_not_in_repertoire)
  /\ option_map status (order_of 1 (store (snd (run (updateOrderStatus req) with_order))))
     = Some completed
  /\ length (history_of 1 (store (snd (run (updateOrderStatus req) with_order)))) = 1%nat.
Proof. repeat split; vm_compute; reflexivity. Qed.

(** An address whose label holds U+0000 passes the schema and is refused
    by [jsonb]: the answer is 500 and nothing is appended. *)
Example address_with_nul :
  run (addAddress (add_request ("Home" ++ nul) 1100)) with_alice
  = (Next (pg_error untranslatable_character), with_alice)
  /\ fst (received (Next (pg_error untranslatable_character))) = 500%nat.
Proof. split; vm_compute; reflexivity. Qed.

(** A [VARCHAR(255)] column keeps 255 characters, drops the spaces
    beyond them, and refuses anything else.  A payment method of 256
    letters passes the schema and the charge is made; the [INSERT] of the
    payment then fails, and the [catch] block records a failed payment. *)
Example payment_method_too_long :
  let req :=
    request_of alice []
      (VObject [("orderId", VString "1"); ("paymentMethodId", VString (letters 256))])
      7000 in
  Sql.varchar 255 (Some (letters 255)) = inr (Some (letters 255))
  /\ Sql.varchar 255 (Some (letters 255 ++ "  ")) = inr (Some (letters 255))
  /\ Sql.varchar 255 (Some (letters 256)) = inl string_data_right_truncation
  /\ fst (run (processPayment (surroundings false) req) with_order)
     = Next (pg_error string_data_right_truncation)
  /\ map payment_state
       (payments (store (snd (run (processPayment (surroundings false) req) with_order))))
     = [payment_failed].
Proof. repeat split; vm_compute; reflexivity. Qed.

(** [parseInt] skips a no-break space as it skips a space. *)
Example parseInt_skips_no_break_space :
  parseInt10 (String (ascii_of_nat 160) "20") = Some 20%Z
  /\ parseInt10 " 20" = Some 20%Z
  /\ parseInt10 "x20" = None.
Proof. repeat split; vm_compute; reflexivity. Qed.

End RefusedValues.
